(** * odrive_ros2_control: the ODrive hardware interface

    A shallow embedding of
    [odrive_hardware_interface/src/odrive_hardware_interface.cpp] and of the
    class declared in [odrive_hardware_interface.hpp], with the properties
    the specification states about [configure], [start], [stop], [read] and
    [write].

    - C [double] is Rocq's primitive binary64 [float]; C [float] is a
      [spec_float] rounded to binary32 (24 bits of mantissa, emax 128).
    - C [int] values are [Z]; [std::stoi] checks the [int] range itself.
      The endpoint [base + per_axis_offset * axis_[i]] is computed with
      the 32-bit operations [int_mul] and [int_add]: where the product or
      the sum leaves the range of [int] (undefined in C++) they wrap
      around, as the two's complement build does.
    - [std::vector] is [list], read with stdpp's [!!] and written with
      [<[i:=x]>]; an index outside the vector is undefined behaviour in
      C++ and is the outcome [Undefined_behaviour] here.
    - [std::unordered_map<std::string, std::string>] is [gmap string string].
    - the member functions run in a state monad over the adapter object,
      with early [return], C++ exceptions, and the list of observable
      events (USB transfers and log lines) the call produced. *)

From Stdlib Require Import ZArith Reals Floats Ascii String Lra Lia.
From Stdlib Require Uint63.
From stdpp Require Import base option list gmap strings.

Set Default Proof Using "Type".
Set Warnings "-inexact-float".
Local Open Scope Z_scope.

(** ** Arithmetic of the unit conversions *)

(** The operations the conversions of [read] and [write] use, on C's
    [double] and [float].  The code is instantiated at IEEE 754 below; the
    instance over the real numbers gives the conversions their exact
    meaning. *)
Class CArith := {
  c_double : Type;
  c_float : Type;
  dbl_mul : c_double -> c_double -> c_double;
  dbl_div : c_double -> c_double -> c_double;
  flt_mul : c_float -> c_float -> c_float;
  dbl_of_int : Z -> c_double;
  flt_of_int : Z -> c_float;
  (** the promotion [float] to [double] and the narrowing assignment *)
  dbl_of_flt : c_float -> c_double;
  flt_of_dbl : c_double -> c_float;
  (** the literal [8.27] and [M_PI] of <cmath> *)
  lit_8_27 : c_double;
  M_PI : c_double;
}.

Section Conversions.
Context `{CArith}.

(** [hw_efforts_[i] = Iq_measured * 8.27 / KV_[i]]: the [float] is
    promoted, the [int] converted, both operations are on [double]. *)
Definition effort_of_current (Iq_measured : c_float) (KV : Z) : c_double :=
  dbl_div (dbl_mul (dbl_of_flt Iq_measured) lit_8_27) (dbl_of_int KV).

(** [vel_estimate * 2 * M_PI] (and the same for [pos_estimate]): the first
    product is [float * int], computed on [float]; the second is on
    [double]. *)
Definition radians_of_turns (estimate : c_float) : c_double :=
  dbl_mul (dbl_of_flt (flt_mul estimate (flt_of_int 2))) M_PI.

(** [Iq_setpoint = hw_commands_efforts_[i] / 8.27 * KV_[i]], assigned to a
    [float]. *)
Definition current_of_effort (effort : c_double) (KV : Z) : c_float :=
  flt_of_dbl (dbl_mul (dbl_div effort lit_8_27) (dbl_of_int KV)).

(** [input_vel = hw_commands_velocities_[i] / 2 / M_PI] (and the same for
    [input_pos]), assigned to a [float]. *)
Definition turns_of_radians (command : c_double) : c_float :=
  flt_of_dbl (dbl_div (dbl_div command (dbl_of_int 2)) M_PI).
End Conversions.

(** *** IEEE 754: the arithmetic the compiled code runs *)

Definition binary32 : Type := spec_float.

(** Conversion of a [double] to [float]: round to nearest even at 24 bits,
    to an infinity beyond the range of [float] (what IEEE 754 hardware
    does; C++ leaves that case undefined). *)
Definition binary32_of_double (x : float) : binary32 :=
  match Prim2SF x with
  | S754_finite s m e => binary_round 24 128 s m e
  | y => y
  end.

Definition double_of_binary32 (x : binary32) : float := SF2Prim x.

Definition double_of_Z (z : Z) : float :=
  SF2Prim (binary_normalize 53 1024 z 0 false).

Definition binary32_of_Z (z : Z) : binary32 :=
  binary_normalize 24 128 z 0 false.

#[export] Instance ieee754 : CArith := {|
  c_double := float;
  c_float := binary32;
  dbl_mul := PrimFloat.mul;
  dbl_div := PrimFloat.div;
  flt_mul := SFmul 24 128;
  dbl_of_int := double_of_Z;
  flt_of_int := binary32_of_Z;
  dbl_of_flt := double_of_binary32;
  flt_of_dbl := binary32_of_double;
  lit_8_27 := 8.27%float;
  M_PI := 0x1.921fb54442d18p+1%float;
|}.

(** [std::numeric_limits<double>::quiet_NaN()] *)
Definition quiet_NaN : float := PrimFloat.nan.

(** *** The numbers the data stand for *)







(** *** The real numbers: the conversions without rounding *)

Definition real_arith : CArith := {|
  c_double := R;
  c_float := R;
  dbl_mul := Rmult;
  dbl_div := Rdiv;
  flt_mul := Rmult;
  dbl_of_int := IZR;
  flt_of_int := IZR;
  dbl_of_flt := fun x => x;
  flt_of_dbl := fun x => x;
  lit_8_27 := (827 / 100)%R;
  M_PI := PI;
|}.

(** ** [std::stoi] *)

Inductive exception :=
  | std_out_of_range
  | std_invalid_argument.

Definition INT_MIN : Z := - 2 ^ 31.
Definition INT_MAX : Z := 2 ^ 31 - 1.

(** [int] arithmetic.  A result outside [INT_MIN .. INT_MAX] is undefined
    in C++; the build, on a two's complement machine and without traps,
    keeps its low 32 bits, and so does the model. *)
Definition int_wrap (z : Z) : Z := (z - INT_MIN) mod 2 ^ 32 + INT_MIN.
Definition int_add (a b : Z) : Z := int_wrap (a + b).
Definition int_mul (a b : Z) : Z := int_wrap (a * b).

Definition isspace (c : ascii) : bool :=
  let n := Z.of_nat (nat_of_ascii c) in
  (n =? 32) || ((9 <=? n) && (n <=? 13)).

Definition isdigit (c : ascii) : bool :=
  let n := Z.of_nat (nat_of_ascii c) in
  (48 <=? n) && (n <=? 57).

Definition digit_value (c : ascii) : Z := Z.of_nat (nat_of_ascii c) - 48.

Fixpoint skip_spaces (s : string) : string :=
  match s with
  | String c s' => if isspace c then skip_spaces s' else s
  | EmptyString => s
  end.

(** The longest prefix of decimal digits, as a number; [acc] is [None] until
    a digit has been read. *)
Fixpoint digits (s : string) (acc : option Z) : option Z :=
  match s with
  | String c s' =>
      if isdigit c then digits s' (Some (10 * default 0 acc + digit_value c))
      else acc
  | EmptyString => acc
  end.

(** [strtol(s, &end, 10)]: leading white space, an optional sign, decimal
    digits; [None] when no conversion is performed ([end == s]). *)
Definition strtol10 (s : string) : option Z :=
  let s := skip_spaces s in
  let '(neg, s) :=
    match s with
    | String "-"%char s' => (true, s')
    | String "+"%char s' => (false, s')
    | _ => (false, s)
    end in
  match digits s None with
  | Some n => Some (if neg : bool then - n else n)
  | None => None
  end.

(** [std::stoi(s)]: [std::invalid_argument] when nothing converts,
    [std::out_of_range] when the value does not fit an [int]. *)
Definition stoi (s : string) : exception + Z :=
  match strtol10 s with
  | None => inl std_invalid_argument
  | Some v =>
      if (INT_MIN <=? v) && (v <=? INT_MAX) then inr v else inl std_out_of_range
  end.

(** ** Data model *)

(** [hardware_interface::return_type] *)
Inductive return_type := OK | ERROR.

(** [hardware_interface::status] *)
Inductive status := UNKNOWN | CONFIGURED | STARTED | STOPPED.

Inductive integration_level_t := UNDEFINED | EFFORT | VELOCITY | POSITION.

#[export] Instance return_type_eq_dec : EqDecision return_type.
Proof. solve_decision. Defined.
#[export] Instance integration_level_t_eq_dec : EqDecision integration_level_t.
Proof. solve_decision. Defined.

(** [hardware_interface::InterfaceInfo]; only its [name] is read. *)
Record InterfaceInfo := { if_name : string }.

(** [hardware_interface::ComponentInfo] *)
Record ComponentInfo := {
  name : string;
  command_interfaces : list InterfaceInfo;
  state_interfaces : list InterfaceInfo;
  parameters : gmap string string;
}.

(** [hardware_interface::HardwareInfo]; only [joints] is read. *)
Record HardwareInfo := { joints : list ComponentInfo }.

(** The interface names of [hardware_interface_type_values.hpp]. *)
Definition HW_IF_POSITION : string := "position".
Definition HW_IF_VELOCITY : string := "velocity".
Definition HW_IF_EFFORT : string := "effort".

Definition AXIS_STATE_IDLE : Z := 1.
Definition AXIS_STATE_CLOSED_LOOP_CONTROL : Z := 8.

(** The endpoint identifiers of the ODrive's register map.  They are
    declared in [odrive_usb.hpp]'s headers, outside this translation unit,
    and are taken as parameters. *)
Class Endpoints := {
  per_axis_offset : Z;
  AXIS__REQUESTED_STATE : Z;
  AXIS__MOTOR__CURRENT_CONTROL__IQ_MEASURED : Z;
  AXIS__MOTOR__CURRENT_CONTROL__IQ_SETPOINT : Z;
  AXIS__ENCODER__VEL_ESTIMATE : Z;
  AXIS__ENCODER__POS_ESTIMATE : Z;
  AXIS__CONTROLLER__INPUT_VEL : Z;
  AXIS__CONTROLLER__INPUT_POS : Z;
}.

(** The value of a [write<T>]: [int32_t] for the requested state, [float]
    for the setpoints. *)
Inductive wire_value :=
  | Int32 (v : Z)
  | Float (v : binary32).

(** The [ODriveUSB] transport of [odrive_usb.hpp], outside this translation
    unit: an opaque device with single-shot parameterised transfers, taken
    as a parameter.  Each operation returns libusb's result code ([0] is
    success) and the next state of the device. *)
Class ODriveUSB := {
  Dev : Type;
  (** [new ODriveUSB()] *)
  usb_new : Dev;
  usb_init : Dev -> Z * Dev;
  (** [read(odrive_handle_, endpoint, float&)] *)
  usb_read : Dev -> Z -> Z * binary32 * Dev;
  (** [write(odrive_handle_, endpoint, value)] *)
  usb_write : Dev -> Z -> wire_value -> Z * Dev;
}.

(** The text of a log line: a format with its arguments, or
    [libusb_error_name(result)]. *)
Inductive log_text :=
  | Fmt (format : string) (args : list string)
  | libusb_error_name (result : Z).

(** What a call does that its caller or the device can observe. *)
Inductive event :=
  | EvInit (result : Z)
  | EvRead (endpoint : Z) (result : Z) (value : binary32)
  | EvWrite (endpoint : Z) (value : wire_value) (result : Z)
  | EvInfo (text : log_text)
  | EvError (text : log_text).

(** The member vector a handle points into. *)
Inductive buffer :=
  | Positions | Velocities | Efforts
  | CommandPositions | CommandVelocities | CommandEfforts.

(** [&v[i]]: the address of element [i] of the member vector [v]. *)
Record pointer := { target : buffer; offset : nat }.

(** [hardware_interface::StateInterface] and [CommandInterface]: the
    joint's name, the interface name and the pointer to the value. *)
Record Handle := {
  handle_name : string;
  interface_name : string;
  value_ptr : pointer;
}.

(** ** The adapter object and the monad of its member functions *)

(** How a statement ends: it falls through with a value, the function
    returns, an exception propagates, or the behaviour is undefined. *)
Inductive flow (A : Type) :=
  | Next (a : A)
  | Return (r : return_type)
  | Throw (e : exception)
  | Undefined_behaviour.
Arguments Next {A} a.
Arguments Return {A} r.
Arguments Throw {A} e.
Arguments Undefined_behaviour {A}.

(** [BaseInterface::configure_default] belongs to ros2_control: it stores
    [info] in [info_], sets [status_] and reports a [return_type].  The
    status it sets and the value it reports are parameters. *)
Class BaseInterface := {
  configure_default_status : HardwareInfo -> status;
  configure_default_result : HardwareInfo -> return_type;
}.

Section Adapter.
Context {endpoints : Endpoints} {transport : ODriveUSB} {base_interface : BaseInterface}.

(** The members of [ODriveHardwareInterface] (with [info_] and [status_] of
    its base class).  [odrive] is [None] until [configure] assigns the
    pointer. *)
Record ODriveHardwareInterface := {
  info_ : HardwareInfo;
  status_ : status;
  odrive : option Dev;
  axis_requested_state_ : Z;
  axis_ : list Z;
  KV_ : list Z;
  hw_commands_positions_ : list float;
  hw_commands_velocities_ : list float;
  hw_commands_efforts_ : list float;
  hw_positions_ : list float;
  hw_velocities_ : list float;
  hw_efforts_ : list float;
  control_level_ : list integration_level_t;
}.

Definition set_info_ (v : HardwareInfo) (o : ODriveHardwareInterface) :=
  {| info_ := v; status_ := status_ o; odrive := odrive o;
     axis_requested_state_ := axis_requested_state_ o;
     axis_ := axis_ o; KV_ := KV_ o;
     hw_commands_positions_ := hw_commands_positions_ o;
     hw_commands_velocities_ := hw_commands_velocities_ o;
     hw_commands_efforts_ := hw_commands_efforts_ o;
     hw_positions_ := hw_positions_ o;
     hw_velocities_ := hw_velocities_ o;
     hw_efforts_ := hw_efforts_ o;
     control_level_ := control_level_ o |}.

Definition set_status_ (v : status) (o : ODriveHardwareInterface) :=
  {| info_ := info_ o; status_ := v; odrive := odrive o;
     axis_requested_state_ := axis_requested_state_ o;
     axis_ := axis_ o; KV_ := KV_ o;
     hw_commands_positions_ := hw_commands_positions_ o;
     hw_commands_velocities_ := hw_commands_velocities_ o;
     hw_commands_efforts_ := hw_commands_efforts_ o;
     hw_positions_ := hw_positions_ o;
     hw_velocities_ := hw_velocities_ o;
     hw_efforts_ := hw_efforts_ o;
     control_level_ := control_level_ o |}.

Definition set_odrive (v : option Dev) (o : ODriveHardwareInterface) :=
  {| info_ := info_ o; status_ := status_ o; odrive := v;
     axis_requested_state_ := axis_requested_state_ o;
     axis_ := axis_ o; KV_ := KV_ o;
     hw_commands_positions_ := hw_commands_positions_ o;
     hw_commands_velocities_ := hw_commands_velocities_ o;
     hw_commands_efforts_ := hw_commands_efforts_ o;
     hw_positions_ := hw_positions_ o;
     hw_velocities_ := hw_velocities_ o;
     hw_efforts_ := hw_efforts_ o;
     control_level_ := control_level_ o |}.

Definition set_axis_requested_state_ (v : Z) (o : ODriveHardwareInterface) :=
  {| info_ := info_ o; status_ := status_ o; odrive := odrive o;
     axis_requested_state_ := v;
     axis_ := axis_ o; KV_ := KV_ o;
     hw_commands_positions_ := hw_commands_positions_ o;
     hw_commands_velocities_ := hw_commands_velocities_ o;
     hw_commands_efforts_ := hw_commands_efforts_ o;
     hw_positions_ := hw_positions_ o;
     hw_velocities_ := hw_velocities_ o;
     hw_efforts_ := hw_efforts_ o;
     control_level_ := control_level_ o |}.

Definition set_axis_ (v : list Z) (o : ODriveHardwareInterface) :=
  {| info_ := info_ o; status_ := status_ o; odrive := odrive o;
     axis_requested_state_ := axis_requested_state_ o;
     axis_ := v; KV_ := KV_ o;
     hw_commands_positions_ := hw_commands_positions_ o;
     hw_commands_velocities_ := hw_commands_velocities_ o;
     hw_commands_efforts_ := hw_commands_efforts_ o;
     hw_positions_ := hw_positions_ o;
     hw_velocities_ := hw_velocities_ o;
     hw_efforts_ := hw_efforts_ o;
     control_level_ := control_level_ o |}.

Definition set_KV_ (v : list Z) (o : ODriveHardwareInterface) :=
  {| info_ := info_ o; status_ := status_ o; odrive := odrive o;
     axis_requested_state_ := axis_requested_state_ o;
     axis_ := axis_ o; KV_ := v;
     hw_commands_positions_ := hw_commands_positions_ o;
     hw_commands_velocities_ := hw_commands_velocities_ o;
     hw_commands_efforts_ := hw_commands_efforts_ o;
     hw_positions_ := hw_positions_ o;
     hw_velocities_ := hw_velocities_ o;
     hw_efforts_ := hw_efforts_ o;
     control_level_ := control_level_ o |}.

Definition set_hw_commands_positions_ (v : list float) (o : ODriveHardwareInterface) :=
  {| info_ := info_ o; status_ := status_ o; odrive := odrive o;
     axis_requested_state_ := axis_requested_state_ o;
     axis_ := axis_ o; KV_ := KV_ o;
     hw_commands_positions_ := v;
     hw_commands_velocities_ := hw_commands_velocities_ o;
     hw_commands_efforts_ := hw_commands_efforts_ o;
     hw_positions_ := hw_positions_ o;
     hw_velocities_ := hw_velocities_ o;
     hw_efforts_ := hw_efforts_ o;
     control_level_ := control_level_ o |}.

Definition set_hw_commands_velocities_ (v : list float) (o : ODriveHardwareInterface) :=
  {| info_ := info_ o; status_ := status_ o; odrive := odrive o;
     axis_requested_state_ := axis_requested_state_ o;
     axis_ := axis_ o; KV_ := KV_ o;
     hw_commands_positions_ := hw_commands_positions_ o;
     hw_commands_velocities_ := v;
     hw_commands_efforts_ := hw_commands_efforts_ o;
     hw_positions_ := hw_positions_ o;
     hw_velocities_ := hw_velocities_ o;
     hw_efforts_ := hw_efforts_ o;
     control_level_ := control_level_ o |}.

Definition set_hw_commands_efforts_ (v : list float) (o : ODriveHardwareInterface) :=
  {| info_ := info_ o; status_ := status_ o; odrive := odrive o;
     axis_requested_state_ := axis_requested_state_ o;
     axis_ := axis_ o; KV_ := KV_ o;
     hw_commands_positions_ := hw_commands_positions_ o;
     hw_commands_velocities_ := hw_commands_velocities_ o;
     hw_commands_efforts_ := v;
     hw_positions_ := hw_positions_ o;
     hw_velocities_ := hw_velocities_ o;
     hw_efforts_ := hw_efforts_ o;
     control_level_ := control_level_ o |}.

Definition set_hw_positions_ (v : list float) (o : ODriveHardwareInterface) :=
  {| info_ := info_ o; status_ := status_ o; odrive := odrive o;
     axis_requested_state_ := axis_requested_state_ o;
     axis_ := axis_ o; KV_ := KV_ o;
     hw_commands_positions_ := hw_commands_positions_ o;
     hw_commands_velocities_ := hw_commands_velocities_ o;
     hw_commands_efforts_ := hw_commands_efforts_ o;
     hw_positions_ := v;
     hw_velocities_ := hw_velocities_ o;
     hw_efforts_ := hw_efforts_ o;
     control_level_ := control_level_ o |}.

Definition set_hw_velocities_ (v : list float) (o : ODriveHardwareInterface) :=
  {| info_ := info_ o; status_ := status_ o; odrive := odrive o;
     axis_requested_state_ := axis_requested_state_ o;
     axis_ := axis_ o; KV_ := KV_ o;
     hw_commands_positions_ := hw_commands_positions_ o;
     hw_commands_velocities_ := hw_commands_velocities_ o;
     hw_commands_efforts_ := hw_commands_efforts_ o;
     hw_positions_ := hw_positions_ o;
     hw_velocities_ := v;
     hw_efforts_ := hw_efforts_ o;
     control_level_ := control_level_ o |}.

Definition set_hw_efforts_ (v : list float) (o : ODriveHardwareInterface) :=
  {| info_ := info_ o; status_ := status_ o; odrive := odrive o;
     axis_requested_state_ := axis_requested_state_ o;
     axis_ := axis_ o; KV_ := KV_ o;
     hw_commands_positions_ := hw_commands_positions_ o;
     hw_commands_velocities_ := hw_commands_velocities_ o;
     hw_commands_efforts_ := hw_commands_efforts_ o;
     hw_positions_ := hw_positions_ o;
     hw_velocities_ := hw_velocities_ o;
     hw_efforts_ := v;
     control_level_ := control_level_ o |}.

Definition set_control_level_ (v : list integration_level_t) (o : ODriveHardwareInterface) :=
  {| info_ := info_ o; status_ := status_ o; odrive := odrive o;
     axis_requested_state_ := axis_requested_state_ o;
     axis_ := axis_ o; KV_ := KV_ o;
     hw_commands_positions_ := hw_commands_positions_ o;
     hw_commands_velocities_ := hw_commands_velocities_ o;
     hw_commands_efforts_ := hw_commands_efforts_ o;
     hw_positions_ := hw_positions_ o;
     hw_velocities_ := hw_velocities_ o;
     hw_efforts_ := hw_efforts_ o;
     control_level_ := v |}.

(** A statement: from the object before it, how it ends, the object after
    it and the events it produced, oldest first. *)
Definition M (A : Type) : Type :=
  ODriveHardwareInterface -> flow A * ODriveHardwareInterface * list event.

Definition ret {A} (a : A) : M A := fun o => (Next a, o, []).

Definition bind {A B} (m : M A) (k : A -> M B) : M B := fun o =>
  match m o with
  | (Next a, o1, es1) => let '(f, o2, es2) := k a o1 in (f, o2, es1 ++ es2)
  | (Return r, o1, es1) => (Return r, o1, es1)
  | (Throw e, o1, es1) => (Throw e, o1, es1)
  | (Undefined_behaviour, o1, es1) => (Undefined_behaviour, o1, es1)
  end.

#[export] Instance M_ret : MRet M := @ret.
#[export] Instance M_bind : MBind M := fun A B k m => bind m k.

Definition return_ {A} (r : return_type) : M A := fun o => (Return r, o, []).
Definition throw {A} (e : exception) : M A := fun o => (Throw e, o, []).
Definition undefined {A} : M A := fun o => (Undefined_behaviour, o, []).
Definition get {A} (field : ODriveHardwareInterface -> A) : M A :=
  fun o => (Next (field o), o, []).
Definition modify (f : ODriveHardwareInterface -> ODriveHardwareInterface) : M unit :=
  fun o => (Next tt, f o, []).
Definition emit (e : event) : M unit := fun o => (Next tt, o, [e]).

(** [if (c) { ... }] without an [else]. *)
Definition when (c : bool) (m : M unit) : M unit := if c then m else ret tt.

(** [v[i]] of a [std::vector]: undefined outside the vector. *)
Definition at_index {A} (v : list A) (i : nat) : M A :=
  match v !! i with
  | Some x => ret x
  | None => undefined
  end.

(** [for (size_t i = first; i < first + n; i++) body(i)] *)
Fixpoint for_range (n : nat) (i : nat) (body : nat -> M unit) : M unit :=
  match n with
  | O => ret tt
  | S n' => body i ;; for_range n' (S i) body
  end.

(** [for (const T& x : xs) body(x)] *)
Fixpoint for_each {A} (xs : list A) (body : A -> M unit) : M unit :=
  match xs with
  | [] => ret tt
  | x :: xs' => body x ;; for_each xs' body
  end.

Definition RCLCPP_INFO (t : log_text) : M unit := emit (EvInfo t).
Definition RCLCPP_ERROR (t : log_text) : M unit := emit (EvError t).

(** After every transfer:
    [if (result != 0) { RCLCPP_ERROR(..., libusb_error_name(result)); return return_type::ERROR; }] *)
Definition transfer_failed (result : Z) : M unit :=
  when (negb (result =? 0))
    (RCLCPP_ERROR (libusb_error_name result);; return_ ERROR).

(** [odrive->read(odrive->odrive_handle_, endpoint, value)] *)
Definition odrive_read (endpoint : Z) : M (Z * binary32) := fun o =>
  match odrive o with
  | None => (Undefined_behaviour, o, [])
  | Some d =>
      let '(result, value, d') := usb_read d endpoint in
      (Next (result, value), set_odrive (Some d') o, [EvRead endpoint result value])
  end.

(** [odrive->write(odrive->odrive_handle_, endpoint, value)] *)
Definition odrive_write (endpoint : Z) (value : wire_value) : M Z := fun o =>
  match odrive o with
  | None => (Undefined_behaviour, o, [])
  | Some d =>
      let '(result, d') := usb_write d endpoint value in
      (Next result, set_odrive (Some d') o, [EvWrite endpoint value result])
  end.

(** [odrive = new ODriveUSB(); int result = odrive->init();] *)
Definition odrive_new_init : M Z := fun o =>
  let '(result, d') := usb_init usb_new in
  (Next result, set_odrive (Some d') o, [EvInit result]).

(** [v[i] = x] on the state buffers. *)
Definition assign_hw_efforts_ (i : nat) (x : float) : M unit :=
  v ← get hw_efforts_;
  _ ← at_index v i;
  modify (set_hw_efforts_ (<[i:=x]> v)).

Definition assign_hw_velocities_ (i : nat) (x : float) : M unit :=
  v ← get hw_velocities_;
  _ ← at_index v i;
  modify (set_hw_velocities_ (<[i:=x]> v)).

Definition assign_hw_positions_ (i : nat) (x : float) : M unit :=
  v ← get hw_positions_;
  _ ← at_index v i;
  modify (set_hw_positions_ (<[i:=x]> v)).

(** [info_.joints.size()] *)
Definition joints_size : M nat := get (fun o => length (joints (info_ o))).

(** ** The member functions *)

Definition is_hw_if (s : string) : bool :=
  bool_decide (s = HW_IF_POSITION) || bool_decide (s = HW_IF_VELOCITY)
  || bool_decide (s = HW_IF_EFFORT).

(** [std::stoi(joint.parameters.at(key))]: [at] throws
    [std::out_of_range] for a missing key, [stoi] as above. *)
Definition parameter (joint : ComponentInfo) (key : string) : M Z :=
  match parameters joint !! key with
  | None => throw std_out_of_range
  | Some text =>
      match stoi text with
      | inl e => throw e
      | inr v => ret v
      end
  end.

(** The body of the loop over [info_.joints] in [configure]. *)
Definition configure_joint (joint : ComponentInfo) : M unit :=
  when (negb (length (command_interfaces joint) =? 3)%nat)
    (RCLCPP_ERROR (Fmt "Joint '%s' has %d command interfaces. 3 expected." [name joint]);;
     return_ ERROR);;
  c0 ← at_index (command_interfaces joint) 0;
  when (negb (is_hw_if (if_name c0)))
    (RCLCPP_ERROR (Fmt "Joint '%s' has %s command interface. Expected %s, %s, or %s."
       [name joint; if_name c0; HW_IF_POSITION; HW_IF_VELOCITY; HW_IF_EFFORT]);;
     return_ ERROR);;
  when (negb (length (state_interfaces joint) =? 3)%nat)
    (RCLCPP_ERROR (Fmt "Joint '%s'has %d state interfaces. 3 expected." [name joint]);;
     return_ ERROR);;
  s0 ← at_index (state_interfaces joint) 0;
  when (negb (is_hw_if (if_name s0)))
    (RCLCPP_ERROR (Fmt "Joint '%s' has %s state interface. Expected %s, %s, or %s."
       [name joint; if_name s0; HW_IF_POSITION; HW_IF_VELOCITY; HW_IF_EFFORT]);;
     return_ ERROR);;
  axis ← parameter joint "axis";
  a ← get axis_;
  modify (set_axis_ (a ++ [axis]));;
  KV ← parameter joint "KV";
  k ← get KV_;
  modify (set_KV_ (k ++ [KV])).

Definition configure (info : HardwareInfo) : M unit :=
  modify (fun o => set_status_ (configure_default_status info) (set_info_ info o));;
  when (negb (bool_decide (configure_default_result info = OK))) (return_ ERROR);;
  n ← joints_size;
  v ← get hw_positions_;
  modify (set_hw_positions_ (resize n quiet_NaN v));;
  v ← get hw_velocities_;
  modify (set_hw_velocities_ (resize n quiet_NaN v));;
  v ← get hw_efforts_;
  modify (set_hw_efforts_ (resize n quiet_NaN v));;
  v ← get hw_commands_positions_;
  modify (set_hw_commands_positions_ (resize n (double_of_Z 0) v));;
  v ← get hw_commands_velocities_;
  modify (set_hw_commands_velocities_ (resize n (double_of_Z 0) v));;
  v ← get hw_commands_efforts_;
  modify (set_hw_commands_efforts_ (resize n (double_of_Z 0) v));;
  v ← get control_level_;
  modify (set_control_level_ (resize n VELOCITY v));;
  js ← get (fun o => joints (info_ o));
  for_each js configure_joint;;
  result ← odrive_new_init;
  transfer_failed result;;
  modify (set_status_ CONFIGURED);;
  return_ OK.

(** The body of the loops of [start] and [stop]. *)
Definition request_state (i : nat) : M unit :=
  a ← get axis_;
  axis ← at_index a i;
  state ← get axis_requested_state_;
  result ← odrive_write (int_add AXIS__REQUESTED_STATE (int_mul per_axis_offset axis)) (Int32 state);
  transfer_failed result.

Definition start : M unit :=
  modify (set_axis_requested_state_ AXIS_STATE_CLOSED_LOOP_CONTROL);;
  n ← joints_size;
  for_range n 0 request_state;;
  modify (set_status_ STARTED);;
  return_ OK.

Definition stop : M unit :=
  modify (set_axis_requested_state_ AXIS_STATE_IDLE);;
  n ← joints_size;
  for_range n 0 request_state;;
  modify (set_status_ STOPPED);;
  return_ OK.

(** One transfer of [read]: the register of axis [axis_[i]], with the early
    [return] on a failure; it gives the [float] that was read. *)
Definition read_register (base : Z) (i : nat) : M binary32 :=
  a ← get axis_;
  axis ← at_index a i;
  '(result, value) ← odrive_read (int_add base (int_mul per_axis_offset axis));
  transfer_failed result;;
  ret value.

(** The body of the loop of [read]. *)
Definition read_joint (i : nat) : M unit :=
  Iq_measured ← read_register AXIS__MOTOR__CURRENT_CONTROL__IQ_MEASURED i;
  k ← get KV_;
  KV ← at_index k i;
  assign_hw_efforts_ i (effort_of_current Iq_measured KV);;
  vel_estimate ← read_register AXIS__ENCODER__VEL_ESTIMATE i;
  assign_hw_velocities_ i (radians_of_turns vel_estimate);;
  pos_estimate ← read_register AXIS__ENCODER__POS_ESTIMATE i;
  assign_hw_positions_ i (radians_of_turns pos_estimate).

Definition read : M unit :=
  n ← joints_size;
  for_range n 0 read_joint;;
  return_ OK.

(** One transfer of [write], with the early [return] on a failure. *)
Definition write_register (base : Z) (i : nat) (value : binary32) : M unit :=
  a ← get axis_;
  axis ← at_index a i;
  result ← odrive_write (int_add base (int_mul per_axis_offset axis)) (Float value);
  transfer_failed result.

(** The body of the loop of [write]: the [switch] on [control_level_[i]]. *)
Definition write_joint (i : nat) : M unit :=
  c ← get control_level_;
  level ← at_index c i;
  match level with
  | UNDEFINED =>
      RCLCPP_INFO (Fmt "Nothing is using the hardware interface!" []);;
      return_ OK
  | EFFORT =>
      e ← get hw_commands_efforts_;
      effort ← at_index e i;
      k ← get KV_;
      KV ← at_index k i;
      write_register AXIS__MOTOR__CURRENT_CONTROL__IQ_SETPOINT i
        (current_of_effort effort KV)
  | VELOCITY =>
      v ← get hw_commands_velocities_;
      velocity ← at_index v i;
      write_register AXIS__CONTROLLER__INPUT_VEL i (turns_of_radians velocity)
  | POSITION =>
      p ← get hw_commands_positions_;
      position ← at_index p i;
      write_register AXIS__CONTROLLER__INPUT_POS i (turns_of_radians position)
  end.

Definition write : M unit :=
  n ← joints_size;
  for_range n 0 write_joint;;
  return_ OK.

(** [&v[i]]: [operator[]] is undefined outside the vector, also when only
    the address is taken. *)
Definition address_of {A} (b : buffer) (v : list A) (i : nat) : M pointer :=
  _ ← at_index v i;
  ret {| target := b; offset := i |}.

(** [for (size_t i = first; i < first + n; i++)] over a body that updates
    a local variable. *)
Fixpoint for_range_with {L} (n : nat) (i : nat) (body : nat -> L -> M L) (l : L) : M L :=
  match n with
  | O => ret l
  | S n' => l' ← body i l; for_range_with n' (S i) body l'
  end.

(** [info_.joints[i].name] *)
Definition joint_name (i : nat) : M string :=
  js ← get (fun o => joints (info_ o));
  joint ← at_index js i;
  ret (name joint).

(** The body of the loop of [export_state_interfaces]: three
    [emplace_back] on the local vector. *)
Definition export_state_joint (i : nat) (state_interfaces : list Handle) : M (list Handle) :=
  n ← joint_name i;
  v ← get hw_positions_;
  p ← address_of Positions v i;
  let state_interfaces :=
    state_interfaces ++ [{| handle_name := n; interface_name := HW_IF_POSITION; value_ptr := p |}] in
  n ← joint_name i;
  v ← get hw_velocities_;
  p ← address_of Velocities v i;
  let state_interfaces :=
    state_interfaces ++ [{| handle_name := n; interface_name := HW_IF_VELOCITY; value_ptr := p |}] in
  n ← joint_name i;
  v ← get hw_efforts_;
  p ← address_of Efforts v i;
  ret (state_interfaces ++
       [{| handle_name := n; interface_name := HW_IF_EFFORT; value_ptr := p |}]).

(** The vector it returns is the value of the block. *)
Definition export_state_interfaces : M (list Handle) :=
  n ← joints_size;
  for_range_with n 0 export_state_joint [].

(** The body of the loop of [export_command_interfaces]. *)
Definition export_command_joint (i : nat) (command_interfaces : list Handle) : M (list Handle) :=
  n ← joint_name i;
  v ← get hw_commands_positions_;
  p ← address_of CommandPositions v i;
  let command_interfaces :=
    command_interfaces ++ [{| handle_name := n; interface_name := HW_IF_POSITION; value_ptr := p |}] in
  n ← joint_name i;
  v ← get hw_commands_velocities_;
  p ← address_of CommandVelocities v i;
  let command_interfaces :=
    command_interfaces ++ [{| handle_name := n; interface_name := HW_IF_VELOCITY; value_ptr := p |}] in
  n ← joint_name i;
  v ← get hw_commands_efforts_;
  p ← address_of CommandEfforts v i;
  ret (command_interfaces ++
       [{| handle_name := n; interface_name := HW_IF_EFFORT; value_ptr := p |}]).

Definition export_command_interfaces : M (list Handle) :=
  n ← joints_size;
  for_range_with n 0 export_command_joint [].

End Adapter.

(** ** Vocabulary of the properties *)

Section Vocabulary.
Context {endpoints : Endpoints} {transport : ODriveUSB} {base_interface : BaseInterface}.

(** Every per-joint vector has one entry per configured joint. *)
Definition sized (o : ODriveHardwareInterface) : Prop :=
  let n := length (joints (info_ o)) in
  length (axis_ o) = n /\ length (KV_ o) = n /\
  length (hw_commands_positions_ o) = n /\
  length (hw_commands_velocities_ o) = n /\
  length (hw_commands_efforts_ o) = n /\
  length (hw_positions_ o) = n /\
  length (hw_velocities_ o) = n /\
  length (hw_efforts_ o) = n /\
  length (control_level_ o) = n.

(** The object as its constructor leaves it: every vector is empty. *)
Definition constructed (o : ODriveHardwareInterface) : Prop :=
  axis_ o = [] /\ KV_ o = [] /\
  hw_commands_positions_ o = [] /\
  hw_commands_velocities_ o = [] /\
  hw_commands_efforts_ o = [] /\
  hw_positions_ o = [] /\
  hw_velocities_ o = [] /\
  hw_efforts_ o = [] /\
  control_level_ o = [].

(** [transfers d es d']: the events [es] are a transcript of the device
    going from [d] to [d']: each transfer carries the result the device
    gave, and log lines leave the device alone. *)
Inductive transfers : Dev -> list event -> Dev -> Prop :=
  | transfers_nil d : transfers d [] d
  | transfers_init d es d' :
      transfers (usb_init usb_new).2 es d' ->
      transfers d (EvInit (usb_init usb_new).1 :: es) d'
  | transfers_read d endpoint es d' :
      transfers (usb_read d endpoint).2 es d' ->
      transfers d (EvRead endpoint (usb_read d endpoint).1.1
                     (usb_read d endpoint).1.2 :: es) d'
  | transfers_write d endpoint value es d' :
      transfers (usb_write d endpoint value).2 es d' ->
      transfers d (EvWrite endpoint value (usb_write d endpoint value).1 :: es) d'
  | transfers_info d t es d' :
      transfers d es d' -> transfers d (EvInfo t :: es) d'
  | transfers_error d t es d' :
      transfers d es d' -> transfers d (EvError t :: es) d'.

(** The register and the value [write] sends for joint [i], by the joint's
    control level; nothing for [UNDEFINED].  The register is
    [base + per_axis_offset * axis_[i]] in [int] arithmetic, as in the
    code. *)
Definition setpoint (o : ODriveHardwareInterface) (i : nat) : option (Z * binary32) :=
  match control_level_ o !! i, axis_ o !! i with
  | Some EFFORT, Some axis =>
      match hw_commands_efforts_ o !! i, KV_ o !! i with
      | Some effort, Some KV =>
          Some (int_add AXIS__MOTOR__CURRENT_CONTROL__IQ_SETPOINT (int_mul per_axis_offset axis),
                current_of_effort effort KV)
      | _, _ => None
      end
  | Some VELOCITY, Some axis =>
      match hw_commands_velocities_ o !! i with
      | Some velocity =>
          Some (int_add AXIS__CONTROLLER__INPUT_VEL (int_mul per_axis_offset axis),
                turns_of_radians velocity)
      | None => None
      end
  | Some POSITION, Some axis =>
      match hw_commands_positions_ o !! i with
      | Some position =>
          Some (int_add AXIS__CONTROLLER__INPUT_POS (int_mul per_axis_offset axis),
                turns_of_radians position)
      | None => None
      end
  | _, _ => None
  end.

(** Event [e] is the transport write of joint [j]'s setpoint, with result
    [result]. *)
Definition wrote (o : ODriveHardwareInterface) (result : Z) (j : nat) (e : event) : Prop :=
  exists endpoint value,
    setpoint o j = Some (endpoint, value) /\ e = EvWrite endpoint (Float value) result.

(** The three successful transfers of [read] for the axis [axis], giving
    the measurements [m] (current, velocity, position), each at its
    register as [int] arithmetic computes it. *)
Definition joint_reads (axis : Z) (m : binary32 * binary32 * binary32) : list event :=
  [ EvRead (int_add AXIS__MOTOR__CURRENT_CONTROL__IQ_MEASURED (int_mul per_axis_offset axis)) 0 m.1.1;
    EvRead (int_add AXIS__ENCODER__VEL_ESTIMATE (int_mul per_axis_offset axis)) 0 m.1.2;
    EvRead (int_add AXIS__ENCODER__POS_ESTIMATE (int_mul per_axis_offset axis)) 0 m.2 ].

(** The state of joint [j] in [o'] is what [read] converts from the
    measurements [m], with the motor constant of [o]. *)
Definition holds_measurement (o o' : ODriveHardwareInterface) (j : nat)
    (m : binary32 * binary32 * binary32) : Prop :=
  exists KV,
    KV_ o !! j = Some KV /\
    hw_efforts_ o' !! j = Some (effort_of_current m.1.1 KV) /\
    hw_velocities_ o' !! j = Some (radians_of_turns m.1.2) /\
    hw_positions_ o' !! j = Some (radians_of_turns m.2).

(** The state buffers of joint [j] are the same in [o] and [o']. *)
Definition same_joint_state (o o' : ODriveHardwareInterface) (j : nat) : Prop :=
  hw_efforts_ o' !! j = hw_efforts_ o !! j /\
  hw_velocities_ o' !! j = hw_velocities_ o !! j /\
  hw_positions_ o' !! j = hw_positions_ o !! j.

(** The calls of the control loop after [configure]. *)
Inductive call := Start | Stop | Read | Write.

Definition run_call (c : call) : M unit :=
  match c with
  | Start => start
  | Stop => stop
  | Read => read
  | Write => write
  end.

(** The object after a sequence of calls, whatever each returned. *)
Definition run_calls (cs : list call) (o : ODriveHardwareInterface) : ODriveHardwareInterface :=
  foldl (fun o c => (run_call c o).1.2) o cs.

(** [sized] and a transport to talk to: what [configure] establishes and
    every later call keeps. *)
Definition ready (o : ODriveHardwareInterface) : Prop := sized o /\ is_Some (odrive o).

(** The endpoint of [axis] over [base] is computed without overflow:
    neither the product nor the sum leaves the range of [int]. *)
Definition no_overflow (base axis : Z) : Prop :=
  INT_MIN <= per_axis_offset * axis <= INT_MAX /\
  INT_MIN <= base + per_axis_offset * axis <= INT_MAX.

(** The write of [state] to the requested-state register of [axis], with
    the result the transport gave. *)
Definition requested (state : Z) (result : Z) (axis : Z) : event :=
  EvWrite (int_add AXIS__REQUESTED_STATE (int_mul per_axis_offset axis)) (Int32 state) result.

(** What [start] and [stop] do, for the state they request and the status
    they leave on success: either one successful write per axis, in the
    order of [axis_], or the successful writes of the first [k] axes, the
    failed write of axis [k] and the error line.  The device ends where
    these transfers leave it. *)
Definition request_outcome (o : ODriveHardwareInterface) (d : Dev) (state : Z)
    (after : status) (run : flow unit * ODriveHardwareInterface * list event) : Prop :=
  exists d', odrive run.1.2 = Some d' /\ transfers d run.2 d' /\
    axis_ run.1.2 = axis_ o /\
    ((run.1.1 = Return OK /\ run.2 = map (requested state 0) (axis_ o) /\
        length run.2 = length (joints (info_ o)) /\ status_ run.1.2 = after) \/
     (exists k axis r, run.1.1 = Return ERROR /\ axis_ o !! k = Some axis /\ r <> 0 /\
        run.2 = map (requested state 0) (take k (axis_ o)) ++
                [requested state r axis; EvError (libusb_error_name r)] /\
        status_ run.1.2 = status_ o)).

(** [start] and [stop] are the same loop, with the state they request and
    the status they leave. *)
Definition request_every_axis (state : Z) (after : status) : M unit :=
  modify (set_axis_requested_state_ state);;
  n ← joints_size;
  for_range n 0 request_state;;
  modify (set_status_ after);;
  return_ OK.

(** The notice [write] logs for an [UNDEFINED] joint. *)
Definition nothing_attached : event :=
  EvInfo (Fmt "Nothing is using the hardware interface!" []).

(** The transfers of [read] for a joint on which a transfer fails with
    result [r]: the successful reads before it, then the failed one. *)
Definition failed_reads (axis : Z) (r : Z) (es : list event) : Prop :=
  (exists c, es = [EvRead (int_add AXIS__MOTOR__CURRENT_CONTROL__IQ_MEASURED (int_mul per_axis_offset axis)) r c]) \/
  (exists c v, es = [EvRead (int_add AXIS__MOTOR__CURRENT_CONTROL__IQ_MEASURED (int_mul per_axis_offset axis)) 0 c;
                     EvRead (int_add AXIS__ENCODER__VEL_ESTIMATE (int_mul per_axis_offset axis)) r v]) \/
  (exists c v p, es = [EvRead (int_add AXIS__MOTOR__CURRENT_CONTROL__IQ_MEASURED (int_mul per_axis_offset axis)) 0 c;
                       EvRead (int_add AXIS__ENCODER__VEL_ESTIMATE (int_mul per_axis_offset axis)) 0 v;
                       EvRead (int_add AXIS__ENCODER__POS_ESTIMATE (int_mul per_axis_offset axis)) r p]).

(** What [read] leaves alone: everything but the transport and the entries
    of the three state buffers. *)
Definition read_frame (o o' : ODriveHardwareInterface) : Prop :=
  info_ o' = info_ o /\ status_ o' = status_ o /\
  axis_requested_state_ o' = axis_requested_state_ o /\
  axis_ o' = axis_ o /\ KV_ o' = KV_ o /\
  hw_commands_positions_ o' = hw_commands_positions_ o /\
  hw_commands_velocities_ o' = hw_commands_velocities_ o /\
  hw_commands_efforts_ o' = hw_commands_efforts_ o /\
  control_level_ o' = control_level_ o /\
  length (hw_positions_ o') = length (hw_positions_ o) /\
  length (hw_velocities_ o') = length (hw_velocities_ o) /\
  length (hw_efforts_ o') = length (hw_efforts_ o).

(** Two objects agree on the command entry each joint's control level
    selects. *)
Definition consulted_commands_agree (o1 o2 : ODriveHardwareInterface) : Prop :=
  forall i,
    match control_level_ o1 !! i with
    | Some EFFORT => hw_commands_efforts_ o1 !! i = hw_commands_efforts_ o2 !! i
    | Some VELOCITY => hw_commands_velocities_ o1 !! i = hw_commands_velocities_ o2 !! i
    | Some POSITION => hw_commands_positions_ o1 !! i = hw_commands_positions_ o2 !! i
    | _ => True
    end.

(** The four checks [configure] makes on a joint's interfaces. *)
Definition valid_interfaces (joint : ComponentInfo) : bool :=
  (length (command_interfaces joint) =? 3)%nat &&
  match command_interfaces joint !! 0%nat with
  | Some c => is_hw_if (if_name c)
  | None => false
  end &&
  (length (state_interfaces joint) =? 3)%nat &&
  match state_interfaces joint !! 0%nat with
  | Some c => is_hw_if (if_name c)
  | None => false
  end.

(** The value of [std::stoi(joint.parameters.at(key))], or the exception it
    throws. *)
Definition parsed (joint : ComponentInfo) (key : string) : exception + Z :=
  match parameters joint !! key with
  | None => inl std_out_of_range
  | Some text => stoi text
  end.

Definition parameters_ok (joint : ComponentInfo) : Prop :=
  (exists axis, parsed joint "axis" = inr axis) /\ (exists KV, parsed joint "KV" = inr KV).

(** The object after [configure_default] and the seven [resize]. *)
Definition prepared (info : HardwareInfo) (o : ODriveHardwareInterface) : ODriveHardwareInterface :=
  let n := length (joints info) in
  {| info_ := info; status_ := configure_default_status info; odrive := odrive o;
     axis_requested_state_ := axis_requested_state_ o;
     axis_ := axis_ o; KV_ := KV_ o;
     hw_commands_positions_ := resize n (double_of_Z 0) (hw_commands_positions_ o);
     hw_commands_velocities_ := resize n (double_of_Z 0) (hw_commands_velocities_ o);
     hw_commands_efforts_ := resize n (double_of_Z 0) (hw_commands_efforts_ o);
     hw_positions_ := resize n quiet_NaN (hw_positions_ o);
     hw_velocities_ := resize n quiet_NaN (hw_velocities_ o);
     hw_efforts_ := resize n quiet_NaN (hw_efforts_ o);
     control_level_ := resize n VELOCITY (control_level_ o) |}.

(** [*value_ptr]: the element of the object a pointer designates, if it
    lies inside its vector. *)
Definition dereference (o : ODriveHardwareInterface) (p : pointer) : option float :=
  match target p with
  | Positions => hw_positions_ o !! offset p
  | Velocities => hw_velocities_ o !! offset p
  | Efforts => hw_efforts_ o !! offset p
  | CommandPositions => hw_commands_positions_ o !! offset p
  | CommandVelocities => hw_commands_velocities_ o !! offset p
  | CommandEfforts => hw_commands_efforts_ o !! offset p
  end.

(** The three handles of joint [i], over the vectors [p], [v] and [e]. *)
Definition joint_handles (p v e : buffer) (i : nat) (joint : ComponentInfo) : list Handle :=
  [ {| handle_name := name joint; interface_name := HW_IF_POSITION;
       value_ptr := {| target := p; offset := i |} |};
    {| handle_name := name joint; interface_name := HW_IF_VELOCITY;
       value_ptr := {| target := v; offset := i |} |};
    {| handle_name := name joint; interface_name := HW_IF_EFFORT;
       value_ptr := {| target := e; offset := i |} |} ].

(** A [double] that is an infinity or not-a-number. *)
Definition not_finite (x : float) : Prop :=
  Prim2SF x = S754_nan \/ exists s, Prim2SF x = S754_infinity s.

(** Event [e] is the write of joint [j]'s velocity command to its velocity
    input, at the register [int] arithmetic gives, with result [result]. *)
Definition velocity_write (o : ODriveHardwareInterface) (result : Z) (j : nat) (e : event) : Prop :=
  exists axis velocity,
    axis_ o !! j = Some axis /\ hw_commands_velocities_ o !! j = Some velocity /\
    e = EvWrite (int_add AXIS__CONTROLLER__INPUT_VEL (int_mul per_axis_offset axis))
          (Float (binary32_of_double (velocity / double_of_Z 2 / M_PI)%float)) result.

(** A joint passes the checks of [configure] and both its parameters
    parse. *)
Definition joint_ok (joint : ComponentInfo) : Prop :=
  valid_interfaces joint = true /\ parameters_ok joint.

(** The handles of all joints over three member vectors, joint by joint. *)
Definition all_handles (p v e : buffer) (js : list ComponentInfo) : list Handle :=
  concat (imap (joint_handles p v e) js).

(** What no call after [configure] changes: the joints, the axes, the
    motor constants, the commands and the control levels. *)
Definition same_configuration (o o' : ODriveHardwareInterface) : Prop :=
  info_ o' = info_ o /\ axis_ o' = axis_ o /\ KV_ o' = KV_ o /\
  hw_commands_positions_ o' = hw_commands_positions_ o /\
  hw_commands_velocities_ o' = hw_commands_velocities_ o /\
  hw_commands_efforts_ o' = hw_commands_efforts_ o /\
  control_level_ o' = control_level_ o.

Definition is_EvRead (e : event) : Prop :=
  match e with
  | EvRead _ _ _ => True
  | _ => False
  end.

Definition is_EvWrite (e : event) : Prop :=
  match e with
  | EvWrite _ _ _ => True
  | _ => False
  end.

(** What [configure] reads of a joint besides its parameters: its name,
    the number of its interfaces and the first interface of either kind. *)
Definition same_checked (joint1 joint2 : ComponentInfo) : Prop :=
  name joint1 = name joint2 /\ parameters joint1 = parameters joint2 /\
  length (command_interfaces joint1) = length (command_interfaces joint2) /\
  length (state_interfaces joint1) = length (state_interfaces joint2) /\
  command_interfaces joint1 !! 0%nat = command_interfaces joint2 !! 0%nat /\
  state_interfaces joint1 !! 0%nat = state_interfaces joint2 !! 0%nat.

(** Two objects that differ at most in [info_]. *)
Definition same_but_info (o1 o2 : ODriveHardwareInterface) : Prop :=
  o2 = set_info_ (info_ o2) o1.

(** [*value_ptr = x]: the object after a store through a pointer that lies
    inside its vector. *)
Definition store (p : pointer) (x : float) (o : ODriveHardwareInterface) : ODriveHardwareInterface :=
  match target p with
  | Positions => set_hw_positions_ (<[offset p := x]> (hw_positions_ o)) o
  | Velocities => set_hw_velocities_ (<[offset p := x]> (hw_velocities_ o)) o
  | Efforts => set_hw_efforts_ (<[offset p := x]> (hw_efforts_ o)) o
  | CommandPositions => set_hw_commands_positions_ (<[offset p := x]> (hw_commands_positions_ o)) o
  | CommandVelocities => set_hw_commands_velocities_ (<[offset p := x]> (hw_commands_velocities_ o)) o
  | CommandEfforts => set_hw_commands_efforts_ (<[offset p := x]> (hw_commands_efforts_ o)) o
  end.

End Vocabulary.

(** ** Test doubles *)

(** A register map for the examples. *)
Definition test_endpoints : Endpoints := {|
  per_axis_offset := 1000;
  AXIS__REQUESTED_STATE := 1;
  AXIS__MOTOR__CURRENT_CONTROL__IQ_MEASURED := 2;
  AXIS__MOTOR__CURRENT_CONTROL__IQ_SETPOINT := 3;
  AXIS__ENCODER__VEL_ESTIMATE := 4;
  AXIS__ENCODER__POS_ESTIMATE := 5;
  AXIS__CONTROLLER__INPUT_VEL := 6;
  AXIS__CONTROLLER__INPUT_POS := 7;
|}.

(** A device that stores what is written and reads it back, except on the
    endpoints listed in [broken], where every transfer fails with
    [LIBUSB_ERROR_IO] (-1). *)
Record echo_device := {
  registers : list (Z * binary32);
  broken : list Z;
}.

Definition echo_read (d : echo_device) (endpoint : Z) : Z * binary32 * echo_device :=
  if bool_decide (endpoint ∈ broken d) then (-1, S754_zero false, d)
  else
    (0, default (S754_zero false) (snd <$> find (fun r => bool_decide (r.1 = endpoint)) (registers d)), d).

Definition echo_write (d : echo_device) (endpoint : Z) (value : wire_value) : Z * echo_device :=
  if bool_decide (endpoint ∈ broken d) then (-1, d)
  else
    match value with
    | Float v => (0, {| registers := (endpoint, v) :: registers d; broken := broken d |})
    | Int32 _ => (0, d)
    end.

(** The transport whose [init] reports [init_result] and whose device has
    the endpoints [broken0] out of order. *)
Definition echo_transport (init_result : Z) (broken0 : list Z) : ODriveUSB := {|
  Dev := echo_device;
  usb_new := {| registers := []; broken := broken0 |};
  usb_init := fun d => (init_result, d);
  usb_read := echo_read;
  usb_write := echo_write;
|}.

Definition interfaces (first : string) : list InterfaceInfo :=
  [ {| if_name := first |}; {| if_name := "velocity" |}; {| if_name := "effort" |} ].

(** A joint with three command and three state interfaces and the given
    [axis] and [KV] parameters. *)
Definition test_joint (n axis KV : string) : ComponentInfo := {|
  name := n;
  command_interfaces := interfaces "position";
  state_interfaces := interfaces "position";
  parameters := {[ "axis" := axis; "KV" := KV ]};
|}.

Definition three_joints : HardwareInfo :=
  {| joints := [ test_joint "a" "0" "100"; test_joint "b" "1" "100"; test_joint "c" "2" "150" ] |}.

(** The object before [configure]: empty vectors, no transport. *)
Definition new_object `{ODriveUSB} : ODriveHardwareInterface := {|
  info_ := {| joints := [] |};
  status_ := UNKNOWN;
  odrive := None;
  axis_requested_state_ := 0;
  axis_ := []; KV_ := [];
  hw_commands_positions_ := [];
  hw_commands_velocities_ := [];
  hw_commands_efforts_ := [];
  hw_positions_ := [];
  hw_velocities_ := [];
  hw_efforts_ := [];
  control_level_ := [];
|}.

(** [configure_default] as ros2_control has it: it reports [OK]. *)
Definition test_base : BaseInterface := {|
  configure_default_status := fun _ => UNKNOWN;
  configure_default_result := fun _ => OK;
|}.

Definition two_joints : HardwareInfo :=
  {| joints := [ test_joint "a" "0" "100"; test_joint "b" "1" "100" ] |}.

(** The device of the examples: measurements in the registers of the three
    axes, and the endpoints [broken0] out of order. *)
Definition bench_device (broken0 : list Z) : @Dev (echo_transport 0 []) :=
  Build_echo_device
    [ (2, binary32_of_double 1.5); (4, binary32_of_double 0.25);
      (5, binary32_of_double 2);
      (1002, binary32_of_double (-3)); (1004, binary32_of_double 0.5);
      (1005, binary32_of_double 1);
      (2002, binary32_of_double 0.75); (2004, binary32_of_double 4);
      (2005, binary32_of_double (-0.125)) ]
    broken0.

(** A configured object with two joints. *)
Definition two_joint_object (dev : @Dev (echo_transport 0 [])) :
    @ODriveHardwareInterface (echo_transport 0 []) := {|
  info_ := two_joints;
  status_ := CONFIGURED;
  odrive := Some dev;
  axis_requested_state_ := 0;
  axis_ := [0; 1]; KV_ := [100; 100];
  hw_commands_positions_ := [0.5; 1]%float;
  hw_commands_velocities_ := [1; 2]%float;
  hw_commands_efforts_ := [0.1; 0.2]%float;
  hw_positions_ := [quiet_NaN; quiet_NaN];
  hw_velocities_ := [quiet_NaN; quiet_NaN];
  hw_efforts_ := [quiet_NaN; quiet_NaN];
  control_level_ := [VELOCITY; VELOCITY];
|}.

(** A configured object with three joints, the control levels [levels] and
    the commands [positions], [velocities] and [efforts]. *)
Definition three_joint_object (levels : list integration_level_t)
    (positions velocities efforts : list float) (dev : @Dev (echo_transport 0 [])) :
    @ODriveHardwareInterface (echo_transport 0 []) := {|
  info_ := three_joints;
  status_ := CONFIGURED;
  odrive := Some dev;
  axis_requested_state_ := 0;
  axis_ := [0; 1; 2]; KV_ := [100; 100; 150];
  hw_commands_positions_ := positions;
  hw_commands_velocities_ := velocities;
  hw_commands_efforts_ := efforts;
  hw_positions_ := [quiet_NaN; quiet_NaN; quiet_NaN];
  hw_velocities_ := [quiet_NaN; quiet_NaN; quiet_NaN];
  hw_efforts_ := [quiet_NaN; quiet_NaN; quiet_NaN];
  control_level_ := levels;
|}.

(** A joint that declares two command interfaces. *)
Definition short_joint : ComponentInfo := {|
  name := "short";
  command_interfaces := [ {| if_name := "position" |}; {| if_name := "velocity" |} ];
  state_interfaces := interfaces "position";
  parameters := {[ "axis" := "1"; "KV" := "100" ]};
|}.

(** A joint without an ["axis"] parameter. *)
Definition joint_without_axis : ComponentInfo := {|
  name := "b";
  command_interfaces := interfaces "velocity";
  state_interfaces := interfaces "position";
  parameters := {[ "KV" := "100" ]};
|}.

(** A joint whose second and third interfaces carry names the adapter
    does not know. *)
Definition unusual_joint (n axis KV : string) : ComponentInfo := {|
  name := n;
  command_interfaces := [ {| if_name := "position" |}; {| if_name := "torque" |}; {| if_name := "position" |} ];
  state_interfaces := [ {| if_name := "position" |}; {| if_name := "temperature" |}; {| if_name := "position" |} ];
  parameters := {[ "axis" := axis; "KV" := KV ]};
|}.

(** ** Properties *)

Section Properties.
Context {endpoints : Endpoints} {transport : ODriveUSB} {base_interface : BaseInterface}.
Implicit Types (o : ODriveHardwareInterface) (d : Dev) (es : list event).

Lemma int_wrap_in_range z : INT_MIN <= z <= INT_MAX -> int_wrap z = z.
Proof.
  unfold int_wrap, INT_MIN, INT_MAX. intros Hz.
  rewrite Z.mod_small by lia. lia.
Qed.

Lemma endpoint_no_overflow base axis :
  no_overflow base axis ->
  int_add base (int_mul per_axis_offset axis) = base + per_axis_offset * axis.
Proof.
  intros [Hm Ha]. unfold int_add, int_mul.
  rewrite (int_wrap_in_range _ Hm). apply int_wrap_in_range, Ha.
Qed.

Lemma transfers_app d es1 d1 es2 d2 :
  transfers d es1 d1 -> transfers d1 es2 d2 -> transfers d (es1 ++ es2) d2.
Proof.
  induction 1; simpl; intros; eauto using transfers.
Qed.

Local Opaque effort_of_current radians_of_turns current_of_effort turns_of_radians.

Ltac ieee_types :=
  change (@c_double ieee754) with float in *;
  change (@c_float ieee754) with binary32 in *.

(** *** Running the statements of the monad *)

Lemma run_bind_get {A B} (field : ODriveHardwareInterface -> A) (k : A -> M B) o :
  (get field ≫= k) o = k (field o) o.
Proof.
  unfold mbind, M_bind, bind, get. destruct (k (field o) o) as [[? ?] ?]. reflexivity.
Qed.

Lemma run_bind_ret {A B} (a : A) (k : A -> M B) o : (ret a ≫= k) o = k a o.
Proof.
  unfold mbind, M_bind, bind, ret. destruct (k a o) as [[? ?] ?]. reflexivity.
Qed.

Lemma run_bind_modify {B} f (k : unit -> M B) o : (modify f ≫= k) o = k tt (f o).
Proof.
  unfold mbind, M_bind, bind, modify. destruct (k tt (f o)) as [[? ?] ?]. reflexivity.
Qed.

Lemma run_bind_at_index {A B} (v : list A) i x (k : A -> M B) o :
  v !! i = Some x -> (at_index v i ≫= k) o = k x o.
Proof. intros H. unfold at_index. rewrite H. apply run_bind_ret. Qed.

Lemma run_bind_when_false {B} m (k : unit -> M B) o : (when false m ≫= k) o = k tt o.
Proof. apply run_bind_ret. Qed.

Lemma run_bind_assoc {A B C} (m : M A) (k1 : A -> M B) (k2 : B -> M C) o :
  ((m ≫= k1) ≫= k2) o = (m ≫= (fun x => k1 x ≫= k2)) o.
Proof.
  unfold mbind, M_bind, bind.
  destruct (m o) as [[[a| | |] o1] es1]; try reflexivity.
  destruct (k1 a o1) as [[[b| | |] o2] es2]; try reflexivity.
  destruct (k2 b o2) as [[? ?] ?]. rewrite app_assoc. reflexivity.
Qed.

Lemma transfer_failed_run result o :
  transfer_failed result o =
    if result =? 0 then (Next tt, o, [])
    else (Return ERROR, o, [EvError (libusb_error_name result)]).
Proof. unfold transfer_failed. destruct (result =? 0); reflexivity. Qed.

Lemma run_bind_odrive_write {B} endpoint value (k : Z -> M B) o d :
  odrive o = Some d ->
  (odrive_write endpoint value ≫= k) o =
    let '(f, o2, es2) := k (usb_write d endpoint value).1
                           (set_odrive (Some (usb_write d endpoint value).2) o) in
    (f, o2, EvWrite endpoint value (usb_write d endpoint value).1 :: es2).
Proof.
  intros H. unfold mbind, M_bind, bind, odrive_write. rewrite H.
  destruct (usb_write d endpoint value) as [r d']. reflexivity.
Qed.

Lemma run_bind_odrive_read {B} endpoint (k : Z * binary32 -> M B) o d :
  odrive o = Some d ->
  (odrive_read endpoint ≫= k) o =
    let '(f, o2, es2) := k (usb_read d endpoint).1
                           (set_odrive (Some (usb_read d endpoint).2) o) in
    (f, o2, EvRead endpoint (usb_read d endpoint).1.1 (usb_read d endpoint).1.2 :: es2).
Proof.
  intros H. unfold mbind, M_bind, bind, odrive_read. rewrite H.
  destruct (usb_read d endpoint) as [[r v] d']. reflexivity.
Qed.

Lemma request_state_run i o d axis :
  odrive o = Some d -> axis_ o !! i = Some axis ->
  request_state i o =
    let endpoint := int_add AXIS__REQUESTED_STATE (int_mul per_axis_offset axis) in
    let value := Int32 (axis_requested_state_ o) in
    let result := (usb_write d endpoint value).1 in
    let o' := set_odrive (Some (usb_write d endpoint value).2) o in
    if result =? 0 then (Next tt, o', [EvWrite endpoint value result])
    else (Return ERROR, o', [EvWrite endpoint value result; EvError (libusb_error_name result)]).
Proof.
  intros Hd Ha. unfold request_state.
  rewrite run_bind_get, (run_bind_at_index _ _ _ _ _ Ha), run_bind_get.
  rewrite (run_bind_odrive_write _ _ _ _ _ Hd).
  fold (transfer_failed (usb_write d (int_add AXIS__REQUESTED_STATE (int_mul per_axis_offset axis))
                           (Int32 (axis_requested_state_ o))).1).
  rewrite transfer_failed_run. cbv zeta.
  destruct (_ =? 0); reflexivity.
Qed.

Lemma set_odrive_same o : set_odrive (odrive o) o = o.
Proof. destruct o; reflexivity. Qed.

Lemma for_range_S n i (body : nat -> M unit) o :
  for_range (S n) i body o =
    match body i o with
    | (Next _, o1, es1) =>
        let '(f, o2, es2) := for_range n (S i) body o1 in (f, o2, es1 ++ es2)
    | (Return r, o1, es1) => (Return r, o1, es1)
    | (Throw e, o1, es1) => (Throw e, o1, es1)
    | (Undefined_behaviour, o1, es1) => (Undefined_behaviour, o1, es1)
    end.
Proof. reflexivity. Qed.

Lemma request_state_loop n : forall i o d f o' es,
  odrive o = Some d -> (i + n <= length (axis_ o))%nat ->
  for_range n i request_state o = (f, o', es) ->
  exists d' k, o' = set_odrive (Some d') o /\ transfers d es d' /\ (k <= n)%nat /\
    let ok := map (requested (axis_requested_state_ o) 0) (take k (drop i (axis_ o))) in
    ((f = Next tt /\ k = n /\ es = ok) \/
     (exists axis r, f = Return ERROR /\ (k < n)%nat /\
        axis_ o !! (i + k)%nat = Some axis /\ r <> 0 /\
        es = ok ++ [requested (axis_requested_state_ o) r axis;
                    EvError (libusb_error_name r)])).
Proof.
  induction n as [|n IH]; intros i o d f o' es Hd Hlen Hrun.
  - inversion Hrun; subst. exists d, 0%nat.
    rewrite <- Hd, set_odrive_same. repeat split; [constructor | lia | left; auto].
  - destruct (lookup_lt_is_Some_2 (axis_ o) i) as [axis Ha]; [lia|].
    rewrite for_range_S, (request_state_run i o d axis Hd Ha) in Hrun.
    cbv zeta in Hrun.
    set (endpoint := int_add AXIS__REQUESTED_STATE (int_mul per_axis_offset axis)) in *.
    set (value := Int32 (axis_requested_state_ o)) in *.
    destruct (usb_write d endpoint value) as [r d1] eqn:Ew. simpl in Hrun.
    assert (Htr : forall es2 d2, transfers d1 es2 d2 ->
              transfers d (EvWrite endpoint value r :: es2) d2).
    { intros es2 d2 H2. pose proof (transfers_write d endpoint value es2 d2) as T.
      rewrite Ew in T. simpl in T. auto. }
    destruct (r =? 0) eqn:Er.
    + apply Z.eqb_eq in Er. subst r.
      destruct (for_range n (S i) request_state (set_odrive (Some d1) o))
        as [[f2 o2] es2] eqn:E2.
      inversion Hrun; subst; clear Hrun.
      apply (IH _ _ d1) in E2; [|reflexivity|simpl; lia].
      destruct E2 as (d' & k & -> & Ht & Hk & Hcase). simpl in Hcase.
      exists d', (S k). split; [reflexivity|]. split; [auto|]. split; [lia|].
      cbv zeta. rewrite (drop_S _ _ _ Ha). simpl.
      destruct Hcase as [(-> & -> & ->)|(ax & r & -> & Hlt & Hax & Hr & ->)].
      * left. auto.
      * right. exists ax, r. repeat split; auto; try lia.
        replace (i + S k)%nat with (S i + k)%nat by lia. auto.
    + apply Z.eqb_neq in Er. inversion Hrun; subst; clear Hrun.
      exists d1, 0%nat. split; [reflexivity|]. split.
      { apply Htr. constructor. constructor. }
      split; [lia|]. right. exists axis, r. rewrite Nat.add_0_r.
      repeat split; auto; lia.
Qed.

Lemma write_register_run base i value o d axis :
  odrive o = Some d -> axis_ o !! i = Some axis ->
  write_register base i value o =
    let endpoint := int_add base (int_mul per_axis_offset axis) in
    let result := (usb_write d endpoint (Float value)).1 in
    let o' := set_odrive (Some (usb_write d endpoint (Float value)).2) o in
    if result =? 0 then (Next tt, o', [EvWrite endpoint (Float value) result])
    else (Return ERROR, o', [EvWrite endpoint (Float value) result;
                             EvError (libusb_error_name result)]).
Proof.
  intros Hd Ha. unfold write_register.
  rewrite run_bind_get, (run_bind_at_index _ _ _ _ _ Ha).
  rewrite (run_bind_odrive_write _ _ _ _ _ Hd).
  fold (transfer_failed (usb_write d (int_add base (int_mul per_axis_offset axis)) (Float value)).1).
  rewrite transfer_failed_run. cbv zeta.
  destruct (_ =? 0); reflexivity.
Qed.

Lemma write_joint_undefined i o :
  control_level_ o !! i = Some UNDEFINED ->
  write_joint i o = (Return OK, o, [nothing_attached]).
Proof.
  intros Hc. unfold write_joint.
  rewrite run_bind_get, (run_bind_at_index _ _ _ _ _ Hc). reflexivity.
Qed.

Lemma write_joint_defined i o d endpoint value :
  odrive o = Some d -> setpoint o i = Some (endpoint, value) ->
  write_joint i o =
    let result := (usb_write d endpoint (Float value)).1 in
    let o' := set_odrive (Some (usb_write d endpoint (Float value)).2) o in
    if result =? 0 then (Next tt, o', [EvWrite endpoint (Float value) result])
    else (Return ERROR, o', [EvWrite endpoint (Float value) result;
                             EvError (libusb_error_name result)]).
Proof.
  intros Hd Hs. unfold setpoint in Hs. unfold write_joint. rewrite run_bind_get.
  destruct (control_level_ o !! i) as [level|] eqn:Hc; [|discriminate].
  rewrite (run_bind_at_index _ _ _ _ _ Hc).
  destruct (axis_ o !! i) as [axis|] eqn:Ha; [|destruct level; discriminate].
  destruct level; try discriminate.
  - destruct (hw_commands_efforts_ o !! i) eqn:He; try discriminate.
    destruct (KV_ o !! i) eqn:Hk; try discriminate.
    inversion Hs; subst; clear Hs.
    rewrite run_bind_get, (run_bind_at_index _ _ _ _ _ He).
    rewrite run_bind_get, (run_bind_at_index _ _ _ _ _ Hk).
    apply write_register_run; auto.
  - destruct (hw_commands_velocities_ o !! i) eqn:He; try discriminate.
    inversion Hs; subst; clear Hs.
    rewrite run_bind_get, (run_bind_at_index _ _ _ _ _ He).
    apply write_register_run; auto.
  - destruct (hw_commands_positions_ o !! i) eqn:He; try discriminate.
    inversion Hs; subst; clear Hs.
    rewrite run_bind_get, (run_bind_at_index _ _ _ _ _ He).
    apply write_register_run; auto.
Qed.

Lemma setpoint_is_Some i o level :
  sized o -> control_level_ o !! i = Some level -> level <> UNDEFINED ->
  is_Some (setpoint o i).
Proof.
  intros (Ha & Hk & Hp & Hv & He & _ & _ & _ & Hc) Hl Hne.
  pose proof (lookup_lt_Some _ _ _ Hl) as Hi.
  destruct (lookup_lt_is_Some_2 (axis_ o) i) as [? E1]; [lia|].
  destruct (lookup_lt_is_Some_2 (KV_ o) i) as [? E2]; [lia|].
  unfold setpoint. rewrite Hl, E1.
  destruct level; try congruence; rewrite ?E2.
  - destruct (hw_commands_efforts_ o !! i) eqn:E; [eauto|].
    apply lookup_ge_None in E. ieee_types. lia.
  - destruct (hw_commands_velocities_ o !! i) eqn:E; [eauto|].
    apply lookup_ge_None in E. ieee_types. lia.
  - destruct (hw_commands_positions_ o !! i) eqn:E; [eauto|].
    apply lookup_ge_None in E. ieee_types. lia.
Qed.

Lemma write_loop n : forall i o d f o' es,
  odrive o = Some d -> sized o -> (i + n <= length (joints (info_ o)))%nat ->
  for_range n i write_joint o = (f, o', es) ->
  exists d' k pre tail,
    o' = set_odrive (Some d') o /\ transfers d es d' /\ (k <= n)%nat /\
    es = pre ++ tail /\ Forall2 (wrote o 0) (seq i k) pre /\
    ((f = Next tt /\ k = n /\ tail = []) \/
     (f = Return OK /\ (k < n)%nat /\
        control_level_ o !! (i + k)%nat = Some UNDEFINED /\ tail = [nothing_attached]) \/
     (exists r e, f = Return ERROR /\ (k < n)%nat /\ r <> 0 /\
        wrote o r (i + k) e /\ tail = [e; EvError (libusb_error_name r)])).
Proof.
  induction n as [|n IH]; intros i o d f o' es Hd Hs Hlen Hrun.
  - inversion Hrun; subst. exists d, 0%nat, [], [].
    rewrite <- Hd, set_odrive_same.
    repeat split; [constructor | lia | constructor | left; auto].
  - rewrite for_range_S in Hrun.
    assert (Hc : is_Some (control_level_ o !! i)).
    { apply lookup_lt_is_Some_2. destruct Hs as (_&_&_&_&_&_&_&_&->). lia. }
    destruct Hc as [level Hc].
    destruct (decide (level = UNDEFINED)) as [->|Hne].
    + rewrite (write_joint_undefined _ _ Hc) in Hrun. inversion Hrun; subst.
      exists d, 0%nat, [], [nothing_attached].
      rewrite <- Hd, set_odrive_same, Nat.add_0_r.
      repeat split; [repeat constructor | lia | constructor | ].
      right; left. repeat split; auto. lia.
    + destruct (setpoint_is_Some i o level Hs Hc Hne) as [[endpoint value] Hsp].
      rewrite (write_joint_defined i o d endpoint value Hd Hsp) in Hrun.
      cbv zeta in Hrun.
      destruct (usb_write d endpoint (Float value)) as [r d1] eqn:Ew. simpl in Hrun.
      assert (Htr : forall es2 d2, transfers d1 es2 d2 ->
                transfers d (EvWrite endpoint (Float value) r :: es2) d2).
      { intros es2 d2 H2. pose proof (transfers_write d endpoint (Float value) es2 d2) as T.
        rewrite Ew in T. simpl in T. auto. }
      assert (Hw : wrote o r i (EvWrite endpoint (Float value) r)).
      { exists endpoint, value. auto. }
      destruct (r =? 0) eqn:Er.
      * apply Z.eqb_eq in Er. subst r.
        destruct (for_range n (S i) write_joint (set_odrive (Some d1) o))
          as [[f2 o2] es2] eqn:E2.
        inversion Hrun; subst; clear Hrun.
        apply (IH _ _ d1) in E2; [|reflexivity|exact Hs|simpl; lia].
        destruct E2 as (d' & k & pre & tail & -> & Ht & Hk & -> & Hpre & Hcase).
        exists d', (S k), (EvWrite endpoint (Float value) 0 :: pre), tail.
        split; [reflexivity|]. split; [auto|]. split; [lia|]. split; [reflexivity|].
        split; [simpl; constructor; auto|].
        replace (i + S k)%nat with (S i + k)%nat by lia.
        destruct Hcase as [(-> & -> & ->)|[(-> & Hlt & Hu & ->)|(r & e & -> & Hlt & Hr & He & ->)]].
        -- left. auto.
        -- right; left. repeat split; auto; lia.
        -- right; right. exists r, e. repeat split; auto; lia.
      * apply Z.eqb_neq in Er. inversion Hrun; subst; clear Hrun.
        exists d1, 0%nat, [], [EvWrite endpoint (Float value) r; EvError (libusb_error_name r)].
        split; [reflexivity|]. split; [apply Htr; repeat constructor|].
        split; [lia|]. split; [reflexivity|]. split; [constructor|].
        right; right. exists r, (EvWrite endpoint (Float value) r).
        rewrite Nat.add_0_r. repeat split; auto; lia.
Qed.

(** *** read *)

Lemma read_frame_refl o : read_frame o o.
Proof. repeat split. Qed.

Lemma read_frame_trans o1 o2 o3 : read_frame o1 o2 -> read_frame o2 o3 -> read_frame o1 o3.
Proof. unfold read_frame. intros H1 H2. intuition congruence. Qed.

Lemma read_frame_sized o o' : read_frame o o' -> sized o -> sized o'.
Proof. unfold read_frame, sized. intros H1 H2. cbv zeta in *. intuition congruence. Qed.

Lemma same_joint_state_refl o j : same_joint_state o o j.
Proof. repeat split. Qed.

Lemma same_joint_state_trans o1 o2 o3 j :
  same_joint_state o1 o2 j -> same_joint_state o2 o3 j -> same_joint_state o1 o3 j.
Proof. unfold same_joint_state. intuition congruence. Qed.

Lemma run_bind_read_register {B} base i (k : binary32 -> M B) o d axis :
  odrive o = Some d -> axis_ o !! i = Some axis ->
  (read_register base i ≫= k) o =
    let endpoint := int_add base (int_mul per_axis_offset axis) in
    let r := (usb_read d endpoint).1.1 in
    let v := (usb_read d endpoint).1.2 in
    let o1 := set_odrive (Some (usb_read d endpoint).2) o in
    if r =? 0 then let '(f, o2, es2) := k v o1 in (f, o2, EvRead endpoint r v :: es2)
    else (Return ERROR, o1, [EvRead endpoint r v; EvError (libusb_error_name r)]).
Proof.
  intros Hd Ha. unfold read_register.
  rewrite run_bind_assoc, run_bind_get, run_bind_assoc, (run_bind_at_index _ _ _ _ _ Ha).
  rewrite run_bind_assoc, (run_bind_odrive_read _ _ _ _ Hd).
  destruct (usb_read d (int_add base (int_mul per_axis_offset axis))) as [[r v] d1]. simpl.
  rewrite run_bind_assoc.
  unfold mbind at 1, M_bind at 1, bind at 1. rewrite transfer_failed_run.
  destruct (r =? 0); [|reflexivity].
  rewrite run_bind_ret.
  destruct (k v _) as [[? ?] ?]. reflexivity.
Qed.

Ltac fields :=
  cbn beta iota zeta delta
    [info_ status_ odrive axis_requested_state_ axis_ KV_
     hw_commands_positions_ hw_commands_velocities_ hw_commands_efforts_
     hw_positions_ hw_velocities_ hw_efforts_ control_level_
     set_info_ set_status_ set_odrive set_axis_requested_state_ set_axis_ set_KV_
     set_hw_commands_positions_ set_hw_commands_velocities_ set_hw_commands_efforts_
     set_hw_positions_ set_hw_velocities_ set_hw_efforts_ set_control_level_
     fst snd] in *.

Lemma run_bind_assign_hw_efforts_ {B} i x (k : unit -> M B) o :
  (i < length (hw_efforts_ o))%nat ->
  (assign_hw_efforts_ i x ≫= k) o = k tt (set_hw_efforts_ (<[i:=x]> (hw_efforts_ o)) o).
Proof.
  intros Hi. destruct (lookup_lt_is_Some_2 _ _ Hi) as [y Hy]. unfold assign_hw_efforts_.
  rewrite run_bind_assoc, run_bind_get, run_bind_assoc, (run_bind_at_index _ _ _ _ _ Hy).
  apply run_bind_modify.
Qed.

Lemma run_bind_assign_hw_velocities_ {B} i x (k : unit -> M B) o :
  (i < length (hw_velocities_ o))%nat ->
  (assign_hw_velocities_ i x ≫= k) o = k tt (set_hw_velocities_ (<[i:=x]> (hw_velocities_ o)) o).
Proof.
  intros Hi. destruct (lookup_lt_is_Some_2 _ _ Hi) as [y Hy]. unfold assign_hw_velocities_.
  rewrite run_bind_assoc, run_bind_get, run_bind_assoc, (run_bind_at_index _ _ _ _ _ Hy).
  apply run_bind_modify.
Qed.

Lemma assign_hw_positions_run i x o :
  (i < length (hw_positions_ o))%nat ->
  assign_hw_positions_ i x o = (Next tt, set_hw_positions_ (<[i:=x]> (hw_positions_ o)) o, []).
Proof.
  intros Hi. destruct (lookup_lt_is_Some_2 _ _ Hi) as [y Hy]. unfold assign_hw_positions_.
  rewrite run_bind_get, (run_bind_at_index _ _ _ _ _ Hy). reflexivity.
Qed.

Lemma transfers_read_1 d endpoint r v d1 es d2 :
  usb_read d endpoint = (r, v, d1) -> transfers d1 es d2 ->
  transfers d (EvRead endpoint r v :: es) d2.
Proof.
  intros E H. pose proof (transfers_read d endpoint es d2) as T.
  rewrite E in T. apply T, H.
Qed.

Lemma read_joint_run i o d axis KV :
  odrive o = Some d -> axis_ o !! i = Some axis -> KV_ o !! i = Some KV ->
  (i < length (hw_efforts_ o))%nat -> (i < length (hw_velocities_ o))%nat ->
  (i < length (hw_positions_ o))%nat ->
  exists f o1 es d1,
    read_joint i o = (f, o1, es) /\ odrive o1 = Some d1 /\ transfers d es d1 /\
    read_frame o o1 /\ (forall j, j <> i -> same_joint_state o o1 j) /\
    ((exists m, f = Next tt /\ es = joint_reads axis m /\ holds_measurement o o1 i m) \/
     (exists r fr, f = Return ERROR /\ r <> 0 /\ failed_reads axis r fr /\
        es = fr ++ [EvError (libusb_error_name r)])).
Proof.
  intros Hd Ha Hk He Hv Hp. unfold read_joint.
  rewrite (run_bind_read_register _ _ _ _ _ _ Hd Ha). cbv zeta.
  destruct (usb_read d _) as [[r1 c] d1] eqn:E1. fields.
  destruct (r1 =? 0) eqn:Er1; [apply Z.eqb_eq in Er1; subst r1|apply Z.eqb_neq in Er1].
  2:{ eexists _, _, _, d1. split; [reflexivity|]. fields.
      split; [reflexivity|]. split; [eapply transfers_read_1; eauto; repeat constructor|].
      split; [repeat split|]. split; [intros; repeat split|].
      right. exists r1, [EvRead (int_add AXIS__MOTOR__CURRENT_CONTROL__IQ_MEASURED (int_mul per_axis_offset axis)) r1 c].
      repeat split; auto. left. eauto. }
  rewrite run_bind_get. fields. rewrite (run_bind_at_index _ _ _ _ _ Hk).
  rewrite run_bind_assign_hw_efforts_ by (fields; auto). fields.
  erewrite run_bind_read_register; [|reflexivity|fields; eauto]. cbv zeta.
  destruct (usb_read d1 _) as [[r2 v] d2] eqn:E2. fields.
  destruct (r2 =? 0) eqn:Er2; [apply Z.eqb_eq in Er2; subst r2|apply Z.eqb_neq in Er2].
  2:{ eexists _, _, _, d2. split; [reflexivity|]. fields.
      split; [reflexivity|].
      split; [eapply transfers_read_1; eauto; eapply transfers_read_1; eauto; repeat constructor|].
      split; [repeat split; fields; auto; apply length_insert|].
      split; [intros j Hj; repeat split; fields; auto; apply list_lookup_insert_ne; auto|].
      right. exists r2, [EvRead (int_add AXIS__MOTOR__CURRENT_CONTROL__IQ_MEASURED (int_mul per_axis_offset axis)) 0 c;
                         EvRead (int_add AXIS__ENCODER__VEL_ESTIMATE (int_mul per_axis_offset axis)) r2 v].
      repeat split; auto. right; left. eauto. }
  rewrite run_bind_assign_hw_velocities_ by (fields; auto). fields.
  erewrite run_bind_read_register; [|reflexivity|fields; eauto]. cbv zeta.
  destruct (usb_read d2 _) as [[r3 p] d3] eqn:E3. fields.
  destruct (r3 =? 0) eqn:Er3; [apply Z.eqb_eq in Er3; subst r3|apply Z.eqb_neq in Er3].
  2:{ eexists _, _, _, d3. split; [reflexivity|]. fields.
      split; [reflexivity|].
      split; [repeat (eapply transfers_read_1; eauto); repeat constructor|].
      split; [repeat split; fields; auto; apply length_insert|].
      split; [intros j Hj; repeat split; fields; auto; apply list_lookup_insert_ne; auto|].
      right. exists r3, [EvRead (int_add AXIS__MOTOR__CURRENT_CONTROL__IQ_MEASURED (int_mul per_axis_offset axis)) 0 c;
                         EvRead (int_add AXIS__ENCODER__VEL_ESTIMATE (int_mul per_axis_offset axis)) 0 v;
                         EvRead (int_add AXIS__ENCODER__POS_ESTIMATE (int_mul per_axis_offset axis)) r3 p].
      repeat split; auto. right; right. eauto. }
  rewrite assign_hw_positions_run by (fields; auto). fields.
  eexists _, _, _, d3. split; [reflexivity|]. fields.
  split; [reflexivity|].
  split; [repeat (eapply transfers_read_1; eauto); repeat constructor|].
  split; [repeat split; fields; auto; apply length_insert|].
  split; [intros j Hj; repeat split; fields; auto; apply list_lookup_insert_ne; auto|].
  left. exists (c, v, p). split; [reflexivity|]. split; [reflexivity|].
  exists KV. split; [auto|]. fields.
  repeat split; apply list_lookup_insert_eq; auto.
Qed.

Lemma holds_measurement_frame o o1 o' j m :
  KV_ o1 = KV_ o -> holds_measurement o1 o' j m -> holds_measurement o o' j m.
Proof. intros E (KV & H). exists KV. rewrite <- E. exact H. Qed.

Lemma holds_measurement_later o o1 o' j m :
  holds_measurement o o1 j m -> same_joint_state o1 o' j -> holds_measurement o o' j m.
Proof.
  intros (KV & Hk & He & Hv & Hp) (Se & Sv & Sp). exists KV.
  rewrite Se, Sv, Sp. auto.
Qed.

Lemma read_loop n : forall i o d f o' es,
  odrive o = Some d -> sized o -> (i + n <= length (joints (info_ o)))%nat ->
  for_range n i read_joint o = (f, o', es) ->
  exists d' ms tail,
    odrive o' = Some d' /\ transfers d es d' /\ read_frame o o' /\
    (length ms <= n)%nat /\
    es = concat (zip_with joint_reads (drop i (axis_ o)) ms) ++ tail /\
    (forall j m, ms !! j = Some m -> holds_measurement o o' (i + j) m) /\
    (forall j, (j < i)%nat -> same_joint_state o o' j) /\
    (forall j, (i + length ms < j)%nat -> same_joint_state o o' j) /\
    ((f = Next tt /\ length ms = n /\ tail = [] /\
        same_joint_state o o' (i + n)) \/
     (exists r fr axis, f = Return ERROR /\ (length ms < n)%nat /\ r <> 0 /\
        axis_ o !! (i + length ms)%nat = Some axis /\ failed_reads axis r fr /\
        tail = fr ++ [EvError (libusb_error_name r)])).
Proof.
  induction n as [|n IH]; intros i o d f o' es Hd Hs Hlen Hrun.
  - inversion Hrun; subst. exists d, [], [].
    rewrite zip_with_nil_r. simpl.
    split; [auto|]. split; [constructor|]. split; [apply read_frame_refl|].
    split; [lia|]. split; [reflexivity|].
    split; [intros j m Hj; rewrite lookup_nil in Hj; discriminate|].
    split; [intros; apply same_joint_state_refl|].
    split; [intros; apply same_joint_state_refl|].
    left. repeat split.
  - pose proof Hs as (La & Lk & _ & _ & _ & Lp & Lv & Le & _).
    destruct (lookup_lt_is_Some_2 (axis_ o) i) as [axis Ha]; [lia|].
    destruct (lookup_lt_is_Some_2 (KV_ o) i) as [KV Hk]; [lia|].
    destruct (read_joint_run i o d axis KV Hd Ha Hk) as
      (f1 & o1 & es1 & d1 & E1 & Hd1 & T1 & F1 & S1 & Hcase); try lia.
    rewrite for_range_S, E1 in Hrun.
    destruct Hcase as [(m & -> & -> & Hm)|(r & fr & -> & Hr & Hfr & ->)].
    + destruct (for_range n (S i) read_joint o1) as [[f2 o2] es2] eqn:E2.
      inversion Hrun; subst; clear Hrun.
      pose proof F1 as (Fi & _ & _ & Fa & Fk & _).
      assert (Hs1 : sized o1) by (eapply read_frame_sized; eauto).
      assert (Hlen1 : (S i + n <= length (joints (info_ o1)))%nat) by (rewrite Fi; lia).
      pose proof (IH _ _ d1 _ _ _ Hd1 Hs1 Hlen1 E2) as E2'. clear E2.
      destruct E2' as (d' & ms & tail & Hd' & T2 & F2 & Hl & -> & Hms & Hlow & Hhigh & Hcase).
      exists d', (m :: ms), tail.
      split; [auto|]. split; [exact (transfers_app _ _ _ _ _ T1 T2)|].
      split; [eapply read_frame_trans; eauto|]. split; [simpl; lia|].
      split.
      { rewrite (drop_S _ _ _ Ha). simpl. rewrite Fa. reflexivity. }
      split.
      { intros [|j] m' Hj; simpl in Hj.
        - inversion Hj; subst. rewrite Nat.add_0_r.
          eapply holds_measurement_later; eauto.
        - replace (i + S j)%nat with (S i + j)%nat by lia.
          eapply holds_measurement_frame; eauto. }
      split.
      { intros j Hj. eapply same_joint_state_trans; [apply S1; lia|apply Hlow; lia]. }
      split.
      { intros j Hj. simpl in Hj.
        eapply same_joint_state_trans; [apply S1; lia|apply Hhigh; lia]. }
      simpl length. replace (i + S n)%nat with (S i + n)%nat by lia.
      replace (i + S (length ms))%nat with (S i + length ms)%nat by lia.
      destruct Hcase as [(-> & <- & -> & Hn)|(r & fr & ax & -> & Hlt & Hr & Hax & Hfr & ->)].
      * left. split; [auto|]. split; [auto|]. split; [auto|].
        eapply same_joint_state_trans; [apply S1; lia|auto].
      * right. exists r, fr, ax. rewrite <- Fa. repeat split; auto. lia.
    + inversion Hrun; subst; clear Hrun.
      exists d1, [], (fr ++ [EvError (libusb_error_name r)]).
      rewrite zip_with_nil_r. simpl. rewrite Nat.add_0_r.
      split; [auto|]. split; [auto|]. split; [auto|]. split; [lia|].
      split; [reflexivity|].
      split; [intros j m Hj; rewrite lookup_nil in Hj; discriminate|].
      split; [intros; apply S1; lia|]. split; [intros; apply S1; lia|].
      right. exists r, fr, axis. repeat split; auto. lia.
Qed.

Lemma run_bind {A B} (m : M A) (k : A -> M B) o :
  (m ≫= k) o =
    match m o with
    | (Next a, o1, es1) => let '(f, o2, es2) := k a o1 in (f, o2, es1 ++ es2)
    | (Return r, o1, es1) => (Return r, o1, es1)
    | (Throw e, o1, es1) => (Throw e, o1, es1)
    | (Undefined_behaviour, o1, es1) => (Undefined_behaviour, o1, es1)
    end.
Proof. reflexivity. Qed.

Lemma request_every_axis_run state after o d :
  odrive o = Some d -> sized o ->
  request_outcome o d state after (request_every_axis state after o).
Proof.
  intros Hd Hs. unfold request_every_axis, joints_size.
  rewrite run_bind_modify, run_bind_get, run_bind. fields.
  destruct (for_range _ 0 request_state _) as [[f o1] es] eqn:E.
  destruct Hs as (La & _).
  apply (request_state_loop _ _ _ d) in E; [|auto|fields; lia].
  destruct E as (d' & k & -> & T & Hk & Hcase). fields. cbv zeta in Hcase.
  rewrite drop_0 in Hcase.
  destruct Hcase as [(-> & -> & ->)|(axis & r & -> & Hlt & Ha & Hr & ->)].
  - rewrite run_bind_modify. unfold return_. rewrite app_nil_r.
    exists d'. fields. split; [reflexivity|]. split; [exact T|]. split; [reflexivity|].
    left. rewrite <- La, firstn_all. repeat split.
    rewrite length_map. reflexivity.
  - exists d'. fields. split; [reflexivity|]. split; [exact T|]. split; [reflexivity|].
    right. exists k, axis, r. repeat split; auto.
Qed.

(** C7.  [start] writes the requested state [AXIS_STATE_CLOSED_LOOP_CONTROL]
    (8) once per configured joint, to
    [AXIS__REQUESTED_STATE + per_axis_offset * axis_[i]] as [int]
    arithmetic computes it, and in the order of the joints (two writes for
    two joints); [stop] does the same with [AXIS_STATE_IDLE] (1).  Each
    stops at the first transfer that fails and returns [ERROR]; the device
    is left where the writes already issued put it: nothing is rolled
    back.  Where the product and the sum stay in the range of [int] the
    register is the plain sum. *)
Theorem start_stop_request_every_axis o d :
  odrive o = Some d -> sized o ->
  request_outcome o d 8 STARTED (start o) /\
  request_outcome o d 1 STOPPED (stop o) /\
  (forall state result axis,
     no_overflow AXIS__REQUESTED_STATE axis ->
     requested state result axis =
       EvWrite (AXIS__REQUESTED_STATE + per_axis_offset * axis) (Int32 state) result).
Proof.
  intros Hd Hs. split; [|split].
  - apply (request_every_axis_run AXIS_STATE_CLOSED_LOOP_CONTROL STARTED); auto.
  - apply (request_every_axis_run AXIS_STATE_IDLE STOPPED); auto.
  - intros state result axis Hno. unfold requested.
    rewrite (endpoint_no_overflow _ _ Hno). reflexivity.
Qed.

Lemma for_range_split a : forall b i (body : nat -> M unit) o,
  for_range (a + b) i body o =
    (for_range a i body ≫= fun _ => for_range b (i + a) body) o.
Proof.
  induction a as [|a IH]; intros b i body o.
  - rewrite run_bind. simpl. rewrite Nat.add_0_r.
    destruct (for_range b i body o) as [[? ?] ?]. reflexivity.
  - change (S a + b)%nat with (S (a + b)). rewrite for_range_S, run_bind, for_range_S.
    destruct (body i o) as [[[[]| | |] o1] es1]; try reflexivity.
    rewrite IH, run_bind. replace (i + S a)%nat with (S i + a)%nat by lia.
    destruct (for_range a (S i) body o1) as [[[[]| | |] o2] es2]; try reflexivity.
    destruct (for_range b (S i + a) body o2) as [[f3 o3] es3].
    rewrite app_assoc. reflexivity.
Qed.

Lemma wrote_defined o r j e :
  wrote o r j e -> control_level_ o !! j <> Some UNDEFINED /\ is_Some (control_level_ o !! j).
Proof.
  intros (endpoint & value & Hs & _). unfold setpoint in Hs.
  destruct (control_level_ o !! j) as [[]|]; try discriminate; split; eauto; discriminate.
Qed.

Lemma write_run o d f o' es :
  odrive o = Some d -> sized o -> write o = (f, o', es) ->
  exists d' k pre tail,
    o' = set_odrive (Some d') o /\ transfers d es d' /\
    (k <= length (joints (info_ o)))%nat /\
    es = pre ++ tail /\ Forall2 (wrote o 0) (seq 0 k) pre /\
    ((f = Return OK /\ k = length (joints (info_ o)) /\ tail = []) \/
     (f = Return OK /\ control_level_ o !! k = Some UNDEFINED /\ tail = [nothing_attached]) \/
     (exists r e, f = Return ERROR /\ (k < length (joints (info_ o)))%nat /\ r <> 0 /\
        wrote o r k e /\ tail = [e; EvError (libusb_error_name r)])).
Proof.
  intros Hd Hs Hrun. unfold write, joints_size in Hrun.
  rewrite run_bind_get, run_bind in Hrun.
  destruct (for_range _ 0 write_joint o) as [[f1 o1] es1] eqn:E.
  apply (write_loop _ _ _ d) in E; auto.
  destruct E as (d' & k & pre & tail & -> & T & Hk & -> & Hpre & Hcase).
  exists d', k, pre, tail. simpl in Hcase.
  destruct Hcase as [(-> & -> & ->)|[(-> & Hlt & Hu & ->)|(r & e & -> & Hlt & Hr & He & ->)]];
    inversion Hrun; subst; clear Hrun.
  - rewrite !app_nil_r in *. repeat split; auto.
  - repeat split; auto; lia.
  - split; [reflexivity|]. split; [auto|]. split; [lia|]. split; [reflexivity|].
    split; [auto|]. right; right. exists r, e. repeat split; auto.
Qed.

(** C4.  For a joint whose control level is defined, [write] issues one
    transport write chosen by that level: [EFFORT] sends
    [hw_commands_efforts_[i] / 8.27 * KV_[i]] to the current setpoint,
    [VELOCITY] sends [hw_commands_velocities_[i] / 2 / M_PI] to the velocity
    input, [POSITION] sends [hw_commands_positions_[i] / 2 / M_PI] to the
    position input, each narrowed to [float] and addressed at
    [base + per_axis_offset * axis_[i]] as [int] arithmetic computes it
    (the plain sum where the product and the sum stay in the range of
    [int]).  A transfer that fails ends the call with [ERROR]: when every
    joint has a defined level, the events of [write] are one successful
    write per joint, in order, up to the end or up to the first
    failure. *)
Theorem write_dispatches_on_control_level o d :
  odrive o = Some d -> sized o ->
  (forall i axis, axis_ o !! i = Some axis ->
     (forall effort KV,
        control_level_ o !! i = Some EFFORT ->
        hw_commands_efforts_ o !! i = Some effort -> KV_ o !! i = Some KV ->
        setpoint o i = Some
          (int_add AXIS__MOTOR__CURRENT_CONTROL__IQ_SETPOINT (int_mul per_axis_offset axis),
           binary32_of_double (effort / 8.27 * double_of_Z KV)%float)) /\
     (forall velocity,
        control_level_ o !! i = Some VELOCITY ->
        hw_commands_velocities_ o !! i = Some velocity ->
        setpoint o i = Some
          (int_add AXIS__CONTROLLER__INPUT_VEL (int_mul per_axis_offset axis),
           binary32_of_double (velocity / double_of_Z 2 / M_PI)%float)) /\
     (forall position,
        control_level_ o !! i = Some POSITION ->
        hw_commands_positions_ o !! i = Some position ->
        setpoint o i = Some
          (int_add AXIS__CONTROLLER__INPUT_POS (int_mul per_axis_offset axis),
           binary32_of_double (position / double_of_Z 2 / M_PI)%float))) /\
  (forall base axis,
     no_overflow base axis ->
     int_add base (int_mul per_axis_offset axis) = base + per_axis_offset * axis) /\
  (forall i level,
     control_level_ o !! i = Some level -> level <> UNDEFINED ->
     exists endpoint value,
       setpoint o i = Some (endpoint, value) /\
       let result := (usb_write d endpoint (Float value)).1 in
       let o' := set_odrive (Some (usb_write d endpoint (Float value)).2) o in
       write_joint i o =
         if result =? 0 then (Next tt, o', [EvWrite endpoint (Float value) result])
         else (Return ERROR, o', [EvWrite endpoint (Float value) result;
                                  EvError (libusb_error_name result)])) /\
  ((forall i, control_level_ o !! i <> Some UNDEFINED) ->
   forall f o' es, write o = (f, o', es) ->
   exists d' k pre,
     odrive o' = Some d' /\ transfers d es d' /\ Forall2 (wrote o 0) (seq 0 k) pre /\
     ((f = Return OK /\ k = length (joints (info_ o)) /\ es = pre) \/
      (exists r e, f = Return ERROR /\ (k < length (joints (info_ o)))%nat /\ r <> 0 /\
         wrote o r k e /\ es = pre ++ [e; EvError (libusb_error_name r)]))).
Proof.
  intros Hd Hs. split; [|split; [|split]].
  - intros i axis Ha. unfold setpoint. ieee_types. rewrite Ha.
    split; [|split]; intros; repeat match goal with H : _ !! _ = Some _ |- _ => rewrite H end;
      reflexivity.
  - exact endpoint_no_overflow.
  - intros i level Hc Hne.
    destruct (setpoint_is_Some i o level Hs Hc Hne) as [[endpoint value] Hsp].
    exists endpoint, value. split; [exact Hsp|].
    apply write_joint_defined; auto.
  - intros Hall f o' es Hrun.
    destruct (write_run o d f o' es Hd Hs Hrun)
      as (d' & k & pre & tail & -> & T & Hk & -> & Hpre & Hcase).
    exists d', k, pre. split; [reflexivity|]. split; [exact T|]. split; [exact Hpre|].
    destruct Hcase as [(-> & -> & ->)|[(-> & Hu & ->)|(r & e & -> & Hlt & Hr & He & ->)]].
    + left. rewrite app_nil_r. auto.
    + exfalso. exact (Hall k Hu).
    + right. exists r, e. auto.
Qed.

(** C1.  At a joint [i] whose control level is [UNDEFINED], [write] logs
    the notice and returns [OK] at once, without a transfer.  So when the
    loop reaches joint [i] (the joints before it were written, one
    successful write each), the call returns [OK] with those writes and the
    notice as its only events; and whatever happens before joint [i], no
    transport write of the call belongs to joint [i] or to a later joint.
    The writes of the earlier joints go to the registers the code computes,
    in [int] arithmetic. *)
Theorem write_undefined_returns_at_once o d i :
  odrive o = Some d -> sized o -> control_level_ o !! i = Some UNDEFINED ->
  write_joint i o = (Return OK, o, [nothing_attached]) /\
  (forall o1 pre,
     for_range i 0 write_joint o = (Next tt, o1, pre) ->
     write o = (Return OK, o1, pre ++ [nothing_attached]) /\
     Forall2 (wrote o 0) (seq 0 i) pre) /\
  (forall f o' es, write o = (f, o', es) ->
   exists k pre tail,
     (k <= i)%nat /\ es = pre ++ tail /\ Forall2 (wrote o 0) (seq 0 k) pre /\
     ((f = Return OK /\ tail = [nothing_attached]) \/
      (exists r e, f = Return ERROR /\ (k < i)%nat /\ r <> 0 /\
         wrote o r k e /\ tail = [e; EvError (libusb_error_name r)]))).
Proof.
  intros Hd Hs Hu.
  assert (Hi : (i < length (joints (info_ o)))%nat).
  { destruct Hs as (_&_&_&_&_&_&_&_&<-). eapply lookup_lt_Some; eauto. }
  split; [apply write_joint_undefined; auto|]. split.
  - intros o1 pre Hpre.
    pose proof Hpre as Hloop.
    apply (write_loop _ _ _ d) in Hloop; auto; [|simpl; lia].
    destruct Hloop as (d' & k & pre' & tail & -> & T & Hk & -> & Hw & Hcase).
    destruct Hcase as [(_ & -> & ->)|[(? & _)|(? & ? & ? & _)]]; try discriminate.
    rewrite app_nil_r in *. split; [|exact Hw].
    unfold write, joints_size. rewrite run_bind_get, run_bind.
    replace (length (joints (info_ o))) with (i + S (length (joints (info_ o)) - S i))%nat by lia.
    rewrite for_range_split, run_bind, Hpre, for_range_S. simpl.
    rewrite write_joint_undefined by exact Hu. reflexivity.
  - intros f o' es Hrun.
    destruct (write_run o d f o' es Hd Hs Hrun)
      as (d' & k & pre & tail & -> & T & Hk & -> & Hpre & Hcase).
    assert (Hki : (k <= i)%nat).
    { destruct (decide (k <= i)%nat) as [|Hgt]; [auto|exfalso].
      assert (Hl : seq 0 k !! i = Some i) by (apply lookup_seq; lia).
      destruct (Forall2_lookup_l _ _ _ _ _ Hpre Hl) as (e & _ & He).
      apply wrote_defined in He. destruct He as [He _]. auto. }
    exists k, pre, tail. split; [exact Hki|]. split; [reflexivity|]. split; [exact Hpre|].
    destruct Hcase as [(-> & -> & ->)|[(-> & Hu' & ->)|(r & e & -> & Hlt & Hr & He & ->)]].
    + lia.
    + left. auto.
    + right. exists r, e. repeat split; auto.
      destruct (decide (k = i)) as [->|]; [|lia].
      apply wrote_defined in He. destruct He as [He _]. contradiction.
Qed.

Lemma read_run o d f o' es :
  odrive o = Some d -> sized o -> read o = (f, o', es) ->
  exists d' ms tail,
    odrive o' = Some d' /\ transfers d es d' /\ read_frame o o' /\
    es = concat (zip_with joint_reads (axis_ o) ms) ++ tail /\
    (forall j m, ms !! j = Some m -> holds_measurement o o' j m) /\
    (forall j, (length ms < j)%nat -> same_joint_state o o' j) /\
    ((f = Return OK /\ length ms = length (joints (info_ o)) /\ tail = []) \/
     (exists r fr axis, f = Return ERROR /\ (length ms < length (joints (info_ o)))%nat /\
        r <> 0 /\ axis_ o !! length ms = Some axis /\ failed_reads axis r fr /\
        tail = fr ++ [EvError (libusb_error_name r)])).
Proof.
  intros Hd Hs Hrun. unfold read, joints_size in Hrun.
  rewrite run_bind_get, run_bind in Hrun.
  destruct (for_range _ 0 read_joint o) as [[f1 o1] es1] eqn:E.
  apply (read_loop _ _ _ d) in E; auto.
  destruct E as (d' & ms & tail & Hd' & T & F & Hl & -> & Hms & _ & Hhigh & Hcase).
  rewrite drop_0 in *. simpl in Hcase, Hhigh, Hms.
  destruct Hcase as [(-> & Hn & -> & _)|(r & fr & axis & -> & Hlt & Hr & Ha & Hfr & ->)];
    inversion Hrun; subst; clear Hrun.
  - exists d', ms, []. rewrite !app_nil_r in *.
    split; [auto|]. split; [auto|]. split; [auto|]. split; [auto|].
    split; [auto|]. split; [auto|]. left. auto.
  - exists d', ms, (fr ++ [EvError (libusb_error_name r)]).
    split; [auto|]. split; [auto|]. split; [auto|]. split; [auto|].
    split; [auto|]. split; [auto|]. right. exists r, fr, axis. repeat split; auto.
Qed.

Lemma joint_reads_succeed (axes : list Z) ms e :
  e ∈ concat (zip_with joint_reads axes ms) -> exists endpoint value, e = EvRead endpoint 0 value.
Proof.
  revert ms. induction axes as [|a axes IH]; intros [|m ms] H; simpl in H;
    try (apply elem_of_nil in H; contradiction).
  repeat (apply elem_of_cons in H; destruct H as [->|H]; [eauto|]).
  eauto.
Qed.

(** C3.  A [read] that returns [OK] performs, for every joint in order,
    exactly the three transfers measured current, measured velocity,
    measured position, each at [base + per_axis_offset * axis_[i]] as
    [int] arithmetic computes it (the plain sum where the product and the
    sum stay in the range of [int]), and stores
    [Iq_measured * 8.27 / KV_[i]] in [hw_efforts_[i]],
    [vel_estimate * 2 * M_PI] in [hw_velocities_[i]] and
    [pos_estimate * 2 * M_PI] in [hw_positions_[i]] (the product by 2 is
    computed on [float], the other operations on [double]). *)
Theorem read_converts_three_measurements o d o' es :
  odrive o = Some d -> sized o -> read o = (Return OK, o', es) ->
  exists ms : list (binary32 * binary32 * binary32),
    length ms = length (joints (info_ o)) /\
    es = concat (zip_with joint_reads (axis_ o) ms) /\
    (forall axis Iq_measured vel_estimate pos_estimate,
       no_overflow AXIS__MOTOR__CURRENT_CONTROL__IQ_MEASURED axis ->
       no_overflow AXIS__ENCODER__VEL_ESTIMATE axis ->
       no_overflow AXIS__ENCODER__POS_ESTIMATE axis ->
       joint_reads axis (Iq_measured, vel_estimate, pos_estimate) =
         [ EvRead (AXIS__MOTOR__CURRENT_CONTROL__IQ_MEASURED + per_axis_offset * axis)
             0 Iq_measured;
           EvRead (AXIS__ENCODER__VEL_ESTIMATE + per_axis_offset * axis) 0 vel_estimate;
           EvRead (AXIS__ENCODER__POS_ESTIMATE + per_axis_offset * axis) 0 pos_estimate ]) /\
    (forall i Iq_measured vel_estimate pos_estimate,
       ms !! i = Some (Iq_measured, vel_estimate, pos_estimate) ->
       exists axis KV,
         axis_ o !! i = Some axis /\ KV_ o !! i = Some KV /\
         hw_efforts_ o' !! i =
           Some (double_of_binary32 Iq_measured * 8.27 / double_of_Z KV)%float /\
         hw_velocities_ o' !! i =
           Some (double_of_binary32 (SFmul 24 128 vel_estimate (binary32_of_Z 2)) * M_PI)%float /\
         hw_positions_ o' !! i =
           Some (double_of_binary32 (SFmul 24 128 pos_estimate (binary32_of_Z 2)) * M_PI)%float) /\
    exists d', odrive o' = Some d' /\ transfers d es d'.
Proof.
  intros Hd Hs Hrun.
  destruct (read_run o d _ o' es Hd Hs Hrun)
    as (d' & ms & tail & Hd' & T & F & -> & Hms & _ & Hcase).
  destruct Hcase as [(_ & Hn & ->)|(r & fr & axis & ? & _)]; [|discriminate].
  exists ms. rewrite app_nil_r in *. split; [exact Hn|]. split; [reflexivity|].
  split.
  { intros axis c v p H1 H2 H3. unfold joint_reads. simpl.
    rewrite (endpoint_no_overflow _ _ H1), (endpoint_no_overflow _ _ H2),
      (endpoint_no_overflow _ _ H3). reflexivity. }
  split; [|eauto].
  intros i c v p Hi. destruct (Hms _ _ Hi) as (KV & Hk & He & Hv & Hp).
  destruct (lookup_lt_is_Some_2 (axis_ o) i) as [axis Ha].
  { destruct Hs as (-> & _). rewrite <- Hn. eapply lookup_lt_Some; eauto. }
  exists axis, KV. repeat split; auto.
Qed.


Lemma setpoint_agree o1 o2 i :
  axis_ o1 = axis_ o2 -> KV_ o1 = KV_ o2 -> control_level_ o1 = control_level_ o2 ->
  consulted_commands_agree o1 o2 -> setpoint o1 i = setpoint o2 i.
Proof.
  intros Ea Ek Ec H. specialize (H i). unfold setpoint. ieee_types.
  rewrite <- Ea, <- Ek, <- Ec.
  destruct (control_level_ o1 !! i) as [[]|]; try reflexivity; rewrite H; reflexivity.
Qed.

Lemma write_loop_agree n : forall i o1 o2 d,
  odrive o1 = Some d -> odrive o2 = Some d -> sized o1 ->
  (i + n <= length (joints (info_ o1)))%nat ->
  control_level_ o1 = control_level_ o2 ->
  (forall j, setpoint o1 j = setpoint o2 j) ->
  (for_range n i write_joint o1).1.1 = (for_range n i write_joint o2).1.1 /\
  (for_range n i write_joint o1).2 = (for_range n i write_joint o2).2 /\
  odrive (for_range n i write_joint o1).1.2 = odrive (for_range n i write_joint o2).1.2.
Proof.
  induction n as [|n IH]; intros i o1 o2 d Hd1 Hd2 Hs Hlen Ec Hsp.
  - simpl. rewrite Hd1, Hd2. auto.
  - rewrite !for_range_S.
    assert (Hc : is_Some (control_level_ o1 !! i)).
    { apply lookup_lt_is_Some_2. destruct Hs as (_&_&_&_&_&_&_&_&->). lia. }
    destruct Hc as [level Hc].
    destruct (decide (level = UNDEFINED)) as [->|Hne].
    + rewrite (write_joint_undefined _ _ Hc).
      rewrite Ec in Hc. rewrite (write_joint_undefined _ _ Hc).
      simpl. rewrite Hd1, Hd2. auto.
    + destruct (setpoint_is_Some i o1 level Hs Hc Hne) as [[endpoint value] Hsp1].
      pose proof Hsp1 as Hsp2. rewrite Hsp in Hsp2.
      rewrite (write_joint_defined i o1 d endpoint value Hd1 Hsp1).
      rewrite (write_joint_defined i o2 d endpoint value Hd2 Hsp2).
      cbv zeta. destruct (usb_write d endpoint (Float value)) as [r d1]. simpl.
      destruct (r =? 0); [|simpl; auto].
      specialize (IH (S i) (set_odrive (Some d1) o1) (set_odrive (Some d1) o2) d1
                    eq_refl eq_refl Hs).
      destruct IH as (I1 & I2 & I3); [simpl; lia|exact Ec|exact Hsp|].
      destruct (for_range n (S i) write_joint (set_odrive (Some d1) o1)) as [[f1 p1] e1].
      destruct (for_range n (S i) write_joint (set_odrive (Some d1) o2)) as [[f2 p2] e2].
      simpl in *. subst. auto.
Qed.

(** C9.  [write] consults only the command entry that each joint's control
    level selects: two objects with the same joints, axes, motor constants,
    control levels and transport, which agree on the selected entries,
    produce the same events, return the same value and leave the transport
    in the same state, whatever the other command entries hold. *)
Theorem write_reads_only_the_selected_command o1 o2 d :
  odrive o1 = Some d -> odrive o2 = Some d -> sized o1 -> sized o2 ->
  info_ o1 = info_ o2 -> axis_ o1 = axis_ o2 -> KV_ o1 = KV_ o2 ->
  control_level_ o1 = control_level_ o2 ->
  consulted_commands_agree o1 o2 ->
  (write o1).1.1 = (write o2).1.1 /\
  (write o1).2 = (write o2).2 /\
  odrive (write o1).1.2 = odrive (write o2).1.2.
Proof.
  intros Hd1 Hd2 Hs1 Hs2 Ei Ea Ek Ec Hagree.
  unfold write, joints_size. rewrite !run_bind_get, !run_bind. rewrite <- Ei.
  destruct (write_loop_agree (length (joints (info_ o1))) 0 o1 o2 d) as (I1 & I2 & I3); auto.
  { intros j. apply setpoint_agree; auto. }
  destruct (for_range _ 0 write_joint o1) as [[f1 p1] e1].
  destruct (for_range _ 0 write_joint o2) as [[f2 p2] e2].
  simpl in *. subst. destruct f2 as [[]| | |]; simpl; rewrite ?app_nil_r; auto.
Qed.

(** *** configure *)

Lemma parameter_run joint key o :
  parameter joint key o =
    match parsed joint key with
    | inl e => (Throw e, o, [])
    | inr v => (Next v, o, [])
    end.
Proof.
  unfold parameter, parsed. destruct (parameters joint !! key); [|reflexivity].
  destruct (stoi _); reflexivity.
Qed.

Lemma configure_joint_invalid joint o :
  valid_interfaces joint = false ->
  exists t, configure_joint joint o = (Return ERROR, o, [EvError t]).
Proof.
  unfold valid_interfaces, configure_joint. intros H.
  destruct (length (command_interfaces joint) =? 3)%nat eqn:E1; [|eexists; reflexivity].
  simpl negb. rewrite run_bind_when_false.
  destruct (command_interfaces joint !! 0%nat) as [c0|] eqn:L1.
  2:{ apply Nat.eqb_eq in E1. apply lookup_ge_None in L1. lia. }
  rewrite (run_bind_at_index _ _ _ _ _ L1).
  destruct (is_hw_if (if_name c0)) eqn:E2; [|eexists; reflexivity].
  simpl negb. rewrite run_bind_when_false.
  destruct (length (state_interfaces joint) =? 3)%nat eqn:E3; [|eexists; reflexivity].
  simpl negb. rewrite run_bind_when_false.
  destruct (state_interfaces joint !! 0%nat) as [s0|] eqn:L2.
  2:{ apply Nat.eqb_eq in E3. apply lookup_ge_None in L2. lia. }
  rewrite (run_bind_at_index _ _ _ _ _ L2).
  destruct (is_hw_if (if_name s0)) eqn:E4; [discriminate|eexists; reflexivity].
Qed.

Lemma configure_joint_valid joint o :
  valid_interfaces joint = true ->
  configure_joint joint o =
    match parsed joint "axis" with
    | inl e => (Throw e, o, [])
    | inr axis =>
        match parsed joint "KV" with
        | inl e => (Throw e, set_axis_ (axis_ o ++ [axis]) o, [])
        | inr KV => (Next tt, set_KV_ (KV_ o ++ [KV]) (set_axis_ (axis_ o ++ [axis]) o), [])
        end
    end.
Proof.
  unfold valid_interfaces, configure_joint. intros H.
  apply andb_prop in H as [H H4]. apply andb_prop in H as [H H3].
  apply andb_prop in H as [H1 H2].
  rewrite H1. simpl negb. rewrite run_bind_when_false.
  destruct (command_interfaces joint !! 0%nat) as [c0|] eqn:L1; [|discriminate].
  rewrite (run_bind_at_index _ _ _ _ _ L1), H2. simpl negb. rewrite run_bind_when_false.
  rewrite H3. simpl negb. rewrite run_bind_when_false.
  destruct (state_interfaces joint !! 0%nat) as [s0|] eqn:L2; [|discriminate].
  rewrite (run_bind_at_index _ _ _ _ _ L2), H4. simpl negb. rewrite run_bind_when_false.
  rewrite run_bind, parameter_run.
  destruct (parsed joint "axis") as [e|axis]; [reflexivity|].
  rewrite run_bind_get, run_bind_modify, run_bind, parameter_run.
  destruct (parsed joint "KV") as [e|KV]; [reflexivity|].
  rewrite run_bind_get. reflexivity.
Qed.

Lemma for_each_cons {A} (x : A) xs (body : A -> M unit) o :
  for_each (x :: xs) body o =
    match body x o with
    | (Next _, o1, es1) =>
        let '(f, o2, es2) := for_each xs body o1 in (f, o2, es1 ++ es2)
    | (Return r, o1, es1) => (Return r, o1, es1)
    | (Throw e, o1, es1) => (Throw e, o1, es1)
    | (Undefined_behaviour, o1, es1) => (Undefined_behaviour, o1, es1)
    end.
Proof. reflexivity. Qed.

Lemma set_axis_KV_same o : set_KV_ (KV_ o ++ []) (set_axis_ (axis_ o ++ [] ++ []) o) = o.
Proof. destruct o. unfold set_KV_, set_axis_. simpl. rewrite !app_nil_r. reflexivity. Qed.

Lemma configure_joints_run js : forall o f o' es,
  for_each js configure_joint o = (f, o', es) ->
  exists k axes kvs extra,
    o' = set_KV_ (KV_ o ++ kvs) (set_axis_ (axis_ o ++ axes ++ extra) o) /\
    Forall2 (fun joint axis => parsed joint "axis" = inr axis) (take k js) axes /\
    Forall2 (fun joint KV => parsed joint "KV" = inr KV) (take k js) kvs /\
    Forall (fun joint => valid_interfaces joint = true) (take k js) /\
    ((f = Next tt /\ k = length js /\ extra = [] /\ es = []) \/
     (exists joint t, f = Return ERROR /\ js !! k = Some joint /\
        valid_interfaces joint = false /\ extra = [] /\ es = [EvError t]) \/
     (exists joint e, f = Throw e /\ js !! k = Some joint /\
        valid_interfaces joint = true /\ es = [] /\
        ((parsed joint "axis" = inl e /\ extra = []) \/
         (exists axis, parsed joint "axis" = inr axis /\ parsed joint "KV" = inl e /\
            extra = [axis])))).
Proof.
  induction js as [|joint js IH]; intros o f o' es Hrun.
  - inversion Hrun; subst. exists 0%nat, [], [], [].
    rewrite set_axis_KV_same. repeat split; auto.
  - rewrite for_each_cons in Hrun.
    destruct (valid_interfaces joint) eqn:Hv.
    2:{ destruct (configure_joint_invalid joint o Hv) as [t Ht]. rewrite Ht in Hrun.
        inversion Hrun; subst. exists 0%nat, [], [], [].
        rewrite set_axis_KV_same. repeat split; auto.
        right; left. exists joint, t. auto. }
    rewrite (configure_joint_valid joint o Hv) in Hrun.
    destruct (parsed joint "axis") as [e|axis] eqn:Pa.
    { inversion Hrun; subst. exists 0%nat, [], [], [].
      rewrite set_axis_KV_same. repeat split; auto.
      right; right. exists joint, e. repeat split; auto. }
    destruct (parsed joint "KV") as [e|KV] eqn:Pk.
    { inversion Hrun; subst. exists 0%nat, [], [], [axis].
      split; [destruct o; unfold set_KV_, set_axis_; simpl; rewrite app_nil_r; reflexivity|].
      repeat split; auto.
      right; right. exists joint, e. repeat split; auto. right. exists axis. auto. }
    destruct (for_each js configure_joint _) as [[f2 o2] es2] eqn:E2.
    inversion Hrun; subst; clear Hrun.
    apply IH in E2. destruct E2 as (k & axes & kvs & extra & -> & Fa & Fk & Fv & Hcase).
    exists (S k), (axis :: axes), (KV :: kvs), extra.
    split.
    { destruct o. unfold set_KV_, set_axis_. simpl. rewrite <- !app_assoc. reflexivity. }
    split; [simpl; constructor; auto|]. split; [simpl; constructor; auto|].
    split; [simpl; constructor; auto|].
    destruct Hcase as [(-> & -> & -> & ->)|[(j & t & -> & Hj & Hjv & -> & ->)|
                       (j & e & -> & Hj & Hjv & -> & Hp)]].
    + left. auto.
    + right; left. exists j, t. auto.
    + right; right. exists j, e. auto.
Qed.

Lemma configure_run info o :
  configure info o =
    match configure_default_result info with
    | ERROR => (Return ERROR, set_status_ (configure_default_status info) (set_info_ info o), [])
    | OK =>
        match for_each (joints info) configure_joint (prepared info o) with
        | (Next _, o1, es1) =>
            let result := (usb_init usb_new).1 in
            let o2 := set_odrive (Some (usb_init usb_new).2) o1 in
            if result =? 0 then (Return OK, set_status_ CONFIGURED o2, es1 ++ [EvInit result])
            else (Return ERROR, o2, es1 ++ [EvInit result; EvError (libusb_error_name result)])
        | (Return r, o1, es1) => (Return r, o1, es1)
        | (Throw e, o1, es1) => (Throw e, o1, es1)
        | (Undefined_behaviour, o1, es1) => (Undefined_behaviour, o1, es1)
        end
    end.
Proof.
  unfold configure. rewrite run_bind_modify.
  destruct (configure_default_result info); [|reflexivity].
  simpl bool_decide. simpl negb. rewrite run_bind_when_false.
  unfold joints_size. rewrite run_bind_get.
  repeat (rewrite run_bind_get, run_bind_modify).
  rewrite run_bind_get, run_bind. fields.
  change (set_control_level_ _ _) with (prepared info o).
  destruct (for_each (joints info) configure_joint (prepared info o)) as [[[[]| | |] o1] es1];
    try reflexivity.
  unfold mbind, M_bind, bind, odrive_new_init.
  destruct (usb_init usb_new) as [r d']. rewrite transfer_failed_run. simpl.
  destruct (r =? 0); reflexivity.
Qed.

Lemma configure_joints_stop_at js : forall k joint o,
  js !! k = Some joint -> valid_interfaces joint = false ->
  Forall (fun j => valid_interfaces j = true /\ parameters_ok j) (take k js) ->
  exists t axes kvs,
    for_each js configure_joint o =
      (Return ERROR, set_KV_ (KV_ o ++ kvs) (set_axis_ (axis_ o ++ axes) o), [EvError t]) /\
    Forall2 (fun joint axis => parsed joint "axis" = inr axis) (take k js) axes /\
    Forall2 (fun joint KV => parsed joint "KV" = inr KV) (take k js) kvs.
Proof.
  induction js as [|j js IH]; intros k joint o Hk Hv Hok; [destruct k; discriminate|].
  rewrite for_each_cons. destruct k as [|k]; simpl in Hk, Hok.
  - inversion Hk; subst. destruct (configure_joint_invalid joint o Hv) as [t ->].
    exists t, [], []. split; [|split; constructor].
    destruct o. unfold set_KV_, set_axis_. simpl. rewrite !app_nil_r. reflexivity.
  - inversion Hok as [|? ? (Hjv & (a & Pa) & (v & Pv)) Hrest]; subst.
    rewrite (configure_joint_valid j o Hjv), Pa, Pv.
    destruct (IH k joint (set_KV_ (KV_ o ++ [v]) (set_axis_ (axis_ o ++ [a]) o)) Hk Hv Hrest)
      as (t & axes & kvs & -> & Fa & Fk).
    exists t, (a :: axes), (v :: kvs). split; [|split; constructor; auto].
    destruct o. unfold set_KV_, set_axis_. simpl. rewrite <- !app_assoc. reflexivity.
Qed.

Lemma configure_joints_throw_at js : forall k joint e o,
  js !! k = Some joint -> valid_interfaces joint = true ->
  Forall (fun j => valid_interfaces j = true /\ parameters_ok j) (take k js) ->
  parsed joint "axis" = inl e \/
    (exists axis, parsed joint "axis" = inr axis /\ parsed joint "KV" = inl e) ->
  exists o', for_each js configure_joint o = (Throw e, o', []).
Proof.
  induction js as [|j js IH]; intros k joint e o Hk Hv Hok He; [destruct k; discriminate|].
  rewrite for_each_cons. destruct k as [|k]; simpl in Hk, Hok.
  - inversion Hk; subst. rewrite (configure_joint_valid joint o Hv).
    destruct He as [->|(a & -> & ->)]; eauto.
  - inversion Hok as [|? ? (Hjv & (a & Pa) & (v & Pv)) Hrest]; subst.
    rewrite (configure_joint_valid j o Hjv), Pa, Pv.
    destruct (IH k joint e (set_KV_ (KV_ o ++ [v]) (set_axis_ (axis_ o ++ [a]) o)) Hk Hv Hrest He)
      as (o' & ->). eauto.
Qed.

Lemma stoi_range text v : stoi text = inr v -> INT_MIN <= v <= INT_MAX.
Proof.
  unfold stoi. destruct (strtol10 text) as [n|]; [|discriminate].
  destruct ((INT_MIN <=? n) && (n <=? INT_MAX)) eqn:E; [|discriminate].
  intros H. inversion H; subst. apply andb_prop in E as [E1 E2]. lia.
Qed.

Lemma parsed_range joint key v : parsed joint key = inr v -> INT_MIN <= v <= INT_MAX.
Proof.
  unfold parsed. destruct (parameters joint !! key); [apply stoi_range|discriminate].
Qed.

(** C10.  [configure] is not atomic: the six buffers and [control_level_]
    are resized to the number of joints before any joint is validated.  When
    joint [k] is the first whose interfaces fail the checks, [configure]
    returns [ERROR] with the buffers resized (new entries not-a-number,
    zero and [VELOCITY]), and with [axis_] and [KV_] extended by the parsed
    parameters of exactly the joints before [k]. *)
Theorem configure_resizes_before_validating info o k joint :
  configure_default_result info = OK ->
  joints info !! k = Some joint -> valid_interfaces joint = false ->
  Forall (fun j => valid_interfaces j = true /\ parameters_ok j) (take k (joints info)) ->
  exists o' t axes kvs,
    configure info o = (Return ERROR, o', [EvError t]) /\
    let n := length (joints info) in
    hw_positions_ o' = resize n quiet_NaN (hw_positions_ o) /\
    hw_velocities_ o' = resize n quiet_NaN (hw_velocities_ o) /\
    hw_efforts_ o' = resize n quiet_NaN (hw_efforts_ o) /\
    hw_commands_positions_ o' = resize n 0%float (hw_commands_positions_ o) /\
    hw_commands_velocities_ o' = resize n 0%float (hw_commands_velocities_ o) /\
    hw_commands_efforts_ o' = resize n 0%float (hw_commands_efforts_ o) /\
    control_level_ o' = resize n VELOCITY (control_level_ o) /\
    axis_ o' = axis_ o ++ axes /\ KV_ o' = KV_ o ++ kvs /\
    Forall2 (fun joint axis => parsed joint "axis" = inr axis) (take k (joints info)) axes /\
    Forall2 (fun joint KV => parsed joint "KV" = inr KV) (take k (joints info)) kvs /\
    odrive o' = odrive o /\
    (constructed o ->
     hw_positions_ o' = replicate n quiet_NaN /\
     hw_velocities_ o' = replicate n quiet_NaN /\
     hw_efforts_ o' = replicate n quiet_NaN /\
     hw_commands_positions_ o' = replicate n 0%float /\
     hw_commands_velocities_ o' = replicate n 0%float /\
     hw_commands_efforts_ o' = replicate n 0%float /\
     control_level_ o' = replicate n VELOCITY /\
     axis_ o' = axes /\ KV_ o' = kvs /\ length axes = k /\ length kvs = k).
Proof.
  intros Hcd Hk Hv Hok. rewrite configure_run, Hcd.
  destruct (configure_joints_stop_at (joints info) k joint (prepared info o) Hk Hv Hok)
    as (t & axes & kvs & -> & Fa & Fk).
  eexists _, t, axes, kvs. split; [reflexivity|]. cbv zeta. unfold prepared. fields.
  do 12 (split; [auto|]).
  intros (Ca & Ck & Ccp & Ccv & Cce & Cp & Cv & Ce & Cc).
  rewrite Ca, Ck, Ccp, Ccv, Cce, Cp, Cv, Ce, Cc, !resize_nil.
  apply Forall2_length in Fa, Fk. rewrite length_take in Fa, Fk.
  apply lookup_lt_Some in Hk.
  repeat split; auto; lia.
Qed.

(** C5, as amended.  A parameter fails to parse when its key is absent
    ([at] throws [std::out_of_range]) or when [std::stoi] throws on its text.
    [configure] never returns [OK] when the ["axis"] or ["KV"] parameter of
    some joint fails to parse; when the joints up to the failing one pass
    the interface checks, the exception propagates out of [configure], which
    returns no status and logs nothing.  When [configure] returns [OK],
    [axis_] and [KV_] have been extended by one parsed [int] per joint. *)
Theorem configure_throws_on_a_bad_parameter info o :
  (forall joint key e,
     parsed joint key = inl e <->
     (parameters joint !! key = None /\ e = std_out_of_range) \/
     (exists text, parameters joint !! key = Some text /\ stoi text = inl e)) /\
  (forall joint key e,
     joint ∈ joints info -> key = "axis" \/ key = "KV" -> parsed joint key = inl e ->
     (configure info o).1.1 <> Return OK) /\
  (forall k joint e,
     configure_default_result info = OK ->
     joints info !! k = Some joint -> valid_interfaces joint = true ->
     Forall (fun j => valid_interfaces j = true /\ parameters_ok j) (take k (joints info)) ->
     parsed joint "axis" = inl e \/
       (exists axis, parsed joint "axis" = inr axis /\ parsed joint "KV" = inl e) ->
     exists o', configure info o = (Throw e, o', [])) /\
  (forall o' es,
     configure info o = (Return OK, o', es) ->
     exists axes kvs,
       axis_ o' = axis_ o ++ axes /\ KV_ o' = KV_ o ++ kvs /\
       Forall2 (fun joint axis => parsed joint "axis" = inr axis /\
                                  INT_MIN <= axis <= INT_MAX) (joints info) axes /\
       Forall2 (fun joint KV => parsed joint "KV" = inr KV /\
                                INT_MIN <= KV <= INT_MAX) (joints info) kvs).
Proof.
  assert (Hok : forall f o' es,
    configure info o = (f, o', es) -> f = Return OK ->
    exists axes kvs,
      axis_ o' = axis_ o ++ axes /\ KV_ o' = KV_ o ++ kvs /\
      Forall2 (fun joint axis => parsed joint "axis" = inr axis) (joints info) axes /\
      Forall2 (fun joint KV => parsed joint "KV" = inr KV) (joints info) kvs).
  { intros f o' es Hrun ->. rewrite configure_run in Hrun.
    destruct (configure_default_result info); [|discriminate].
    destruct (for_each _ configure_joint _) as [[f1 o1] es1] eqn:E.
    apply configure_joints_run in E.
    destruct E as (k & axes & kvs & extra & -> & Fa & Fk & _ & Hcase).
    destruct Hcase as [(-> & -> & -> & ->)|[(j & t & -> & _)|(j & e & -> & _)]];
      try discriminate.
    cbv zeta in Hrun. destruct (_ =? 0); [|discriminate].
    inversion Hrun; subst; clear Hrun. fields.
    rewrite firstn_all, ?app_nil_r in *. exists axes, kvs. auto. }
  split; [|split; [|split]].
  - intros joint key e. unfold parsed. destruct (parameters joint !! key) as [text|].
    + split; [intros H; right; eauto|].
      intros [(H & _)|(t & H & Ht)]; [discriminate|]. inversion H; subst. exact Ht.
    + split; [intros H; inversion H; left; auto|].
      intros [(_ & ->)|(t & H & _)]; [reflexivity|discriminate].
  - intros joint key e Hin Hkey Hbad Hret.
    destruct (configure info o) as [[f o'] es] eqn:Hrun. simpl in Hret.
    destruct (Hok f o' es eq_refl Hret) as (axes & kvs & _ & _ & Fa & Fk).
    apply list_elem_of_lookup in Hin. destruct Hin as [i Hi].
    destruct Hkey as [->| ->].
    + destruct (Forall2_lookup_l _ _ _ _ _ Fa Hi) as (a & _ & Ha). congruence.
    + destruct (Forall2_lookup_l _ _ _ _ _ Fk Hi) as (a & _ & Ha). congruence.
  - intros k joint e Hcd Hk Hv Hpre He. rewrite configure_run, Hcd.
    destruct (configure_joints_throw_at (joints info) k joint e (prepared info o) Hk Hv Hpre He)
      as (o' & ->). eauto.
  - intros o' es Hrun.
    destruct (Hok _ o' es Hrun eq_refl) as (axes & kvs & Ea & Ek & Fa & Fk).
    exists axes, kvs. split; [auto|]. split; [auto|].
    split; eapply Forall2_impl; eauto; simpl; intros j v Hp; split; auto;
      eapply parsed_range; eauto.
Qed.

(** *** The lengths are kept *)

Lemma request_every_axis_shape state after o d :
  odrive o = Some d -> sized o ->
  exists d' st, (request_every_axis state after o).1.2 =
    set_status_ st (set_odrive (Some d') (set_axis_requested_state_ state o)).
Proof.
  intros Hd Hs. unfold request_every_axis, joints_size.
  rewrite run_bind_modify, run_bind_get, run_bind. fields.
  destruct (for_range _ 0 request_state _) as [[f o1] es] eqn:E.
  destruct Hs as (La & _).
  apply (request_state_loop _ _ _ d) in E; [|auto|fields; lia].
  destruct E as (d' & k & -> & T & Hk & Hcase).
  destruct Hcase as [(-> & _)|(axis & r & -> & _)].
  - exists d', after. reflexivity.
  - exists d', (status_ o). destruct o; reflexivity.
Qed.

Lemma run_call_ready c o :
  ready o -> ready (run_call c o).1.2 /\ info_ (run_call c o).1.2 = info_ o.
Proof.
  intros (Hs & [d Hd]). destruct c; simpl.
  - destruct (request_every_axis_shape AXIS_STATE_CLOSED_LOOP_CONTROL STARTED o d Hd Hs)
      as (d' & st & E).
    change (request_every_axis AXIS_STATE_CLOSED_LOOP_CONTROL STARTED) with start in E.
    rewrite E. repeat split; fields; try apply Hs; eauto.
  - destruct (request_every_axis_shape AXIS_STATE_IDLE STOPPED o d Hd Hs)
      as (d' & st & E).
    change (request_every_axis AXIS_STATE_IDLE STOPPED) with stop in E.
    rewrite E. repeat split; fields; try apply Hs; eauto.
  - destruct (read o) as [[f o'] es] eqn:E.
    destruct (read_run o d f o' es Hd Hs E) as (d' & ms & tail & Hd' & _ & F & _).
    simpl. split; [split; [eapply read_frame_sized; eauto|eauto]|apply F].
  - destruct (write o) as [[f o'] es] eqn:E.
    destruct (write_run o d f o' es Hd Hs E) as (d' & k & pre & tail & -> & _).
    simpl. repeat split; fields; try apply Hs; eauto.
Qed.

Lemma run_calls_ready cs : forall o,
  ready o -> ready (run_calls cs o) /\ info_ (run_calls cs o) = info_ o.
Proof.
  induction cs as [|c cs IH]; intros o Hr; [auto|].
  simpl. destruct (run_call_ready c o Hr) as (Hr1 & E1).
  destruct (IH _ Hr1) as (Hr2 & E2). split; [auto|congruence].
Qed.

(** C8.  After [configure] has returned [OK] on a newly constructed object,
    with [n] joints, the three state buffers are [n] not-a-number, the three
    command buffers are [n] zeros, every control level is [VELOCITY], and
    [axis_] and [KV_] have length [n]; all nine vectors keep length [n]
    across every sequence of [start], [stop], [read] and [write] calls. *)
Theorem configure_sizes_every_vector info o o1 es :
  constructed o -> configure info o = (Return OK, o1, es) ->
  let n := length (joints info) in
  hw_positions_ o1 = replicate n quiet_NaN /\
  hw_velocities_ o1 = replicate n quiet_NaN /\
  hw_efforts_ o1 = replicate n quiet_NaN /\
  hw_commands_positions_ o1 = replicate n 0%float /\
  hw_commands_velocities_ o1 = replicate n 0%float /\
  hw_commands_efforts_ o1 = replicate n 0%float /\
  control_level_ o1 = replicate n VELOCITY /\
  length (axis_ o1) = n /\ length (KV_ o1) = n /\
  forall cs,
    let o2 := run_calls cs o1 in
    length (hw_positions_ o2) = n /\ length (hw_velocities_ o2) = n /\
    length (hw_efforts_ o2) = n /\
    length (hw_commands_positions_ o2) = n /\ length (hw_commands_velocities_ o2) = n /\
    length (hw_commands_efforts_ o2) = n /\
    length (control_level_ o2) = n /\ length (axis_ o2) = n /\ length (KV_ o2) = n.
Proof.
  intros (Ca & Ck & Ccp & Ccv & Cce & Cp & Cv & Ce & Cc) Hrun. rewrite configure_run in Hrun.
  destruct (configure_default_result info); [|discriminate].
  destruct (for_each _ configure_joint _) as [[f1 p1] es1] eqn:E.
  apply configure_joints_run in E.
  destruct E as (k & axes & kvs & extra & -> & Fa & Fk & _ & Hcase).
  destruct Hcase as [(-> & -> & -> & ->)|[(j & t & -> & _)|(j & e & -> & _)]];
    try discriminate.
  cbv zeta in Hrun. destruct (_ =? 0); [|discriminate].
  inversion Hrun; subst; clear Hrun.
  rewrite firstn_all, ?app_nil_r in *.
  apply Forall2_length in Fa, Fk.
  set (o1 := set_status_ _ _).
  assert (Hf : hw_positions_ o1 = replicate (length (joints info)) quiet_NaN /\
               hw_velocities_ o1 = replicate (length (joints info)) quiet_NaN /\
               hw_efforts_ o1 = replicate (length (joints info)) quiet_NaN /\
               hw_commands_positions_ o1 = replicate (length (joints info)) 0%float /\
               hw_commands_velocities_ o1 = replicate (length (joints info)) 0%float /\
               hw_commands_efforts_ o1 = replicate (length (joints info)) 0%float /\
               control_level_ o1 = replicate (length (joints info)) VELOCITY /\
               length (axis_ o1) = length (joints info) /\
               length (KV_ o1) = length (joints info)).
  { subst o1. unfold prepared. fields.
    rewrite Ca, Ck, Ccp, Ccv, Cce, Cp, Cv, Ce, Cc. rewrite !resize_nil. simpl app.
    repeat split; auto. }
  destruct Hf as (F1 & F2 & F3 & F4 & F5 & F6 & F7 & F8 & F9).
  assert (Hready : ready o1).
  { split; [|subst o1; fields; eauto]. unfold sized.
    replace (info_ o1) with info by reflexivity. cbv zeta.
    rewrite F1, F2, F3, F4, F5, F6, F7, F8, F9, !length_replicate. repeat split. }
  cbv zeta. do 9 (split; [assumption|]).
  intros cs. destruct (run_calls_ready cs _ Hready) as ((Hs & _) & Ei).
  unfold sized in Hs. rewrite Ei in Hs. replace (info_ o1) with info in Hs by reflexivity.
  cbv zeta in Hs. tauto.
Qed.

(** *** The exported handles *)

Lemma run_bind_joint_name {B} i joint (k : string -> M B) o :
  joints (info_ o) !! i = Some joint -> (joint_name i ≫= k) o = k (name joint) o.
Proof.
  intros H. unfold joint_name.
  rewrite run_bind_assoc, run_bind_get, run_bind_assoc, (run_bind_at_index _ _ _ _ _ H).
  apply run_bind_ret.
Qed.

Lemma run_bind_address_of {A B} b (v : list A) i (k : pointer -> M B) o :
  (i < length v)%nat -> (address_of b v i ≫= k) o = k {| target := b; offset := i |} o.
Proof.
  intros Hi. destruct (lookup_lt_is_Some_2 _ _ Hi) as [x Hx]. unfold address_of.
  rewrite run_bind_assoc, (run_bind_at_index _ _ _ _ _ Hx). apply run_bind_ret.
Qed.

Lemma export_state_joint_run i acc o joint :
  sized o -> joints (info_ o) !! i = Some joint ->
  export_state_joint i acc o =
    (Next (acc ++ joint_handles Positions Velocities Efforts i joint), o, []).
Proof.
  intros (_ & _ & _ & _ & _ & Lp & Lv & Le & _) Hj.
  pose proof (lookup_lt_Some _ _ _ Hj) as Hi.
  unfold export_state_joint.
  rewrite (run_bind_joint_name _ _ _ _ Hj), run_bind_get, run_bind_address_of by lia.
  rewrite (run_bind_joint_name _ _ _ _ Hj), run_bind_get, run_bind_address_of by lia.
  rewrite (run_bind_joint_name _ _ _ _ Hj), run_bind_get, run_bind_address_of by lia.
  unfold ret, joint_handles. rewrite <- !app_assoc. reflexivity.
Qed.

Lemma export_command_joint_run i acc o joint :
  sized o -> joints (info_ o) !! i = Some joint ->
  export_command_joint i acc o =
    (Next (acc ++ joint_handles CommandPositions CommandVelocities CommandEfforts i joint), o, []).
Proof.
  intros (_ & _ & Lp & Lv & Le & _) Hj.
  pose proof (lookup_lt_Some _ _ _ Hj) as Hi.
  unfold export_command_joint.
  rewrite (run_bind_joint_name _ _ _ _ Hj), run_bind_get, run_bind_address_of by lia.
  rewrite (run_bind_joint_name _ _ _ _ Hj), run_bind_get, run_bind_address_of by lia.
  rewrite (run_bind_joint_name _ _ _ _ Hj), run_bind_get, run_bind_address_of by lia.
  unfold ret, joint_handles. rewrite <- !app_assoc. reflexivity.
Qed.

Lemma for_range_with_handles (body : nat -> list Handle -> M (list Handle)) p v e o :
  (forall i acc joint, joints (info_ o) !! i = Some joint ->
     body i acc o = (Next (acc ++ joint_handles p v e i joint), o, [])) ->
  forall n i acc, (i + n <= length (joints (info_ o)))%nat ->
  for_range_with n i body acc o =
    (Next (acc ++ concat (imap (fun k => joint_handles p v e (i + k))
                            (take n (drop i (joints (info_ o)))))), o, []).
Proof.
  intros Hbody. induction n as [|n IH]; intros i acc Hlen.
  - simpl. rewrite app_nil_r. reflexivity.
  - destruct (lookup_lt_is_Some_2 (joints (info_ o)) i) as [joint Hj]; [lia|].
    change (for_range_with (S n) i body acc o)
      with ((body i acc ≫= fun l' => for_range_with n (S i) body l') o).
    rewrite run_bind, (Hbody _ _ _ Hj), IH by lia.
    rewrite (drop_S _ _ _ Hj). cbn [firstn imap concat app].
    rewrite Nat.add_0_r, <- !app_assoc.
    rewrite (imap_ext ((fun k => joint_handles p v e (i + k)) ∘ S)
               (fun k => joint_handles p v e (S i + k))); [reflexivity|].
    intros k x _. unfold compose. f_equal. lia.
Qed.

Lemma joint_handles_lookup p v e js : forall start i joint r,
  js !! i = Some joint -> (r < 3)%nat ->
  concat (imap (fun k => joint_handles p v e (start + k)) js) !! (3 * i + r)%nat =
    joint_handles p v e (start + i) joint !! r.
Proof.
  induction js as [|j js IH]; intros start i joint r Hj Hr; [discriminate|].
  cbn [imap concat]. destruct i as [|i]; simpl in Hj.
  - inversion Hj; subst. rewrite Nat.add_0_r.
    rewrite lookup_app_l by (simpl; lia). reflexivity.
  - rewrite lookup_app_r by (simpl; lia).
    replace (3 * S i + r - length (joint_handles p v e (start + 0) j))%nat
      with (3 * i + r)%nat by (simpl; lia).
    rewrite (imap_ext _ (fun k => joint_handles p v e (S start + k))).
    + rewrite (IH (S start) i joint r Hj Hr). f_equal. f_equal. lia.
    + intros k x _. unfold compose. f_equal. lia.
Qed.

Lemma joint_handles_length p v e js : forall start,
  length (concat (imap (fun k => joint_handles p v e (start + k)) js)) = (3 * length js)%nat.
Proof.
  induction js as [|j js IH]; intros start; [reflexivity|].
  cbn [imap concat]. rewrite length_app.
  rewrite (imap_ext _ (fun k => joint_handles p v e (S start + k))).
  - rewrite IH. simpl. lia.
  - intros k x _. unfold compose. f_equal. lia.
Qed.

Lemma export_state_interfaces_run o :
  sized o ->
  export_state_interfaces o =
    (Next (all_handles Positions Velocities Efforts (joints (info_ o))), o, []).
Proof.
  intros Hs. unfold export_state_interfaces, joints_size. rewrite run_bind_get.
  rewrite (for_range_with_handles _ Positions Velocities Efforts) by
    (auto using export_state_joint_run).
  rewrite drop_0, firstn_all. reflexivity.
Qed.

Lemma export_command_interfaces_run o :
  sized o ->
  export_command_interfaces o =
    (Next (all_handles CommandPositions CommandVelocities CommandEfforts (joints (info_ o))),
     o, []).
Proof.
  intros Hs. unfold export_command_interfaces, joints_size. rewrite run_bind_get.
  rewrite (for_range_with_handles _ CommandPositions CommandVelocities CommandEfforts) by
    (auto using export_command_joint_run).
  rewrite drop_0, firstn_all. reflexivity.
Qed.

Lemma all_handles_lookup p v e js i joint r :
  js !! i = Some joint -> (r < 3)%nat ->
  all_handles p v e js !! (3 * i + r)%nat = joint_handles p v e i joint !! r.
Proof. intros Hj Hr. exact (joint_handles_lookup p v e js 0 i joint r Hj Hr). Qed.

Lemma all_handles_length p v e js : length (all_handles p v e js) = (3 * length js)%nat.
Proof. exact (joint_handles_length p v e js 0). Qed.

Lemma all_handles_elem p v e js h :
  h ∈ all_handles p v e js ->
  exists i joint, js !! i = Some joint /\ h ∈ joint_handles p v e i joint.
Proof.
  unfold all_handles. intros H. apply list_elem_of_In, in_concat in H.
  destruct H as (l & Hl & Hh). apply list_elem_of_In in Hl, Hh.
  apply elem_of_lookup_imap in Hl. destruct Hl as (i & joint & -> & Hj). eauto.
Qed.

Lemma joint_handles_pointer p v e i joint h :
  h ∈ joint_handles p v e i joint ->
  offset (value_ptr h) = i /\
  (target (value_ptr h) = p \/ target (value_ptr h) = v \/ target (value_ptr h) = e).
Proof.
  unfold joint_handles. intros H.
  repeat (apply elem_of_cons in H; destruct H as [->|H]; [simpl; auto|]).
  apply elem_of_nil in H. contradiction.
Qed.

Lemma state_handle_dereferences o h :
  sized o -> h ∈ all_handles Positions Velocities Efforts (joints (info_ o)) ->
  is_Some (dereference o (value_ptr h)).
Proof.
  intros (_ & _ & _ & _ & _ & Lp & Lv & Le & _) H.
  apply all_handles_elem in H. destruct H as (i & joint & Hj & H).
  apply lookup_lt_Some in Hj. apply joint_handles_pointer in H. destruct H as (Ho & Ht).
  unfold dereference. destruct Ht as [->|[->| ->]]; rewrite Ho;
    apply lookup_lt_is_Some_2; lia.
Qed.

Lemma command_handle_dereferences o h :
  sized o ->
  h ∈ all_handles CommandPositions CommandVelocities CommandEfforts (joints (info_ o)) ->
  is_Some (dereference o (value_ptr h)).
Proof.
  intros (_ & _ & Lp & Lv & Le & _) H.
  apply all_handles_elem in H. destruct H as (i & joint & Hj & H).
  apply lookup_lt_Some in Hj. apply joint_handles_pointer in H. destruct H as (Ho & Ht).
  unfold dereference. destruct Ht as [->|[->| ->]]; rewrite Ho;
    apply lookup_lt_is_Some_2; lia.
Qed.

(** X1.  On an object whose vectors have one entry per joint,
    [export_state_interfaces] returns three handles per joint, in the order
    of the joints: position, velocity and effort, each under the joint's
    name and pointing at the joint's entry of [hw_positions_],
    [hw_velocities_] and [hw_efforts_].  It leaves the object as it was,
    transfers and logs nothing, and every pointer lies inside its vector. *)
Theorem export_state_interfaces_handles o :
  sized o ->
  exists hs,
    export_state_interfaces o = (Next hs, o, []) /\
    length hs = (3 * length (joints (info_ o)))%nat /\
    (forall i joint, joints (info_ o) !! i = Some joint ->
       hs !! (3 * i)%nat =
         Some {| handle_name := name joint; interface_name := HW_IF_POSITION;
                 value_ptr := {| target := Positions; offset := i |} |} /\
       hs !! (3 * i + 1)%nat =
         Some {| handle_name := name joint; interface_name := HW_IF_VELOCITY;
                 value_ptr := {| target := Velocities; offset := i |} |} /\
       hs !! (3 * i + 2)%nat =
         Some {| handle_name := name joint; interface_name := HW_IF_EFFORT;
                 value_ptr := {| target := Efforts; offset := i |} |}) /\
    (forall h, h ∈ hs -> is_Some (dereference o (value_ptr h))).
Proof.
  intros Hs. eexists. split; [apply export_state_interfaces_run; exact Hs|].
  split; [apply all_handles_length|]. split.
  - intros i joint Hj.
    pose proof (all_handles_lookup Positions Velocities Efforts _ i joint 0 Hj) as H0.
    pose proof (all_handles_lookup Positions Velocities Efforts _ i joint 1 Hj) as H1.
    pose proof (all_handles_lookup Positions Velocities Efforts _ i joint 2 Hj) as H2.
    rewrite Nat.add_0_r in H0. rewrite H0, H1, H2 by lia. repeat split.
  - intros h Hh. apply state_handle_dereferences; auto.
Qed.

(** X2.  [export_command_interfaces] returns, per joint and in the order
    of the joints, a position, a velocity and an effort handle under the
    joint's name, pointing at the joint's entry of
    [hw_commands_positions_], [hw_commands_velocities_] and
    [hw_commands_efforts_]; the object is unchanged, nothing is transferred
    or logged, and every pointer lies inside its vector. *)
Theorem export_command_interfaces_handles o :
  sized o ->
  exists hs,
    export_command_interfaces o = (Next hs, o, []) /\
    length hs = (3 * length (joints (info_ o)))%nat /\
    (forall i joint, joints (info_ o) !! i = Some joint ->
       hs !! (3 * i)%nat =
         Some {| handle_name := name joint; interface_name := HW_IF_POSITION;
                 value_ptr := {| target := CommandPositions; offset := i |} |} /\
       hs !! (3 * i + 1)%nat =
         Some {| handle_name := name joint; interface_name := HW_IF_VELOCITY;
                 value_ptr := {| target := CommandVelocities; offset := i |} |} /\
       hs !! (3 * i + 2)%nat =
         Some {| handle_name := name joint; interface_name := HW_IF_EFFORT;
                 value_ptr := {| target := CommandEfforts; offset := i |} |}) /\
    (forall h, h ∈ hs -> is_Some (dereference o (value_ptr h))).
Proof.
  intros Hs. eexists. split; [apply export_command_interfaces_run; exact Hs|].
  split; [apply all_handles_length|]. split.
  - intros i joint Hj.
    pose proof (all_handles_lookup CommandPositions CommandVelocities CommandEfforts
                  _ i joint 0 Hj) as H0.
    pose proof (all_handles_lookup CommandPositions CommandVelocities CommandEfforts
                  _ i joint 1 Hj) as H1.
    pose proof (all_handles_lookup CommandPositions CommandVelocities CommandEfforts
                  _ i joint 2 Hj) as H2.
    rewrite Nat.add_0_r in H0. rewrite H0, H1, H2 by lia. repeat split.
  - intros h Hh. apply command_handle_dereferences; auto.
Qed.

Lemma all_handles_NoDup p v e js : forall start,
  p <> v -> p <> e -> v <> e ->
  NoDup (value_ptr <$> concat (imap (fun k => joint_handles p v e (start + k)) js)) /\
  (forall q, q ∈ value_ptr <$> concat (imap (fun k => joint_handles p v e (start + k)) js) ->
     (start <= offset q)%nat /\ (target q = p \/ target q = v \/ target q = e)).
Proof.
  induction js as [|j js IH]; intros start Hpv Hpe Hve.
  - simpl. split; [constructor|]. intros q Hq. apply elem_of_nil in Hq. contradiction.
  - cbn [imap concat]. rewrite Nat.add_0_r.
    rewrite (imap_ext ((fun k => joint_handles p v e (start + k)) ∘ S)
               (fun k => joint_handles p v e (S start + k)))
      by (intros k x _; unfold compose; f_equal; lia).
    destruct (IH (S start) Hpv Hpe Hve) as (Hnd & Hin).
    set (rest := value_ptr <$> concat (imap (fun k => joint_handles p v e (S start + k)) js)) in *.
    rewrite fmap_app. fold rest. unfold joint_handles. cbn [fmap list_fmap value_ptr app].
    assert (Hout : forall b, {| target := b; offset := start |} ∉ rest).
    { intros b Hb. apply Hin in Hb. simpl in Hb. lia. }
    split.
    + rewrite !NoDup_cons. repeat split; auto;
        intros H; repeat (apply elem_of_cons in H; destruct H as [H|H]; [congruence|]);
        exact (Hout _ H).
    + intros q Hq.
      repeat (apply elem_of_cons in Hq; destruct Hq as [->|Hq]; [simpl; auto|]).
      apply Hin in Hq. destruct Hq. split; [lia|auto].
Qed.

(** X3.  No two exported handles share a value: the pointers of the state
    handles and of the command handles together are pairwise distinct. *)
Theorem exported_handles_do_not_alias o hs hc :
  export_state_interfaces o = (Next hs, o, []) ->
  export_command_interfaces o = (Next hc, o, []) ->
  sized o ->
  NoDup (value_ptr <$> (hs ++ hc)).
Proof.
  intros Hes Hec Hs.
  rewrite (export_state_interfaces_run o Hs) in Hes.
  rewrite (export_command_interfaces_run o Hs) in Hec.
  inversion Hes; inversion Hec; subst; clear Hes Hec.
  destruct (all_handles_NoDup Positions Velocities Efforts (joints (info_ o)) 0)
    as (N1 & I1); try discriminate.
  destruct (all_handles_NoDup CommandPositions CommandVelocities CommandEfforts
              (joints (info_ o)) 0) as (N2 & I2); try discriminate.
  rewrite fmap_app. apply NoDup_app. split; [exact N1|]. split; [|exact N2].
  intros q H1 H2. apply I1 in H1. apply I2 in H2.
  destruct H1 as (_ & [T|[T|T]]), H2 as (_ & [U|[U|U]]); congruence.
Qed.

(** *** What the calls leave alone *)

Lemma same_configuration_refl o : same_configuration o o.
Proof. repeat split. Qed.

Lemma same_configuration_trans o1 o2 o3 :
  same_configuration o1 o2 -> same_configuration o2 o3 -> same_configuration o1 o3.
Proof. unfold same_configuration. intuition congruence. Qed.

Lemma run_call_same_configuration c o :
  ready o -> same_configuration o (run_call c o).1.2.
Proof.
  intros (Hs & [d Hd]). destruct c; simpl.
  - destruct (request_every_axis_shape AXIS_STATE_CLOSED_LOOP_CONTROL STARTED o d Hd Hs)
      as (d' & st & E).
    change (request_every_axis AXIS_STATE_CLOSED_LOOP_CONTROL STARTED) with start in E.
    rewrite E. repeat split.
  - destruct (request_every_axis_shape AXIS_STATE_IDLE STOPPED o d Hd Hs)
      as (d' & st & E).
    change (request_every_axis AXIS_STATE_IDLE STOPPED) with stop in E.
    rewrite E. repeat split.
  - destruct (read o) as [[f o'] es] eqn:E.
    destruct (read_run o d f o' es Hd Hs E) as (d' & ms & tail & Hd' & _ & F & _).
    simpl. unfold read_frame in F. unfold same_configuration. tauto.
  - destruct (write o) as [[f o'] es] eqn:E.
    destruct (write_run o d f o' es Hd Hs E) as (d' & k & pre & tail & -> & _).
    simpl. repeat split.
Qed.

Lemma run_calls_same_configuration cs : forall o,
  ready o -> same_configuration o (run_calls cs o) /\ ready (run_calls cs o).
Proof.
  induction cs as [|c cs IH]; intros o Hr; [split; [apply same_configuration_refl|auto]|].
  simpl. destruct (run_call_ready c o Hr) as (Hr1 & _).
  destruct (IH _ Hr1) as (S2 & Hr2). split; [|exact Hr2].
  eapply same_configuration_trans; [apply run_call_same_configuration; exact Hr|exact S2].
Qed.

(** X4.  The handles stay good: after any sequence of [start], [stop],
    [read] and [write] on a configured object, whatever each call returned,
    both export functions return the same handles as before and every
    pointer handed out earlier still lies inside its vector. *)
Theorem exported_handles_stay_valid o hs hc cs :
  ready o ->
  export_state_interfaces o = (Next hs, o, []) ->
  export_command_interfaces o = (Next hc, o, []) ->
  let o2 := run_calls cs o in
  export_state_interfaces o2 = (Next hs, o2, []) /\
  export_command_interfaces o2 = (Next hc, o2, []) /\
  (forall h, h ∈ hs ++ hc -> is_Some (dereference o2 (value_ptr h))).
Proof.
  intros Hr Hes Hec. pose proof Hr as (Hs & _).
  rewrite (export_state_interfaces_run o Hs) in Hes.
  rewrite (export_command_interfaces_run o Hs) in Hec.
  inversion Hes; inversion Hec; subst; clear Hes Hec.
  destruct (run_calls_same_configuration cs o Hr) as ((Ei & _) & (Hs2 & _)).
  cbv zeta. rewrite <- Ei.
  split; [apply export_state_interfaces_run; exact Hs2|].
  split; [apply export_command_interfaces_run; exact Hs2|].
  intros h Hh. apply elem_of_app in Hh. destruct Hh as [Hh|Hh].
  - apply state_handle_dereferences; auto.
  - apply command_handle_dereferences; auto.
Qed.


Lemma wrote_is_EvWrite o r j e : wrote o r j e -> is_EvWrite e.
Proof. intros (? & ? & _ & ->). exact I. Qed.

(** X6.  [write] changes nothing of the object but the device behind
    [odrive]: every vector, [info_] and [status_] are as before.  It returns
    [OK] or [ERROR], its events are a transcript of the device, and it never
    reads a register nor initialises the transport. *)
Theorem write_changes_only_the_transport o d f o' es :
  odrive o = Some d -> sized o -> write o = (f, o', es) ->
  exists d',
    o' = set_odrive (Some d') o /\ transfers d es d' /\
    (f = Return OK \/ f = Return ERROR) /\
    Forall (fun e => ~ is_EvRead e /\ forall r, e <> EvInit r) es.
Proof.
  intros Hd Hs Hrun.
  destruct (write_run o d f o' es Hd Hs Hrun)
    as (d' & k & pre & tail & -> & T & Hk & -> & Hpre & Hcase).
  exists d'. split; [reflexivity|]. split; [exact T|].
  assert (Hp : Forall (fun e => ~ is_EvRead e /\ forall r, e <> EvInit r) pre).
  { apply Forall_forall. intros e He. apply list_elem_of_lookup in He. destruct He as [i He].
    destruct (Forall2_lookup_r _ _ _ _ _ Hpre He) as (j & _ & (? & ? & _ & ->)).
    split; [intros []|discriminate]. }
  destruct Hcase as [(-> & -> & ->)|[(-> & Hu & ->)|(r & e & -> & Hlt & Hr & He & ->)]].
  - split; [auto|]. rewrite app_nil_r. exact Hp.
  - split; [auto|]. apply Forall_app. split; [exact Hp|].
    repeat constructor; [intros []|discriminate].
  - split; [auto|]. apply Forall_app. split; [exact Hp|].
    destruct He as (? & ? & _ & ->).
    repeat constructor; try (intros []); discriminate.
Qed.

Lemma joint_reads_are_reads (axes : list Z) ms :
  Forall is_EvRead (concat (zip_with joint_reads axes ms)).
Proof.
  apply Forall_forall. intros e He. apply joint_reads_succeed in He.
  destruct He as (? & ? & ->). exact I.
Qed.

(** X7.  [read] changes only the three state vectors and the device: the
    commands, the control levels, the axes, the motor constants, [info_]
    and [status_] are as before and the state vectors keep their length.  It
    returns [OK] or [ERROR], never writes a register nor initialises the
    transport, and makes at most three transfers per joint, plus one error
    line. *)
Theorem read_changes_only_the_state o d f o' es :
  odrive o = Some d -> sized o -> read o = (f, o', es) ->
  read_frame o o' /\
  (f = Return OK \/ f = Return ERROR) /\
  Forall (fun e => ~ is_EvWrite e /\ forall r, e <> EvInit r) es /\
  (length es <= 3 * length (joints (info_ o)) + 1)%nat.
Proof.
  intros Hd Hs Hrun.
  destruct (read_run o d f o' es Hd Hs Hrun)
    as (d' & ms & tail & Hd' & T & F & -> & Hms & _ & Hcase).
  split; [exact F|].
  assert (Hp : Forall (fun e => ~ is_EvWrite e /\ forall r, e <> EvInit r)
                 (concat (zip_with joint_reads (axis_ o) ms))).
  { eapply Forall_impl; [apply joint_reads_are_reads|].
    intros [] He; try contradiction. split; [intros []|discriminate]. }
  assert (Hl : forall axes, (length (concat (zip_with joint_reads axes ms)) <= 3 * length ms)%nat).
  { clear. induction ms as [|m ms IH]; intros [|a axes]; simpl; try lia.
    specialize (IH axes). lia. }
  specialize (Hl (axis_ o)).
  destruct Hcase as [(-> & Hn & ->)|(r & fr & axis & -> & Hlt & Hr & Ha & Hfr & ->)].
  - split; [auto|]. rewrite app_nil_r. split; [exact Hp|]. lia.
  - split; [auto|]. split.
    + apply Forall_app. split; [exact Hp|]. apply Forall_app. split.
      * destruct Hfr as [(c & ->)|[(c & v & ->)|(c & v & p & ->)]];
          repeat constructor; try (intros []); discriminate.
      * repeat constructor; [intros []|discriminate].
    + rewrite !length_app. simpl.
      assert (length fr <= 3)%nat.
      { destruct Hfr as [(c & ->)|[(c & v & ->)|(c & v & p & ->)]]; simpl; lia. }
      lia.
Qed.

(** *** More on configure *)

Lemma configure_joints_all_ok js : forall o,
  Forall joint_ok js ->
  exists axes kvs,
    for_each js configure_joint o =
      (Next tt, set_KV_ (KV_ o ++ kvs) (set_axis_ (axis_ o ++ axes) o), []) /\
    Forall2 (fun joint axis => parsed joint "axis" = inr axis) js axes /\
    Forall2 (fun joint KV => parsed joint "KV" = inr KV) js kvs.
Proof.
  induction js as [|j js IH]; intros o Hok.
  - exists [], []. split; [|split; constructor].
    destruct o. unfold set_KV_, set_axis_. simpl. rewrite !app_nil_r. reflexivity.
  - inversion Hok as [|? ? (Hv & (a & Pa) & (v & Pv)) Hrest]; subst.
    rewrite for_each_cons, (configure_joint_valid j o Hv), Pa, Pv.
    destruct (IH (set_KV_ (KV_ o ++ [v]) (set_axis_ (axis_ o ++ [a]) o)) Hrest)
      as (axes & kvs & -> & Fa & Fk).
    exists (a :: axes), (v :: kvs). split; [|split; constructor; auto].
    destruct o. unfold set_KV_, set_axis_. simpl. rewrite <- !app_assoc. reflexivity.
Qed.

Lemma configure_joints_Next js o o' es :
  for_each js configure_joint o = (Next tt, o', es) -> Forall joint_ok js.
Proof.
  intros H. apply configure_joints_run in H.
  destruct H as (k & axes & kvs & extra & _ & Fa & Fk & Fv & Hcase).
  destruct Hcase as [(_ & -> & _)|[(j & t & ? & _)|(j & e & ? & _)]]; try discriminate.
  rewrite firstn_all in *. apply Forall_forall. intros j Hj.
  apply list_elem_of_lookup in Hj. destruct Hj as [i Hi].
  destruct (Forall2_lookup_l _ _ _ _ _ Fa Hi) as (a & _ & Ha).
  destruct (Forall2_lookup_l _ _ _ _ _ Fk Hi) as (v & _ & Hv).
  split; [exact (Forall_lookup_1 _ _ _ _ Fv Hi)|]. split; eauto.
Qed.

(** X8.  [configure] returns [OK] exactly when [configure_default]
    succeeded, every joint has three command and three state interfaces with
    a known first name and parameters ["axis"] and ["KV"] that [std::stoi]
    accepts, and the transport's [init] returned 0.  It has then initialised
    the transport once and done nothing else observable, [status_] is
    [CONFIGURED], [info_] is the argument and [odrive] is the initialised
    device. *)
Theorem configure_succeeds_exactly_when info o :
  ((configure info o).1.1 = Return OK <->
   configure_default_result info = OK /\ Forall joint_ok (joints info) /\
   (usb_init usb_new).1 = 0) /\
  ((configure info o).1.1 = Return OK ->
   (configure info o).2 = [EvInit 0] /\
   status_ (configure info o).1.2 = CONFIGURED /\
   info_ (configure info o).1.2 = info /\
   odrive (configure info o).1.2 = Some (usb_init usb_new).2).
Proof.
  rewrite configure_run.
  destruct (configure_default_result info) eqn:Hcd.
  2:{ split; [split; [discriminate|intros (? & _); discriminate]|discriminate]. }
  destruct (for_each (joints info) configure_joint (prepared info o)) as [[f1 o1] es1] eqn:E.
  pose proof E as E'. apply configure_joints_run in E'.
  destruct E' as (k & axes & kvs & extra & Ho1 & _ & _ & _ & Hcase).
  destruct Hcase as [(-> & _ & _ & ->)|[(j & t & -> & Hj & Hv & _)|(j & e & -> & Hj & Hv & _ & Hp)]].
  - pose proof (configure_joints_Next _ _ _ _ E) as Hok.
    cbv zeta. destruct ((usb_init usb_new).1 =? 0) eqn:Er.
    + apply Z.eqb_eq in Er. simpl. rewrite Er, Ho1. repeat split; auto.
    + apply Z.eqb_neq in Er. simpl.
      split; [split; [discriminate|intros (_ & _ & ?); contradiction]|discriminate].
  - simpl. split; [split; [discriminate|]|discriminate].
    intros (_ & Hok & _). destruct (Forall_lookup_1 _ _ _ _ Hok Hj) as (Hv' & _). congruence.
  - simpl. split; [split; [discriminate|]|discriminate].
    intros (_ & Hok & _).
    destruct (Forall_lookup_1 _ _ _ _ Hok Hj) as (_ & (a & Pa) & (v & Pv)).
    destruct Hp as [(P & _)|(a' & _ & P & _)]; congruence.
Qed.

(** X9.  [configure] never reads or writes a register of the device,
    whatever it returns, and produces at most two events (the
    initialisation and one error line). *)
Theorem configure_transfers_no_register info o :
  Forall (fun e => ~ is_EvRead e /\ ~ is_EvWrite e) (configure info o).2 /\
  (length (configure info o).2 <= 2)%nat.
Proof.
  rewrite configure_run.
  destruct (configure_default_result info); [|simpl; split; [constructor|lia]].
  destruct (for_each (joints info) configure_joint (prepared info o)) as [[f1 o1] es1] eqn:E.
  apply configure_joints_run in E.
  destruct E as (k & axes & kvs & extra & _ & _ & _ & _ & Hcase).
  destruct Hcase as [(-> & _ & _ & ->)|[(j & t & -> & _ & _ & _ & ->)|(j & e & -> & _ & _ & -> & _)]].
  - cbv zeta. destruct (_ =? 0); simpl; split; try lia;
      repeat constructor; intros [].
  - simpl. split; [|lia]. repeat constructor; intros [].
  - simpl. split; [constructor|lia].
Qed.

(** X10.  When every joint is accepted and the transport's [init] returns
    a non-zero [result], [configure] logs [libusb_error_name(result)] and
    returns [ERROR]; [status_] is what [configure_default] left, not
    [CONFIGURED], but [odrive] already holds the new device and, on a newly
    constructed object, every vector has one entry per joint. *)
Theorem configure_init_failure info o :
  configure_default_result info = OK -> Forall joint_ok (joints info) ->
  (usb_init usb_new).1 <> 0 ->
  exists o',
    configure info o =
      (Return ERROR, o', [EvInit (usb_init usb_new).1;
                          EvError (libusb_error_name (usb_init usb_new).1)]) /\
    status_ o' = configure_default_status info /\
    odrive o' = Some (usb_init usb_new).2 /\
    (constructed o -> ready o').
Proof.
  intros Hcd Hok Hr. rewrite configure_run, Hcd.
  destruct (configure_joints_all_ok (joints info) (prepared info o) Hok)
    as (axes & kvs & -> & Fa & Fk).
  cbv zeta. apply Z.eqb_neq in Hr. rewrite Hr. simpl.
  eexists. split; [reflexivity|]. fields. split; [reflexivity|]. split; [reflexivity|].
  intros (Ca & Ck & Ccp & Ccv & Cce & Cp & Cv & Ce & Cc).
  apply Forall2_length in Fa, Fk.
  split; [|fields; eauto]. unfold sized, prepared. fields.
  rewrite Ca, Ck. simpl app. rewrite !length_resize. repeat split; auto.
Qed.

Lemma configure_joint_same_checked joint1 joint2 o :
  same_checked joint1 joint2 -> configure_joint joint1 o = configure_joint joint2 o.
Proof.
  intros (Hn & Hp & Hc & Hs & Hc0 & Hs0).
  unfold configure_joint, at_index, parameter.
  rewrite Hn, Hp, Hc, Hs, Hc0, Hs0. reflexivity.
Qed.

Lemma configure_joint_invalid_any joint :
  valid_interfaces joint = false ->
  exists t, forall o, configure_joint joint o = (Return ERROR, o, [EvError t]).
Proof.
  unfold valid_interfaces, configure_joint. intros H.
  destruct (length (command_interfaces joint) =? 3)%nat eqn:E1;
    [|eexists; intros; reflexivity].
  destruct (command_interfaces joint !! 0%nat) as [c0|] eqn:L1.
  2:{ apply Nat.eqb_eq in E1. apply lookup_ge_None in L1. lia. }
  destruct (is_hw_if (if_name c0)) eqn:E2.
  2:{ eexists. intros o. simpl negb. rewrite run_bind_when_false.
      rewrite (run_bind_at_index _ _ _ _ _ L1), E2. reflexivity. }
  destruct (length (state_interfaces joint) =? 3)%nat eqn:E3.
  2:{ eexists. intros o. simpl negb. rewrite run_bind_when_false.
      rewrite (run_bind_at_index _ _ _ _ _ L1), E2. simpl negb.
      rewrite run_bind_when_false. reflexivity. }
  destruct (state_interfaces joint !! 0%nat) as [s0|] eqn:L2.
  2:{ apply Nat.eqb_eq in E3. apply lookup_ge_None in L2. lia. }
  destruct (is_hw_if (if_name s0)) eqn:E4; [discriminate|].
  eexists. intros o. simpl negb. rewrite run_bind_when_false.
  rewrite (run_bind_at_index _ _ _ _ _ L1), E2. simpl negb.
  rewrite !run_bind_when_false.
  rewrite (run_bind_at_index _ _ _ _ _ L2), E4. reflexivity.
Qed.

Lemma same_but_info_set i o : same_but_info o (set_info_ i o).
Proof. destruct o; reflexivity. Qed.

Lemma configure_joint_same_but_info joint o1 o2 :
  same_but_info o1 o2 ->
  (configure_joint joint o1).1.1 = (configure_joint joint o2).1.1 /\
  (configure_joint joint o1).2 = (configure_joint joint o2).2 /\
  same_but_info (configure_joint joint o1).1.2 (configure_joint joint o2).1.2.
Proof.
  unfold same_but_info. intros ->.
  destruct (valid_interfaces joint) eqn:Hv.
  - rewrite !(configure_joint_valid joint _ Hv).
    destruct (parsed joint "axis"); [simpl; repeat split; destruct o1; reflexivity|].
    destruct (parsed joint "KV"); simpl; repeat split; destruct o1; reflexivity.
  - destruct (configure_joint_invalid_any joint Hv) as [t Ht].
    rewrite !Ht. simpl. repeat split; destruct o1; reflexivity.
Qed.

Lemma configure_joints_same_checked js1 js2 :
  Forall2 same_checked js1 js2 -> forall o1 o2,
  same_but_info o1 o2 ->
  (for_each js1 configure_joint o1).1.1 = (for_each js2 configure_joint o2).1.1 /\
  (for_each js1 configure_joint o1).2 = (for_each js2 configure_joint o2).2 /\
  same_but_info (for_each js1 configure_joint o1).1.2 (for_each js2 configure_joint o2).1.2.
Proof.
  induction 1 as [|j1 j2 js1 js2 Hj Hjs IH]; intros o1 o2 Ho; [simpl; auto|].
  rewrite !for_each_cons, (configure_joint_same_checked j1 j2 o1 Hj).
  destruct (configure_joint_same_but_info j2 o1 o2 Ho) as (Ef & Ee & Eo).
  destruct (configure_joint j2 o1) as [[f1 p1] e1].
  destruct (configure_joint j2 o2) as [[f2 p2] e2].
  simpl in Ef, Ee, Eo. subst f2 e2.
  destruct f1 as [[]| | |]; simpl; auto.
  destruct (IH p1 p2 Eo) as (If & Ie & Io).
  destruct (for_each js1 configure_joint p1) as [[g1 q1] h1].
  destruct (for_each js2 configure_joint p2) as [[g2 q2] h2].
  simpl in *. subst. auto.
Qed.

(** X11.  Of a joint's interfaces [configure] looks only at how many
    there are and at the name of the first command and the first state
    interface: two descriptions whose joints agree on these, on the name and
    on the parameters (and on which [configure_default] agrees) give the
    same result, the same events and the same object, [info_] apart. *)
Theorem configure_checks_only_the_first_interface info1 info2 o :
  Forall2 same_checked (joints info1) (joints info2) ->
  configure_default_result info1 = configure_default_result info2 ->
  configure_default_status info1 = configure_default_status info2 ->
  (configure info1 o).1.1 = (configure info2 o).1.1 /\
  (configure info1 o).2 = (configure info2 o).2 /\
  same_but_info (configure info1 o).1.2 (configure info2 o).1.2.
Proof.
  intros Hjs Hr Hst. rewrite !configure_run, <- Hr, <- Hst.
  destruct (configure_default_result info1).
  2:{ simpl. repeat split; destruct o; reflexivity. }
  assert (Hp : same_but_info (prepared info1 o) (prepared info2 o)).
  { unfold same_but_info, prepared. rewrite <- Hst, (Forall2_length _ _ _ Hjs). reflexivity. }
  destruct (configure_joints_same_checked _ _ Hjs _ _ Hp) as (Ef & Ee & Eo).
  destruct (for_each (joints info1) configure_joint _) as [[f1 p1] e1].
  destruct (for_each (joints info2) configure_joint _) as [[f2 p2] e2].
  simpl in Ef, Ee, Eo. subst f2 e2.
  destruct f1 as [[]| | |]; simpl; auto.
  cbv zeta. destruct (_ =? 0); simpl; repeat split;
    unfold same_but_info in *; rewrite Eo; destruct p1; reflexivity.
Qed.

(** X12.  [configure] clears nothing.  Called on an object that already
    holds entries, a successful call resizes the state, command and
    control-level vectors to the joint count, keeping their old entries, and
    appends the new axes and motor constants after the old ones; the vectors
    have one entry per joint afterwards exactly when [axis_] and [KV_] were
    empty before. *)
Theorem configure_again_keeps_the_old_entries info o o' es :
  configure info o = (Return OK, o', es) ->
  let n := length (joints info) in
  hw_positions_ o' = resize n quiet_NaN (hw_positions_ o) /\
  hw_velocities_ o' = resize n quiet_NaN (hw_velocities_ o) /\
  hw_efforts_ o' = resize n quiet_NaN (hw_efforts_ o) /\
  hw_commands_positions_ o' = resize n 0%float (hw_commands_positions_ o) /\
  hw_commands_velocities_ o' = resize n 0%float (hw_commands_velocities_ o) /\
  hw_commands_efforts_ o' = resize n 0%float (hw_commands_efforts_ o) /\
  control_level_ o' = resize n VELOCITY (control_level_ o) /\
  length (axis_ o') = (length (axis_ o) + n)%nat /\
  length (KV_ o') = (length (KV_ o) + n)%nat /\
  (forall i, (i < length (axis_ o))%nat -> axis_ o' !! i = axis_ o !! i) /\
  (forall i, (i < length (KV_ o))%nat -> KV_ o' !! i = KV_ o !! i) /\
  (sized o' <-> axis_ o = [] /\ KV_ o = []).
Proof.
  intros Hrun. rewrite configure_run in Hrun.
  destruct (configure_default_result info); [|discriminate].
  destruct (for_each _ configure_joint _) as [[f1 p1] es1] eqn:E.
  apply configure_joints_run in E.
  destruct E as (k & axes & kvs & extra & -> & Fa & Fk & _ & Hcase).
  destruct Hcase as [(-> & -> & -> & ->)|[(j & t & -> & _)|(j & e & -> & _)]];
    try discriminate.
  cbv zeta in Hrun. destruct (_ =? 0); [|discriminate].
  inversion Hrun; subst; clear Hrun. unfold sized, prepared. fields.
  rewrite firstn_all, ?app_nil_r in *. apply Forall2_length in Fa, Fk.
  rewrite !length_app, !length_resize, <- Fa, <- Fk.
  do 9 (split; [reflexivity|]).
  split; [intros i Hi; apply lookup_app_l; exact Hi|].
  split; [intros i Hi; apply lookup_app_l; exact Hi|].
  split.
  - intros (Ha & Hk & _).
    split; apply length_zero_iff_nil; lia.
  - intros (-> & ->). simpl. repeat split; reflexivity.
Qed.

(** *** After configure every joint is driven by velocity *)

Lemma configure_ok_ready info o o1 es :
  constructed o -> configure info o = (Return OK, o1, es) ->
  ready o1 /\ info_ o1 = info /\
  control_level_ o1 = replicate (length (joints info)) VELOCITY.
Proof.
  intros (Ca & Ck & Ccp & Ccv & Cce & Cp & Cv & Ce & Cc) Hrun. rewrite configure_run in Hrun.
  destruct (configure_default_result info); [|discriminate].
  destruct (for_each _ configure_joint _) as [[f1 p1] es1] eqn:E.
  apply configure_joints_run in E.
  destruct E as (k & axes & kvs & extra & -> & Fa & Fk & _ & Hcase).
  destruct Hcase as [(-> & -> & -> & ->)|[(j & t & -> & _)|(j & e & -> & _)]];
    try discriminate.
  cbv zeta in Hrun. destruct (_ =? 0); [|discriminate].
  inversion Hrun; subst; clear Hrun.
  rewrite firstn_all, ?app_nil_r in *. apply Forall2_length in Fa, Fk.
  unfold ready, sized, prepared. fields.
  rewrite Ca, Ck, Cc. simpl app. rewrite !length_resize, resize_nil.
  repeat split; eauto.
Qed.

Lemma wrote_velocity o r j e :
  control_level_ o !! j = Some VELOCITY -> wrote o r j e -> velocity_write o r j e.
Proof.
  intros Hc (endpoint & value & Hs & ->). unfold setpoint in Hs. rewrite Hc in Hs.
  destruct (axis_ o !! j) as [axis|] eqn:Ha; [|discriminate].
  destruct (hw_commands_velocities_ o !! j) as [velocity|] eqn:Hv; [|discriminate].
  inversion Hs; subst. exists axis, velocity. repeat split; auto.
Qed.

(** X13.  Nothing in the adapter changes a control level: after a
    successful [configure] of a newly constructed object and any sequence of
    [start], [stop], [read] and [write], every joint is still at [VELOCITY],
    so [write] sends the velocity command of each joint, divided by
    [2 * M_PI], to the joint's velocity input (the register
    [AXIS__CONTROLLER__INPUT_VEL + per_axis_offset * axis_[i]] of the code's
    [int] arithmetic), in the order of the joints, until all are sent or
    one transfer fails; the branch for an undefined control level is never
    taken. *)
Theorem after_configure_write_sends_velocities info o o1 es cs f o3 es' :
  constructed o -> configure info o = (Return OK, o1, es) ->
  write (run_calls cs o1) = (f, o3, es') ->
  let o2 := run_calls cs o1 in
  let n := length (joints info) in
  control_level_ o2 = replicate n VELOCITY /\
  exists k pre,
    Forall2 (velocity_write o2 0) (seq 0 k) pre /\
    ((f = Return OK /\ k = n /\ es' = pre) \/
     (exists r e, f = Return ERROR /\ (k < n)%nat /\ r <> 0 /\
        velocity_write o2 r k e /\ es' = pre ++ [e; EvError (libusb_error_name r)])).
Proof.
  intros Hc Hrun Hw. cbv zeta.
  destruct (configure_ok_ready info o o1 es Hc Hrun) as (Hr & Hi & Hl).
  destruct (run_calls_same_configuration cs o1 Hr)
    as ((Ei & _ & _ & _ & _ & _ & El) & (Hs2 & [d Hd])).
  rewrite El, Hl. split; [reflexivity|].
  assert (Hlev : forall j, (j < length (joints info))%nat ->
            control_level_ (run_calls cs o1) !! j = Some VELOCITY).
  { intros j Hj. rewrite El, Hl. apply lookup_replicate_2. exact Hj. }
  destruct (write_run _ d f o3 es' Hd Hs2 Hw)
    as (d' & k & pre & tail & -> & T & Hk & -> & Hpre & Hcase).
  rewrite Ei, Hi in Hk, Hcase.
  exists k, pre. split.
  - apply Forall2_same_length_lookup. split; [eapply Forall2_length; eauto|].
    intros i j e Hj He. pose proof (Forall2_lookup_lr _ _ _ _ _ _ Hpre Hj He) as Hwj.
    apply lookup_seq in Hj. destruct Hj as (-> & Hlt). simpl in Hwj |- *.
    apply wrote_velocity; [apply Hlev; lia|exact Hwj].
  - destruct Hcase as [(-> & -> & ->)|[(-> & Hu & ->)|(r & e & -> & Hlt & Hr' & He & ->)]].
    + left. rewrite app_nil_r. auto.
    + exfalso. destruct (decide (k < length (joints info))%nat) as [Hlt|Hge].
      * rewrite (Hlev k Hlt) in Hu. discriminate.
      * rewrite El, Hl in Hu. rewrite lookup_replicate in Hu. destruct Hu. lia.
    + right. exists r, e. repeat split; auto. apply wrote_velocity; [apply Hlev; lia|exact He].
Qed.

(** *** A motor constant of zero *)

Lemma div_by_zero_not_finite x : not_finite (x / double_of_Z 0)%float.
Proof.
  unfold not_finite. rewrite div_spec.
  change (Prim2SF (double_of_Z 0)) with (S754_zero false).
  destruct (Prim2SF x); simpl; eauto.
Qed.

Local Transparent effort_of_current.

Lemma effort_of_current_zero_KV current : not_finite (effort_of_current current 0).
Proof. exact (div_by_zero_not_finite _). Qed.

Local Opaque effort_of_current.

(** X14.  A motor constant of 0 makes the effort of a successful [read] a
    division by zero: the effort stored for such a joint is an infinity or
    not-a-number, whatever current the device measured. *)
Theorem read_with_zero_KV_is_not_finite o d o' es i :
  odrive o = Some d -> sized o -> read o = (Return OK, o', es) ->
  KV_ o !! i = Some 0 ->
  exists effort, hw_efforts_ o' !! i = Some effort /\ not_finite effort.
Proof.
  intros Hd Hs Hrun Hk.
  destruct (read_run o d _ o' es Hd Hs Hrun)
    as (d' & ms & tail & Hd' & T & F & -> & Hms & _ & Hcase).
  destruct Hcase as [(_ & Hn & ->)|(r & fr & axis & ? & _)]; [|discriminate].
  destruct (lookup_lt_is_Some_2 ms i) as [m Hm].
  { rewrite Hn. destruct Hs as (_ & <- & _). eapply lookup_lt_Some; eauto. }
  destruct (Hms _ _ Hm) as (KV & Hk' & He & _).
  rewrite Hk in Hk'. inversion Hk'; subst KV.
  eexists. split; [exact He|]. apply effort_of_current_zero_KV.
Qed.

(** *** A command stored through a handle is what write sends *)

(** X15.  The value stored through the velocity command handle of joint
    [i] is what the next [write] sends for that joint: when the joint is
    driven by velocity, no earlier joint has an undefined control level and
    [write] returns [OK], its [i]-th event is the successful write of
    [x / 2 / M_PI] to the velocity input of the joint's axis, the register
    [AXIS__CONTROLLER__INPUT_VEL + per_axis_offset * axis_[i]] of the code's
    [int] arithmetic. *)
Theorem stored_velocity_command_is_sent o d hc i h x o' es :
  odrive o = Some d -> sized o ->
  export_command_interfaces o = (Next hc, o, []) ->
  hc !! (3 * i + 1)%nat = Some h ->
  control_level_ o !! i = Some VELOCITY ->
  (forall k, (k < i)%nat -> control_level_ o !! k <> Some UNDEFINED) ->
  write (store (value_ptr h) x o) = (Return OK, o', es) ->
  interface_name h = HW_IF_VELOCITY /\
  exists axis,
    axis_ o !! i = Some axis /\
    es !! i = Some (EvWrite (int_add AXIS__CONTROLLER__INPUT_VEL (int_mul per_axis_offset axis))
                     (Float (binary32_of_double (x / double_of_Z 2 / M_PI)%float)) 0).
Proof.
  intros Hd Hs Hex Hh Hl Hbefore Hw.
  rewrite (export_command_interfaces_run o Hs) in Hex. inversion Hex; subst hc; clear Hex.
  assert (Hi : (i < length (joints (info_ o)))%nat).
  { apply lookup_lt_Some in Hh. rewrite all_handles_length in Hh. lia. }
  destruct (lookup_lt_is_Some_2 (joints (info_ o)) i Hi) as [joint Hj].
  rewrite (all_handles_lookup _ _ _ _ i joint 1 Hj) in Hh by lia.
  simpl in Hh. inversion Hh; subst h; clear Hh. simpl value_ptr in Hw. simpl interface_name.
  split; [reflexivity|].
  unfold store in Hw. simpl target in Hw. simpl offset in Hw.
  set (o1 := set_hw_commands_velocities_ _ o) in Hw.
  assert (Hs1 : sized o1).
  { destruct Hs as (? & ? & ? & ? & ? & ? & ? & ? & ?).
    unfold sized, o1. fields. rewrite length_insert. repeat split; assumption. }
  destruct (write_run o1 d _ o' es Hd Hs1 Hw)
    as (d' & k & pre & tail & _ & _ & Hk & -> & Hpre & Hcase).
  assert (Hik : (i < k)%nat).
  { destruct Hcase as [(_ & -> & _)|[(_ & Hu & _)|(r & e & ? & _)]];
      [exact Hi| |discriminate].
    change (control_level_ o1) with (control_level_ o) in Hu.
    destruct (decide (i < k)%nat) as [|Hge]; [assumption|exfalso].
    destruct (decide (k = i)) as [->|Hne]; [rewrite Hl in Hu; discriminate|].
    apply (Hbefore k); [lia|exact Hu]. }
  destruct (lookup_lt_is_Some_2 pre i) as [e He].
  { rewrite <- (Forall2_length _ _ _ Hpre), length_seq. exact Hik. }
  assert (Hseq : seq 0 k !! i = Some i) by (apply lookup_seq; split; [reflexivity|exact Hik]).
  pose proof (Forall2_lookup_lr _ _ _ _ _ _ Hpre Hseq He) as (endpoint & value & Hsp & ->).
  unfold setpoint in Hsp. change (control_level_ o1) with (control_level_ o) in Hsp.
  change (axis_ o1) with (axis_ o) in Hsp. rewrite Hl in Hsp.
  destruct (axis_ o !! i) as [axis|] eqn:Ha; [|discriminate].
  assert (Hx : hw_commands_velocities_ o1 !! i = Some x).
  { unfold o1. fields. apply list_lookup_insert_eq.
    destruct Hs as (_ & _ & _ & -> & _). exact Hi. }
  ieee_types. rewrite Hx in Hsp. inversion Hsp; subst.
  exists axis. split; [reflexivity|].
  rewrite lookup_app_l by (eapply lookup_lt_Some; eauto). exact He.
Qed.

End Properties.

(** ** The conversions over the real numbers *)

(** Without rounding the conversions of [write] and [read] are inverse:
    [v / 2 / M_PI * 2 * M_PI = v] for every [v], and
    [E / 8.27 * KV * 8.27 / KV = E] for every [E] and every [KV] other than
    zero. *)
Lemma conversions_are_inverse_over_the_reals :
  (forall v : R,
     @radians_of_turns real_arith (@turns_of_radians real_arith v) = v) /\
  (forall (E : R) (KV : Z), KV <> 0 ->
     @effort_of_current real_arith (@current_of_effort real_arith E KV) KV = E).
Proof.
  split.
  - intros v. unfold radians_of_turns, turns_of_radians. simpl.
    field. apply PI_neq0.
  - intros E KV HKV. unfold effort_of_current, current_of_effort. simpl.
    field. apply not_0_IZR. exact HKV.
Qed.

(** ** The conversions in the arithmetic of the code *)

(** *** Rounding: the error of one operation *)






















Section Round.
Variables prec emax : Z.
Hypothesis Hprec : 0 < prec.








End Round.
(** ** The two formats of the code *)

















(** *** The constants of the conversions *)




(** *** The round trips *)









#[local] Existing Instance test_endpoints.
#[local] Existing Instance test_base.

(** ** start and stop on two joints *)

Lemma start_stop_request_every_axis_witness :
  let o := two_joint_object (bench_device []) in
  odrive o = Some (bench_device []) /\ sized o /\
  request_outcome o (bench_device []) 8 STARTED (start o) /\
  request_outcome o (bench_device []) 1 STOPPED (stop o) /\
  no_overflow AXIS__REQUESTED_STATE 1 /\
  requested 8 0 1 = EvWrite 1001 (Int32 8) 0.
Proof.
  cbv zeta.
  set (o := two_joint_object _).
  assert (Hs : sized o) by (repeat split).
  assert (Hno : no_overflow AXIS__REQUESTED_STATE 1) by (repeat split; vm_compute; discriminate).
  destruct (start_stop_request_every_axis o (bench_device []) eq_refl Hs) as (H1 & H2 & H3).
  split; [reflexivity|]. split; [exact Hs|]. split; [exact H1|]. split; [exact H2|].
  split; [exact Hno|]. exact (H3 8 0 1 Hno).
Defined.

Example start_two_joints :
  let run := start (two_joint_object (bench_device [])) in
  run.1.1 = Return OK /\ status_ run.1.2 = STARTED /\
  run.2 = [EvWrite 1 (Int32 8) 0; EvWrite 1001 (Int32 8) 0].
Proof. repeat split. Qed.

Example stop_two_joints :
  let run := stop (two_joint_object (bench_device [])) in
  run.1.1 = Return OK /\ status_ run.1.2 = STOPPED /\
  run.2 = [EvWrite 1 (Int32 1) 0; EvWrite 1001 (Int32 1) 0].
Proof. repeat split. Qed.

Example start_second_axis_fails :
  let run := start (two_joint_object (bench_device [1001])) in
  run.1.1 = Return ERROR /\ status_ run.1.2 = CONFIGURED /\
  run.2 = [EvWrite 1 (Int32 8) 0; EvWrite 1001 (Int32 8) (-1);
           EvError (libusb_error_name (-1))].
Proof. repeat split. Qed.

(** An axis number that [configure] accepts and whose endpoint leaves the
    range of [int]: the register is the wrapped one. *)
Example start_axis_out_of_range :
  let run := configure {| joints := [test_joint "a" "2147483647" "100"] |}
               (@new_object (echo_transport 0 [])) in
  run.1.1 = Return OK /\ axis_ run.1.2 = [2147483647] /\
  ~ no_overflow AXIS__REQUESTED_STATE 2147483647 /\
  (start run.1.2).2 = [EvWrite (-999) (Int32 8) 0].
Proof.
  cbv zeta. split; [vm_compute; reflexivity|]. split; [vm_compute; reflexivity|].
  split; [|vm_compute; reflexivity].
  intros [[_ H] _]. vm_compute in H. apply H. reflexivity.
Qed.

(** ** write on three joints *)

Lemma write_dispatches_on_control_level_witness :
  let o := three_joint_object [EFFORT; VELOCITY; POSITION]
             [0.5; 1; 1.5]%float [1; 2; 0.5]%float [0.1; 0.2; 0.3]%float (bench_device []) in
  odrive o = Some (bench_device []) /\ sized o /\
  (forall i, control_level_ o !! i <> Some UNDEFINED) /\
  exists d' k pre,
    odrive (write o).1.2 = Some d' /\ transfers (bench_device []) (write o).2 d' /\
    Forall2 (wrote o 0) (seq 0 k) pre /\
    (((write o).1.1 = Return OK /\ k = length (joints (info_ o)) /\ (write o).2 = pre) \/
     (exists r e, (write o).1.1 = Return ERROR /\ (k < length (joints (info_ o)))%nat /\
        r <> 0 /\ wrote o r k e /\
        (write o).2 = pre ++ [e; EvError (libusb_error_name r)])).
Proof.
  cbv zeta.
  set (o := three_joint_object _ _ _ _ _).
  assert (Hs : sized o) by (repeat split).
  assert (Hall : forall i, control_level_ o !! i <> Some UNDEFINED).
  { intros [|[|[|i]]]; discriminate. }
  split; [reflexivity|]. split; [exact Hs|]. split; [exact Hall|].
  apply (proj2 (proj2 (proj2
           (write_dispatches_on_control_level o (bench_device []) eq_refl Hs))) Hall).
  destruct (write o) as [[f o'] es]. reflexivity.
Defined.

Example write_three_control_levels :
  let o := three_joint_object [EFFORT; VELOCITY; POSITION]
             [0.5; 1; 1.5]%float [1; 2; 0.5]%float [0.1; 0.2; 0.3]%float (bench_device []) in
  (write o).1.1 = Return OK /\
  (write o).2 =
    [ EvWrite 3 (Float (binary32_of_double (0.1 / 8.27 * 100))) 0;
      EvWrite 1006 (Float (binary32_of_double (2 / 2 / 0x1.921fb54442d18p+1))) 0;
      EvWrite 2007 (Float (binary32_of_double (1.5 / 2 / 0x1.921fb54442d18p+1))) 0 ].
Proof. split; vm_compute; reflexivity. Qed.

Example write_second_transfer_fails :
  let o := three_joint_object [EFFORT; VELOCITY; POSITION]
             [0.5; 1; 1.5]%float [1; 2; 0.5]%float [0.1; 0.2; 0.3]%float (bench_device [1006]) in
  (write o).1.1 = Return ERROR /\
  (write o).2 =
    [ EvWrite 3 (Float (binary32_of_double (0.1 / 8.27 * 100))) 0;
      EvWrite 1006 (Float (binary32_of_double (2 / 2 / 0x1.921fb54442d18p+1))) (-1);
      EvError (libusb_error_name (-1)) ].
Proof. split; vm_compute; reflexivity. Qed.

Lemma write_undefined_returns_at_once_witness :
  let o := three_joint_object [VELOCITY; UNDEFINED; POSITION]
             [0.5; 1; 1.5]%float [1; 2; 0.5]%float [0.1; 0.2; 0.3]%float (bench_device []) in
  odrive o = Some (bench_device []) /\ sized o /\
  control_level_ o !! 1%nat = Some UNDEFINED /\
  write_joint 1 o = (Return OK, o, [nothing_attached]) /\
  exists o1 pre,
    for_range 1 0 write_joint o = (Next tt, o1, pre) /\
    write o = (Return OK, o1, pre ++ [nothing_attached]) /\
    Forall2 (wrote o 0) (seq 0 1) pre.
Proof.
  cbv zeta.
  set (o := three_joint_object _ _ _ _ _).
  assert (Hs : sized o) by (repeat split).
  destruct (write_undefined_returns_at_once o (bench_device []) 1 eq_refl Hs eq_refl)
    as (H1 & H2 & _).
  split; [reflexivity|]. split; [exact Hs|]. split; [reflexivity|]. split; [exact H1|].
  exists (for_range 1 0 write_joint o).1.2, (for_range 1 0 write_joint o).2.
  assert (E : for_range 1 0 write_joint o =
              (Next tt, (for_range 1 0 write_joint o).1.2, (for_range 1 0 write_joint o).2))
    by (vm_compute; reflexivity).
  split; [exact E|]. exact (H2 _ _ E).
Defined.

Example write_stops_at_the_undefined_joint :
  let o := three_joint_object [VELOCITY; UNDEFINED; POSITION]
             [0.5; 1; 1.5]%float [1; 2; 0.5]%float [0.1; 0.2; 0.3]%float (bench_device []) in
  (write o).1.1 = Return OK /\
  (write o).2 =
    [ EvWrite 6 (Float (binary32_of_double (1 / 2 / 0x1.921fb54442d18p+1))) 0;
      nothing_attached ].
Proof. split; vm_compute; reflexivity. Qed.

Example write_fails_before_the_undefined_joint :
  let o := three_joint_object [VELOCITY; UNDEFINED; POSITION]
             [0.5; 1; 1.5]%float [1; 2; 0.5]%float [0.1; 0.2; 0.3]%float (bench_device [6]) in
  (write o).1.1 = Return ERROR /\
  (write o).2 =
    [ EvWrite 6 (Float (binary32_of_double (1 / 2 / 0x1.921fb54442d18p+1))) (-1);
      EvError (libusb_error_name (-1)) ].
Proof. split; vm_compute; reflexivity. Qed.

Lemma write_reads_only_the_selected_command_witness :
  let o1 := three_joint_object [EFFORT; VELOCITY; POSITION]
              [0.5; 1; 1.5]%float [1; 2; 0.5]%float [0.1; 0.2; 0.3]%float (bench_device []) in
  let o2 := three_joint_object [EFFORT; VELOCITY; POSITION]
              [9; 9; 1.5]%float [7; 2; 7]%float [0.1; 5; 5]%float (bench_device []) in
  consulted_commands_agree o1 o2 /\
  (write o1).1.1 = (write o2).1.1 /\
  (write o1).2 = (write o2).2 /\
  odrive (write o1).1.2 = odrive (write o2).1.2.
Proof.
  cbv zeta.
  assert (Hagree : consulted_commands_agree
    (three_joint_object [EFFORT; VELOCITY; POSITION]
       [0.5; 1; 1.5]%float [1; 2; 0.5]%float [0.1; 0.2; 0.3]%float (bench_device []))
    (three_joint_object [EFFORT; VELOCITY; POSITION]
       [9; 9; 1.5]%float [7; 2; 7]%float [0.1; 5; 5]%float (bench_device []))).
  { intros [|[|[|i]]]; simpl; auto. }
  split; [exact Hagree|].
  apply (write_reads_only_the_selected_command _ _ (bench_device []));
    try reflexivity; try (repeat split; fail); exact Hagree.
Defined.

(** ** read on three joints *)

Lemma read_converts_three_measurements_witness :
  let o := three_joint_object [VELOCITY; VELOCITY; VELOCITY]
             [0; 0; 0]%float [0; 0; 0]%float [0; 0; 0]%float (bench_device []) in
  odrive o = Some (bench_device []) /\ sized o /\
  (read o).1.1 = Return OK /\
  exists ms : list (binary32 * binary32 * binary32),
    length ms = 3%nat /\
    (read o).2 = concat (zip_with joint_reads (axis_ o) ms) /\
    forall i Iq_measured vel_estimate pos_estimate,
      ms !! i = Some (Iq_measured, vel_estimate, pos_estimate) ->
      exists axis KV,
        axis_ o !! i = Some axis /\ KV_ o !! i = Some KV /\
        hw_efforts_ (read o).1.2 !! i =
          Some (double_of_binary32 Iq_measured * 8.27 / double_of_Z KV)%float /\
        hw_velocities_ (read o).1.2 !! i =
          Some (double_of_binary32 (SFmul 24 128 vel_estimate (binary32_of_Z 2)) * M_PI)%float /\
        hw_positions_ (read o).1.2 !! i =
          Some (double_of_binary32 (SFmul 24 128 pos_estimate (binary32_of_Z 2)) * M_PI)%float.
Proof.
  cbv zeta.
  set (o := three_joint_object _ _ _ _ _).
  assert (Hs : sized o) by (repeat split).
  assert (E : read o = (Return OK, (read o).1.2, (read o).2)) by (vm_compute; reflexivity).
  split; [reflexivity|]. split; [exact Hs|]. split; [vm_compute; reflexivity|].
  destruct (read_converts_three_measurements o (bench_device []) _ _ eq_refl Hs E)
    as (ms & Hn & Hes & _ & Hms & _).
  exists ms. split; [exact Hn|]. split; [exact Hes|]. exact Hms.
Defined.

Example read_three_joints :
  let o := three_joint_object [VELOCITY; VELOCITY; VELOCITY]
             [0; 0; 0]%float [0; 0; 0]%float [0; 0; 0]%float (bench_device []) in
  (read o).1.1 = Return OK /\
  (read o).2 =
    [ EvRead 2 0 (binary32_of_double 1.5); EvRead 4 0 (binary32_of_double 0.25);
      EvRead 5 0 (binary32_of_double 2);
      EvRead 1002 0 (binary32_of_double (-3)); EvRead 1004 0 (binary32_of_double 0.5);
      EvRead 1005 0 (binary32_of_double 1);
      EvRead 2002 0 (binary32_of_double 0.75); EvRead 2004 0 (binary32_of_double 4);
      EvRead 2005 0 (binary32_of_double (-0.125)) ] /\
  hw_efforts_ (read o).1.2 = [1.5 * 8.27 / 100; -3 * 8.27 / 100; 0.75 * 8.27 / 150]%float /\
  hw_velocities_ (read o).1.2 =
    [0.5 * 0x1.921fb54442d18p+1; 1 * 0x1.921fb54442d18p+1; 8 * 0x1.921fb54442d18p+1]%float /\
  hw_positions_ (read o).1.2 =
    [4 * 0x1.921fb54442d18p+1; 2 * 0x1.921fb54442d18p+1; -0.25 * 0x1.921fb54442d18p+1]%float.
Proof. repeat split; vm_compute; reflexivity. Qed.


Example read_second_joint_fails :
  let o := three_joint_object [VELOCITY; VELOCITY; VELOCITY]
             [0; 0; 0]%float [0; 0; 0]%float [0; 0; 0]%float (bench_device [1004]) in
  (read o).1.1 = Return ERROR /\
  (read o).2 =
    [ EvRead 2 0 (binary32_of_double 1.5); EvRead 4 0 (binary32_of_double 0.25);
      EvRead 5 0 (binary32_of_double 2);
      EvRead 1002 0 (binary32_of_double (-3)); EvRead 1004 (-1) (S754_zero false);
      EvError (libusb_error_name (-1)) ] /\
  hw_efforts_ (read o).1.2 = [1.5 * 8.27 / 100; -3 * 8.27 / 100; quiet_NaN]%float /\
  hw_velocities_ (read o).1.2 = [0.5 * 0x1.921fb54442d18p+1; quiet_NaN; quiet_NaN]%float /\
  hw_positions_ (read o).1.2 = [4 * 0x1.921fb54442d18p+1; quiet_NaN; quiet_NaN]%float.
Proof. repeat split; vm_compute; reflexivity. Qed.

(** ** configure *)

Lemma configure_sizes_every_vector_witness :
  let run := configure three_joints (@new_object (echo_transport 0 [])) in
  constructed (@new_object (echo_transport 0 [])) /\
  run.1.1 = Return OK /\
  hw_positions_ run.1.2 = replicate 3 quiet_NaN /\
  hw_commands_velocities_ run.1.2 = replicate 3 0%float /\
  control_level_ run.1.2 = replicate 3 VELOCITY /\
  let o2 := run_calls [Start; Read; Write; Read; Stop] run.1.2 in
  length (hw_positions_ o2) = 3%nat /\ length (hw_velocities_ o2) = 3%nat /\
  length (hw_efforts_ o2) = 3%nat /\
  length (hw_commands_positions_ o2) = 3%nat /\ length (hw_commands_velocities_ o2) = 3%nat /\
  length (hw_commands_efforts_ o2) = 3%nat /\
  length (control_level_ o2) = 3%nat /\ length (axis_ o2) = 3%nat /\ length (KV_ o2) = 3%nat.
Proof.
  cbv zeta.
  set (run := configure three_joints new_object).
  assert (Hc : constructed (@new_object (echo_transport 0 []))) by (repeat split).
  assert (E : run = (Return OK, run.1.2, run.2)) by (vm_compute; reflexivity).
  destruct (configure_sizes_every_vector three_joints new_object _ _ Hc E)
    as (H1 & _ & _ & _ & H5 & _ & H7 & _ & _ & H10).
  split; [exact Hc|]. split; [vm_compute; reflexivity|].
  split; [exact H1|]. split; [exact H5|]. split; [exact H7|].
  exact (H10 [Start; Read; Write; Read; Stop]).
Defined.

Lemma configure_resizes_before_validating_witness :
  let info := {| joints := [test_joint "a" "0" "100"; short_joint; test_joint "c" "2" "150"] |} in
  let o := @new_object (echo_transport 0 []) in
  configure_default_result info = OK /\
  joints info !! 1%nat = Some short_joint /\ valid_interfaces short_joint = false /\
  constructed o /\
  exists o' t axes kvs,
    configure info o = (Return ERROR, o', [EvError t]) /\
    hw_positions_ o' = replicate 3 quiet_NaN /\
    hw_velocities_ o' = replicate 3 quiet_NaN /\
    hw_efforts_ o' = replicate 3 quiet_NaN /\
    hw_commands_positions_ o' = replicate 3 0%float /\
    hw_commands_velocities_ o' = replicate 3 0%float /\
    hw_commands_efforts_ o' = replicate 3 0%float /\
    control_level_ o' = replicate 3 VELOCITY /\
    axis_ o' = axes /\ KV_ o' = kvs /\ length axes = 1%nat /\ length kvs = 1%nat.
Proof.
  cbv zeta.
  assert (Hc : constructed (@new_object (echo_transport 0 []))) by (repeat split).
  split; [reflexivity|]. split; [reflexivity|]. split; [reflexivity|]. split; [exact Hc|].
  destruct (configure_resizes_before_validating
              {| joints := [test_joint "a" "0" "100"; short_joint; test_joint "c" "2" "150"] |}
              (@new_object (echo_transport 0 [])) 1 short_joint)
    as (o' & t & axes & kvs & Hrun & H); try reflexivity.
  { simpl. constructor; [|constructor].
    split; [reflexivity|]. split; [exists 0|exists 100]; vm_compute; reflexivity. }
  exists o', t, axes, kvs. split; [exact Hrun|].
  cbv zeta in H. apply H. exact Hc.
Defined.

Example configure_second_joint_invalid :
  let info := {| joints := [test_joint "a" "0" "100"; short_joint; test_joint "c" "2" "150"] |} in
  let run := configure info (@new_object (echo_transport 0 [])) in
  run.1.1 = Return ERROR /\
  run.2 = [EvError (Fmt "Joint '%s' has %d command interfaces. 3 expected." ["short"])] /\
  axis_ run.1.2 = [0] /\ KV_ run.1.2 = [100] /\
  hw_positions_ run.1.2 = [quiet_NaN; quiet_NaN; quiet_NaN] /\
  hw_commands_efforts_ run.1.2 = [0; 0; 0]%float /\
  control_level_ run.1.2 = [VELOCITY; VELOCITY; VELOCITY] /\
  odrive run.1.2 = None.
Proof. repeat split; vm_compute; reflexivity. Qed.

(** C5, as stated, fails: a missing or unparsable parameter makes
    [configure] throw, it returns no error status and logs no error; and a
    text that only starts with digits is accepted. *)
Lemma configure_bad_parameter_is_not_an_error_status :
  let o := @new_object (echo_transport 0 []) in
  let missing := configure {| joints := [test_joint "a" "0" "100"; joint_without_axis] |} o in
  let garbled := configure {| joints := [test_joint "a" "zero" "100"] |} o in
  let huge := configure {| joints := [test_joint "a" "0" "99999999999"] |} o in
  let trailing := configure {| joints := [test_joint "a" "1x" "100"] |} o in
  (missing.1.1 = Throw std_out_of_range /\ missing.1.1 <> Return ERROR /\ missing.2 = []) /\
  (garbled.1.1 = Throw std_invalid_argument /\ garbled.1.1 <> Return ERROR /\ garbled.2 = []) /\
  (huge.1.1 = Throw std_out_of_range /\ huge.1.1 <> Return ERROR /\ huge.2 = []) /\
  (trailing.1.1 = Return OK /\ axis_ trailing.1.2 = [1]).
Proof. cbv zeta. repeat split; try (vm_compute; reflexivity); vm_compute; discriminate. Qed.

Lemma configure_throws_on_a_bad_parameter_witness :
  let info := {| joints := [test_joint "a" "0" "100"; joint_without_axis] |} in
  let o := @new_object (echo_transport 0 []) in
  joint_without_axis ∈ joints info /\
  parsed joint_without_axis "axis" = inl std_out_of_range /\
  (configure info o).1.1 <> Return OK /\
  exists o', configure info o = (Throw std_out_of_range, o', []).
Proof.
  cbv zeta.
  set (info := {| joints := [test_joint "a" "0" "100"; joint_without_axis] |}).
  assert (Hin : joint_without_axis ∈ joints info).
  { apply list_elem_of_further, list_elem_of_here. }
  assert (Hp : parsed joint_without_axis "axis" = inl std_out_of_range)
    by (vm_compute; reflexivity).
  destruct (configure_throws_on_a_bad_parameter info (@new_object (echo_transport 0 [])))
    as (_ & H2 & H3 & _).
  split; [exact Hin|]. split; [exact Hp|].
  split; [exact (H2 joint_without_axis "axis" std_out_of_range Hin (or_introl eq_refl) Hp)|].
  apply (H3 1%nat joint_without_axis std_out_of_range); try reflexivity.
  - simpl. constructor; [|constructor].
    split; [reflexivity|]. split; [exists 0|exists 100]; vm_compute; reflexivity.
  - left. exact Hp.
Defined.

(** ** The exported handles, on the bench *)

Lemma export_state_interfaces_handles_witness :
  let o := two_joint_object (bench_device []) in
  sized o /\
  exists hs,
    export_state_interfaces o = (Next hs, o, []) /\ length hs = 6%nat /\
    hs !! 3%nat =
      Some {| handle_name := "b"; interface_name := HW_IF_POSITION;
              value_ptr := {| target := Positions; offset := 1 |} |} /\
    (forall h, h ∈ hs -> is_Some (dereference o (value_ptr h))).
Proof.
  cbv zeta.
  set (o := two_joint_object _).
  assert (Hs : sized o) by (repeat split).
  destruct (export_state_interfaces_handles o Hs) as (hs & H1 & H2 & H3 & H4).
  split; [exact Hs|]. exists hs. split; [exact H1|]. split; [exact H2|].
  split; [exact (proj1 (H3 1%nat (test_joint "b" "1" "100") eq_refl))|exact H4].
Defined.

Lemma export_command_interfaces_handles_witness :
  let o := two_joint_object (bench_device []) in
  sized o /\
  exists hs,
    export_command_interfaces o = (Next hs, o, []) /\ length hs = 6%nat /\
    hs !! 5%nat =
      Some {| handle_name := "b"; interface_name := HW_IF_EFFORT;
              value_ptr := {| target := CommandEfforts; offset := 1 |} |} /\
    (forall h, h ∈ hs -> is_Some (dereference o (value_ptr h))).
Proof.
  cbv zeta.
  set (o := two_joint_object _).
  assert (Hs : sized o) by (repeat split).
  destruct (export_command_interfaces_handles o Hs) as (hs & H1 & H2 & H3 & H4).
  split; [exact Hs|]. exists hs. split; [exact H1|]. split; [exact H2|].
  split; [exact (proj2 (proj2 (H3 1%nat (test_joint "b" "1" "100") eq_refl)))|exact H4].
Defined.

Lemma exported_handles_do_not_alias_witness :
  let o := two_joint_object (bench_device []) in
  let hs := all_handles Positions Velocities Efforts (joints two_joints) in
  let hc := all_handles CommandPositions CommandVelocities CommandEfforts (joints two_joints) in
  export_state_interfaces o = (Next hs, o, []) /\
  export_command_interfaces o = (Next hc, o, []) /\
  sized o /\
  NoDup (value_ptr <$> (hs ++ hc)).
Proof.
  cbv zeta.
  set (o := two_joint_object _).
  assert (Hs : sized o) by (repeat split).
  split; [reflexivity|]. split; [reflexivity|]. split; [exact Hs|].
  apply (exported_handles_do_not_alias o); [reflexivity|reflexivity|exact Hs].
Defined.

Lemma exported_handles_stay_valid_witness :
  let o := two_joint_object (bench_device [1004]) in
  let hs := all_handles Positions Velocities Efforts (joints two_joints) in
  let hc := all_handles CommandPositions CommandVelocities CommandEfforts (joints two_joints) in
  let o2 := run_calls [Start; Read; Write; Read; Stop] o in
  ready o /\
  export_state_interfaces o2 = (Next hs, o2, []) /\
  export_command_interfaces o2 = (Next hc, o2, []) /\
  (forall h, h ∈ hs ++ hc -> is_Some (dereference o2 (value_ptr h))).
Proof.
  cbv zeta.
  set (o := two_joint_object _).
  assert (Hr : ready o) by (split; [repeat split|eexists; reflexivity]).
  split; [exact Hr|].
  apply (exported_handles_stay_valid o _ _ [Start; Read; Write; Read; Stop] Hr);
    reflexivity.
Defined.


(** ** What a call leaves alone, on the bench *)

Lemma write_changes_only_the_transport_witness :
  let o := three_joint_object [EFFORT; VELOCITY; POSITION]
             [0.5; 1; 1.5]%float [1; 2; 0.5]%float [0.1; 0.2; 0.3]%float (bench_device [1006]) in
  odrive o = Some (bench_device [1006]) /\ sized o /\
  (write o).1.1 = Return ERROR /\
  exists d',
    (write o).1.2 = set_odrive (Some d') o /\
    transfers (bench_device [1006]) (write o).2 d' /\
    Forall (fun e => ~ is_EvRead e /\ forall r, e <> EvInit r) (write o).2.
Proof.
  cbv zeta.
  set (o := three_joint_object _ _ _ _ _).
  assert (Hs : sized o) by (repeat split).
  assert (E : write o = ((write o).1.1, (write o).1.2, (write o).2))
    by (destruct (write o) as [[? ?] ?]; reflexivity).
  destruct (write_changes_only_the_transport o (bench_device [1006]) _ _ _ eq_refl Hs E)
    as (d' & H1 & H2 & _ & H4).
  split; [reflexivity|]. split; [exact Hs|]. split; [vm_compute; reflexivity|].
  exists d'. split; [exact H1|]. split; [exact H2|exact H4].
Defined.

Lemma read_changes_only_the_state_witness :
  let o := three_joint_object [EFFORT; VELOCITY; POSITION]
             [0.5; 1; 1.5]%float [1; 2; 0.5]%float [0.1; 0.2; 0.3]%float (bench_device [1004]) in
  odrive o = Some (bench_device [1004]) /\ sized o /\
  (read o).1.1 = Return ERROR /\
  read_frame o (read o).1.2 /\
  Forall (fun e => ~ is_EvWrite e /\ forall r, e <> EvInit r) (read o).2 /\
  (length (read o).2 <= 10)%nat.
Proof.
  cbv zeta.
  set (o := three_joint_object _ _ _ _ _).
  assert (Hs : sized o) by (repeat split).
  assert (E : read o = ((read o).1.1, (read o).1.2, (read o).2))
    by (destruct (read o) as [[? ?] ?]; reflexivity).
  destruct (read_changes_only_the_state o (bench_device [1004]) _ _ _ eq_refl Hs E)
    as (H1 & _ & H3 & H4).
  split; [reflexivity|]. split; [exact Hs|]. split; [vm_compute; reflexivity|].
  split; [exact H1|]. split; [exact H3|exact H4].
Defined.

(** ** More of configure, on the bench *)

Lemma three_joints_ok : Forall joint_ok (joints three_joints).
Proof.
  repeat constructor; try (eexists; vm_compute; reflexivity).
Qed.

Lemma configure_succeeds_exactly_when_witness :
  let run := configure three_joints (@new_object (echo_transport 0 [])) in
  run.1.1 = Return OK /\ run.2 = [EvInit 0] /\ status_ run.1.2 = CONFIGURED /\
  info_ run.1.2 = three_joints.
Proof.
  cbv zeta.
  destruct (configure_succeeds_exactly_when three_joints (@new_object (echo_transport 0 [])))
    as (Hiff & Hok).
  assert (H : (configure three_joints (@new_object (echo_transport 0 []))).1.1 = Return OK).
  { apply Hiff. split; [reflexivity|]. split; [exact three_joints_ok|reflexivity]. }
  destruct (Hok H) as (H1 & H2 & H3 & _).
  split; [exact H|]. split; [exact H1|]. split; [exact H2|exact H3].
Defined.

Lemma configure_init_failure_witness :
  let o := @new_object (echo_transport (-1) []) in
  configure_default_result three_joints = OK /\
  Forall joint_ok (joints three_joints) /\
  (@usb_init (echo_transport (-1) []) usb_new).1 <> 0 /\
  exists o',
    configure three_joints o =
      (Return ERROR, o', [EvInit (-1); EvError (libusb_error_name (-1))]) /\
    status_ o' = UNKNOWN /\ ready o'.
Proof.
  cbv zeta.
  assert (Hi : (@usb_init (echo_transport (-1) []) usb_new).1 <> 0) by discriminate.
  assert (Hd : configure_default_result three_joints = OK) by reflexivity.
  destruct (configure_init_failure three_joints (@new_object (echo_transport (-1) []))
              Hd three_joints_ok Hi) as (o' & H1 & H2 & _ & H4).
  split; [reflexivity|]. split; [exact three_joints_ok|]. split; [exact Hi|].
  exists o'. split; [exact H1|]. split; [exact H2|]. apply H4. repeat split.
Defined.

Lemma configure_checks_only_the_first_interface_witness :
  let info1 := {| joints := [test_joint "a" "0" "100"; test_joint "b" "1" "100"] |} in
  let info2 := {| joints := [unusual_joint "a" "0" "100"; unusual_joint "b" "1" "100"] |} in
  let o := @new_object (echo_transport 0 []) in
  Forall2 same_checked (joints info1) (joints info2) /\
  (configure info1 o).1.1 = (configure info2 o).1.1 /\
  (configure info1 o).2 = (configure info2 o).2 /\
  same_but_info (configure info1 o).1.2 (configure info2 o).1.2.
Proof.
  cbv zeta.
  assert (H : Forall2 same_checked
                [test_joint "a" "0" "100"; test_joint "b" "1" "100"]
                [unusual_joint "a" "0" "100"; unusual_joint "b" "1" "100"]).
  { repeat constructor. }
  split; [exact H|].
  apply (configure_checks_only_the_first_interface
           {| joints := [test_joint "a" "0" "100"; test_joint "b" "1" "100"] |}
           {| joints := [unusual_joint "a" "0" "100"; unusual_joint "b" "1" "100"] |}
           (@new_object (echo_transport 0 [])) H); reflexivity.
Defined.

Lemma configure_again_keeps_the_old_entries_witness :
  let run := configure three_joints (two_joint_object (bench_device [])) in
  run.1.1 = Return OK /\
  hw_commands_velocities_ run.1.2 = [1; 2; 0]%float /\
  hw_positions_ run.1.2 = [quiet_NaN; quiet_NaN; quiet_NaN] /\
  length (axis_ run.1.2) = 5%nat /\ length (KV_ run.1.2) = 5%nat /\
  ~ sized run.1.2.
Proof.
  cbv zeta.
  set (run := configure three_joints (two_joint_object (bench_device []))).
  assert (E : run = (Return OK, run.1.2, run.2)) by (vm_compute; reflexivity).
  destruct (configure_again_keeps_the_old_entries three_joints _ _ _ E)
    as (H1 & _ & _ & _ & H5 & _ & _ & H8 & H9 & _ & _ & H11).
  split; [vm_compute; reflexivity|]. split; [exact H5|]. split; [exact H1|].
  split; [exact H8|]. split; [exact H9|].
  intros Hs. apply H11 in Hs. destruct Hs as [Hs _]. discriminate Hs.
Defined.

(** ** From configure to the wire, on the bench *)

Lemma after_configure_write_sends_velocities_witness :
  let o1 := (configure three_joints (@new_object (echo_transport 0 []))).1.2 in
  let o2 := run_calls [Start; Read; Write] o1 in
  constructed (@new_object (echo_transport 0 [])) /\
  control_level_ o2 = replicate 3 VELOCITY /\
  exists k pre,
    Forall2 (velocity_write o2 0) (seq 0 k) pre /\
    (((write o2).1.1 = Return OK /\ k = 3%nat /\ (write o2).2 = pre) \/
     (exists r e, (write o2).1.1 = Return ERROR /\ (k < 3)%nat /\ r <> 0 /\
        velocity_write o2 r k e /\
        (write o2).2 = pre ++ [e; EvError (libusb_error_name r)])).
Proof.
  cbv zeta.
  set (run := configure three_joints new_object).
  assert (Hc : constructed (@new_object (echo_transport 0 []))) by (repeat split).
  assert (E : run = (Return OK, run.1.2, run.2)) by (vm_compute; reflexivity).
  set (o2 := run_calls _ _).
  assert (E2 : write o2 = ((write o2).1.1, (write o2).1.2, (write o2).2))
    by (destruct (write o2) as [[? ?] ?]; reflexivity).
  split; [exact Hc|].
  exact (after_configure_write_sends_velocities three_joints new_object _ _
           [Start; Read; Write] _ _ _ Hc E E2).
Defined.

Lemma read_with_zero_KV_is_not_finite_witness :
  let run := configure {| joints := [test_joint "a" "0" "0"] |} (@new_object (echo_transport 0 [])) in
  let o := set_odrive (Some (bench_device [])) run.1.2 in
  run.1.1 = Return OK /\
  odrive o = Some (bench_device []) /\ sized o /\
  (read o).1.1 = Return OK /\ KV_ o !! 0%nat = Some 0 /\
  exists effort, hw_efforts_ (read o).1.2 !! 0%nat = Some effort /\ not_finite effort.
Proof.
  cbv zeta.
  set (o := set_odrive _ _).
  assert (Hs : sized o) by (repeat split).
  assert (E : read o = (Return OK, (read o).1.2, (read o).2)) by (vm_compute; reflexivity).
  split; [vm_compute; reflexivity|]. split; [reflexivity|]. split; [exact Hs|].
  split; [vm_compute; reflexivity|]. split; [reflexivity|].
  exact (read_with_zero_KV_is_not_finite o (bench_device []) _ _ 0 eq_refl Hs E eq_refl).
Defined.

Lemma stored_velocity_command_is_sent_witness :
  let o := two_joint_object (bench_device []) in
  let hc := all_handles CommandPositions CommandVelocities CommandEfforts (joints two_joints) in
  let h := {| handle_name := "b"; interface_name := HW_IF_VELOCITY;
              value_ptr := {| target := CommandVelocities; offset := 1 |} |} in
  odrive o = Some (bench_device []) /\ sized o /\
  export_command_interfaces o = (Next hc, o, []) /\
  hc !! 4%nat = Some h /\
  (write (store (value_ptr h) 3 o)).1.1 = Return OK /\
  exists axis,
    axis_ o !! 1%nat = Some axis /\
    (write (store (value_ptr h) 3 o)).2 !! 1%nat =
      Some (EvWrite (int_add AXIS__CONTROLLER__INPUT_VEL (int_mul per_axis_offset axis))
              (Float (binary32_of_double (3 / double_of_Z 2 / M_PI)%float)) 0).
Proof.
  cbv zeta.
  set (o := two_joint_object _).
  set (h := {| handle_name := "b"; interface_name := HW_IF_VELOCITY;
               value_ptr := {| target := CommandVelocities; offset := 1 |} |}).
  assert (Hs : sized o) by (repeat split).
  assert (E : write (store (value_ptr h) 3 o) =
              (Return OK, (write (store (value_ptr h) 3 o)).1.2,
               (write (store (value_ptr h) 3 o)).2)) by (vm_compute; reflexivity).
  assert (Hb : forall k, (k < 1)%nat -> control_level_ o !! k <> Some UNDEFINED).
  { intros [|k] Hk; [discriminate|lia]. }
  split; [reflexivity|]. split; [exact Hs|]. split; [reflexivity|]. split; [reflexivity|].
  split; [vm_compute; reflexivity|].
  exact (proj2 (stored_velocity_command_is_sent o (bench_device []) _ 1 h 3 _ _
                  eq_refl Hs eq_refl eq_refl eq_refl Hb E)).
Defined.
